(** * The decoders of the sequence-to-sequence model

    A shallow embedding of [seq_to_seq_model/decoder.py] (the classes
    [Decoder], [AttentionDecoder], [GloballyAttentiveDecoder] and
    [LocallyAttentiveDecoder]), of [helper.initialize_out_of_vocab_words]
    and of the data utilities of [helper.py].

    Conventions of the embedding:
    - tensor entries are real numbers ([R]); rounding of machine floats is
      not modelled;
    - a tensor is its shape together with an indexing function, so that the
      shape checks of the tensor operations can be written out as the
      framework performs them;
    - an operation that can raise returns a [result]; the exception classes
      are the constructors of [exn];
    - a Python object is its attribute dictionary ([gmap string attr]);
    - random draws (parameter initialisation, dropout masks, the normal
      sampler) are explicit arguments. *)

From Stdlib Require Import Reals Lra Lia List String FunctionalExtensionality.
From stdpp Require Import base option strings pretty gmap.

Open Scope R_scope.

(** ** Exceptions and the error monad *)

Inductive exn : Type :=
| ValueError
| AttributeError (name : string)
| IndexError
| TypeError
| StopIteration
| ShapeMismatch.

Inductive result (A : Type) : Type :=
| Ok (a : A)
| Raise (e : exn).
Arguments Ok {A} a.
Arguments Raise {A} e.

#[global] Instance result_ret : MRet result := fun _ a => Ok a.
#[global] Instance result_bind : MBind result := fun _ _ k m =>
  match m with
  | Ok a => k a
  | Raise e => Raise e
  end.

Definition guard (b : bool) (e : exn) : result unit :=
  if b then Ok tt else Raise e.

Definition is_ok {A : Type} (m : result A) : Prop :=
  match m with Ok _ => True | Raise _ => False end.

Definition raises {A : Type} (m : result A) : Prop :=
  match m with Ok _ => False | Raise _ => True end.

(** ** Finite sums *)

Fixpoint rsum (n : nat) (f : nat -> R) : R :=
  match n with
  | O => 0
  | S k => rsum k f + f k
  end.

(** ** Tensors of rank 1, 2 and 3 *)

Record tensor1 : Type := T1 { len1 : nat; at1 : nat -> R }.
Record tensor2 : Type := T2 { rows2 : nat; cols2 : nat; at2 : nat -> nat -> R }.
Record tensor3 : Type :=
  T3 { dim0 : nat; dim1 : nat; dim2 : nat; at3 : nat -> nat -> nat -> R }.

Definition shape2 (t : tensor2) : nat * nat := (rows2 t, cols2 t).
Definition shape3 (t : tensor3) : nat * nat * nat := (dim0 t, dim1 t, dim2 t).

Definition shape3_eqb (t : tensor3) (a b c : nat) : bool :=
  Nat.eqb (dim0 t) a && Nat.eqb (dim1 t) b && Nat.eqb (dim2 t) c.

(** [Variable(weight.new(a, b, c).zero_())] *)
Definition zeros3 (a b c : nat) : tensor3 := T3 a b c (fun _ _ _ => 0).


(** *** Shape manipulation

    [unsqueeze(1)] inserts an axis of size 1; [squeeze(1)] removes axis 1
    when it has size 1.  Every [squeeze(1)] of the decoders is applied to a
    tensor whose axis 1 has size 1 (it comes from [unsqueeze(1)], from a
    [torch.cat] that checked it, or from a product with a one-row tensor),
    so the embedding reads the only index, 0, of that axis. *)

Definition unsqueeze1 (x : tensor2) : tensor3 :=
  T3 (rows2 x) 1 (cols2 x) (fun i _ k => at2 x i k).

Definition squeeze1 (x : tensor3) : tensor2 :=
  T2 (dim0 x) (dim2 x) (fun i k => at3 x i 0%nat k).

(** [squeeze(1)] of a (b, 1) tensor. *)
Definition squeeze1_2 (x : tensor2) : tensor1 :=
  T1 (rows2 x) (fun i => at2 x i 0%nat).

(** [torch.transpose(x, 1, 2)] *)
Definition transpose12 (x : tensor3) : tensor3 :=
  T3 (dim0 x) (dim2 x) (dim1 x) (fun i j k => at3 x i k j).

(** [w.expand(b, *w.size())]: a new leading axis of size [b]. *)
Definition expand_batch (b : nat) (w : tensor2) : tensor3 :=
  T3 b (rows2 w) (cols2 w) (fun _ j k => at2 w j k).

(** [v.unsqueeze(1).expand(v.size(0), n)] *)
Definition unsqueeze1_expand (v : tensor1) (n : nat) : tensor2 :=
  T2 (len1 v) n (fun i _ => at1 v i).

(** [v.expand(b, v.size(0))] *)
Definition expand_rows (b : nat) (v : tensor1) : tensor2 :=
  T2 b (len1 v) (fun _ j => at1 v j).

(** [x.expand(r, c)] on a tensor of rank 2: every axis must already have
    the requested size or size 1. *)
Definition expand2 (x : tensor2) (r c : nat) : result tensor2 :=
  _ ← guard (Nat.eqb (rows2 x) r || Nat.eqb (rows2 x) 1) ShapeMismatch;
  _ ← guard (Nat.eqb (cols2 x) c || Nat.eqb (cols2 x) 1) ShapeMismatch;
  Ok (T2 r c (fun i j =>
        at2 x (if Nat.eqb (rows2 x) r then i else 0%nat)
              (if Nat.eqb (cols2 x) c then j else 0%nat))).

(** [torch.cat((x, y), 1)] on tensors of rank 2. *)
Definition cat1 (x y : tensor2) : result tensor2 :=
  _ ← guard (Nat.eqb (rows2 x) (rows2 y)) ShapeMismatch;
  Ok (T2 (rows2 x) (cols2 x + cols2 y)
         (fun i k => if Nat.ltb k (cols2 x) then at2 x i k
                     else at2 y i (k - cols2 x))).

(** [torch.cat((x, y), 2)] on tensors of rank 3. *)
Definition cat2 (x y : tensor3) : result tensor3 :=
  _ ← guard (Nat.eqb (dim0 x) (dim0 y) && Nat.eqb (dim1 x) (dim1 y))
        ShapeMismatch;
  Ok (T3 (dim0 x) (dim1 x) (dim2 x + dim2 y)
         (fun i j k => if Nat.ltb k (dim2 x) then at3 x i j k
                       else at3 y i j (k - dim2 x))).

(** *** Arithmetic *)

(** [torch.bmm(x, y)]: (b, n, m) times (b, m, p). *)
Definition bmm (x y : tensor3) : result tensor3 :=
  _ ← guard (Nat.eqb (dim0 x) (dim0 y) && Nat.eqb (dim2 x) (dim1 y))
        ShapeMismatch;
  Ok (T3 (dim0 x) (dim1 x) (dim2 y)
         (fun i j k => rsum (dim2 x) (fun l => at3 x i j l * at3 y i l k))).

Definition map1 (f : R -> R) (x : tensor1) : tensor1 :=
  T1 (len1 x) (fun i => f (at1 x i)).
Definition map2 (f : R -> R) (x : tensor2) : tensor2 :=
  T2 (rows2 x) (cols2 x) (fun i j => f (at2 x i j)).
Definition map3 (f : R -> R) (x : tensor3) : tensor3 :=
  T3 (dim0 x) (dim1 x) (dim2 x) (fun i j k => f (at3 x i j k)).

(** Elementwise binary operation on tensors of rank 2 of one shape
    ([torch.mul(x, y)], [x.sub(y)]). *)
Definition zip2 (f : R -> R -> R) (x y : tensor2) : result tensor2 :=
  _ ← guard (Nat.eqb (rows2 x) (rows2 y) && Nat.eqb (cols2 x) (cols2 y))
        ShapeMismatch;
  Ok (T2 (rows2 x) (cols2 x) (fun i j => f (at2 x i j) (at2 y i j))).

Definition relu (x : R) : R := Rmax 0 x.
Definition sigmoid (x : R) : R := 1 / (1 + exp (- x)).

(** [F.softmax(x)] and [F.log_softmax(x)] on a tensor of rank 2 normalise
    along axis 1. *)
Definition softmax (x : tensor2) : tensor2 :=
  T2 (rows2 x) (cols2 x)
     (fun i j => exp (at2 x i j) / rsum (cols2 x) (fun k => exp (at2 x i k))).

Definition log_softmax (x : tensor2) : tensor2 :=
  T2 (rows2 x) (cols2 x)
     (fun i j => at2 x i j - ln (rsum (cols2 x) (fun k => exp (at2 x i k)))).

(** [torch.range(0, n - 1, 1)]: the values 0, 1, ..., n - 1; the bounds
    must agree with the sign of the step, so [n = 0] is refused. *)
Definition range0 (n : nat) : result tensor1 :=
  _ ← guard (Nat.ltb 0 n) ValueError;
  Ok (T1 n (fun s => INR s)).

(** ** Layers of [torch.nn] *)

(** [nn.Embedding(num_embeddings, embedding_dim)] *)
Record Embedding : Type :=
  { num_embeddings : nat; embedding_dim : nat; emb_weight : nat -> nat -> R }.

(** Calling the embedding on a batch of token ids. *)
Definition embed (e : Embedding) (input : list nat) : result tensor2 :=
  _ ← guard (forallb (fun t => Nat.ltb t (num_embeddings e)) input) IndexError;
  Ok (T2 (length input) (embedding_dim e)
         (fun i k => emb_weight e (nth i input 0%nat) k)).

(** [nn.Linear(in_features, out_features)]: y = x Wᵗ + b. *)
Record Linear : Type :=
  { in_features : nat; out_features : nat;
    lin_weight : nat -> nat -> R; lin_bias : nat -> R }.

Definition linear (l : Linear) (x : tensor2) : result tensor2 :=
  _ ← guard (Nat.eqb (cols2 x) (in_features l)) ShapeMismatch;
  Ok (T2 (rows2 x) (out_features l)
         (fun i o => rsum (in_features l) (fun k => at2 x i k * lin_weight l o k)
                     + lin_bias l o)).

(** [nn.Dropout(p)].  A call multiplies its argument by a sampled mask
    (all ones in evaluation mode); the masks of the successive calls of one
    [forward] are an argument of the embedding. *)
Definition mask : Type := nat -> nat -> nat -> R.

Definition drop2 (m : mask) (x : tensor2) : tensor2 :=
  T2 (rows2 x) (cols2 x) (fun i k => m i 0%nat k * at2 x i k).
Definition drop3 (m : mask) (x : tensor3) : tensor3 :=
  T3 (dim0 x) (dim1 x) (dim2 x) (fun i j k => m i j k * at3 x i j k).

(** Hidden state: one tensor (GRU, RNN) or the pair (h, c) (LSTM). *)
Inductive hidden_state : Type :=
| HTensor (h : tensor3)
| HTuple (h c : tensor3).

Inductive rnn_mode : Type := LSTM | GRU | RNN_TANH | RNN_RELU.

(** [nn.LSTM], [nn.GRU], [nn.RNN] built with [batch_first=True].  The
    arithmetic of the module is library code: [rnn_cell] gives, for an input
    and a hidden state, the entries of the output, of the new hidden state
    and (LSTM) of the new cell state. *)
Record RNNModule : Type :=
  { mode : rnn_mode;
    input_size : nat;
    hidden_size : nat;
    num_layers : nat;
    rnn_cell : tensor3 -> hidden_state ->
               (nat -> nat -> nat -> R) * (nat -> nat -> nat -> R)
               * (nat -> nat -> nat -> R) }.

(** Calling the module: the width of the input and the shape of the hidden
    state are checked; the output is (batch, seq, hidden_size), the new
    hidden state (num_layers, batch, hidden_size). *)
Definition rnn_call (r : RNNModule) (x : tensor3) (h : hidden_state)
  : result (tensor3 * hidden_state) :=
  _ ← guard (Nat.eqb (dim2 x) (input_size r)) ShapeMismatch;
  let '(o, hn, cn) := rnn_cell r x h in
  let out := T3 (dim0 x) (dim1 x) (hidden_size r) o in
  let new s := T3 (num_layers r) (dim0 x) (hidden_size r) s in
  match mode r, h with
  | LSTM, HTuple h0 c0 =>
      _ ← guard (shape3_eqb h0 (num_layers r) (dim0 x) (hidden_size r)
                 && shape3_eqb c0 (num_layers r) (dim0 x) (hidden_size r))
            ShapeMismatch;
      Ok (out, HTuple (new hn) (new cn))
  | LSTM, HTensor _ => Raise TypeError
  | _, HTensor h0 =>
      _ ← guard (shape3_eqb h0 (num_layers r) (dim0 x) (hidden_size r))
            ShapeMismatch;
      Ok (out, HTensor (new hn))
  | _, HTuple _ _ => Raise TypeError
  end.

(** ** Objects

    A decoder instance is the dictionary of the attributes its constructor
    assigned; reading an attribute that was never assigned raises
    [AttributeError]. *)

(** Modelled from the spec: the configuration object the constructors
    receive is built outside the two source files; the decoders read its
    fields [model], [emsize], [nhid], [nlayers] and [dropout]. *)
Record config : Type :=
  { model : string; emsize : nat; nhid : nat; nlayers : nat; dropout : R }.

Inductive attr : Type :=
| AConfig (c : config)
| AEmbedding (e : Embedding)
| ALinear (l : Linear)
| ADropout (p : R)
| ARNN (r : RNNModule)
| AParameter (w : tensor2)
| AInt (n : Z)
| AStr (s : string).

Definition getattr (self : gmap string attr) (name : string) : result attr :=
  match self !! name with
  | Some a => Ok a
  | None => Raise (AttributeError name)
  end.

Definition as_config (a : attr) : result config :=
  match a with AConfig c => Ok c | _ => Raise TypeError end.
Definition as_embedding (a : attr) : result Embedding :=
  match a with AEmbedding e => Ok e | _ => Raise TypeError end.
Definition as_linear (a : attr) : result Linear :=
  match a with ALinear l => Ok l | _ => Raise TypeError end.
Definition as_rnn (a : attr) : result RNNModule :=
  match a with ARNN r => Ok r | _ => Raise TypeError end.
Definition as_parameter (a : attr) : result tensor2 :=
  match a with AParameter w => Ok w | _ => Raise TypeError end.
Definition as_dropout (a : attr) : result R :=
  match a with ADropout p => Ok p | _ => Raise TypeError end.
Definition as_int (a : attr) : result Z :=
  match a with AInt n => Ok n | _ => Raise TypeError end.

(** [self.parameters()]: the attributes that hold trainable tensors. *)
Definition holds_parameters (a : attr) : bool :=
  match a with
  | AEmbedding _ | ALinear _ | ARNN _ | AParameter _ => true
  | _ => false
  end.

Definition parameters (self : gmap string attr) : list attr :=
  List.filter holds_parameters (map_to_list self).*2.

(** [next(it)] *)
Definition next {A : Type} (it : list A) : result A :=
  match it with
  | a :: _ => Ok a
  | [] => Raise StopIteration
  end.

(** *** Construction

    The constructors draw the initial values of the parameters at random;
    [init_values] is the outcome of those draws.  Each constructor of a
    layer is paired with the shapes of the tensors it allocates. *)

Record init_values : Type :=
  { init_embedding : nat -> nat -> R;
    init_out : (nat -> nat -> R) * (nat -> R);
    init_attn : (nat -> nat -> R) * (nat -> R);
    init_attn_combine : (nat -> nat -> R) * (nat -> R);
    init_weight : nat -> nat -> R;
    init_weight_p : nat -> nat -> R;
    init_weight_v : nat -> nat -> R;
    init_rnn : tensor3 -> hidden_state ->
               (nat -> nat -> nat -> R) * (nat -> nat -> nat -> R)
               * (nat -> nat -> nat -> R) }.

Definition shape : Type := list nat.

Definition nn_Embedding (w : nat -> nat -> R) (n d : nat)
  : Embedding * list shape :=
  ({| num_embeddings := n; embedding_dim := d; emb_weight := w |}, [[n; d]]).

Definition nn_Linear (wb : (nat -> nat -> R) * (nat -> R)) (i o : nat)
  : Linear * list shape :=
  ({| in_features := i; out_features := o;
      lin_weight := wb.1; lin_bias := wb.2 |}, [[o; i]; [o]]).

(** [nn.Parameter(torch.Tensor(r, c))] followed by [init.xavier_normal]. *)
Definition nn_Parameter (w : nat -> nat -> R) (r c : nat)
  : tensor2 * list shape :=
  (T2 r c w, [[r; c]]).

Definition gate_size (m : rnn_mode) (h : nat) : nat :=
  match m with
  | LSTM => 4 * h
  | GRU => 3 * h
  | RNN_TANH | RNN_RELU => h
  end.

(** Weights of the recurrent module: per layer w_ih, w_hh, b_ih, b_hh. *)
Fixpoint rnn_shapes (m : rnn_mode) (i h layers : nat) : list shape :=
  match layers with
  | O => []
  | S l =>
      rnn_shapes m i h l ++
      [[gate_size m h; match l with O => i | S _ => h end];
       [gate_size m h; h]; [gate_size m h]; [gate_size m h]]
  end.

Definition nn_recurrent (cell : tensor3 -> hidden_state ->
                                (nat -> nat -> nat -> R) * (nat -> nat -> nat -> R)
                                * (nat -> nat -> nat -> R))
  (m : rnn_mode) (i h layers : nat) : RNNModule * list shape :=
  ({| mode := m; input_size := i; hidden_size := h; num_layers := layers;
      rnn_cell := cell |}, rnn_shapes m i h layers).

(** [getattr(nn, name)] for the two names the constructors pass. *)
Definition nn_getattr (name : string) : result rnn_mode :=
  if String.eqb name "LSTM" then Ok LSTM
  else if String.eqb name "GRU" then Ok GRU
  else Raise (AttributeError name).

(** [{'RNN_TANH': 'tanh', 'RNN_RELU': 'relu'}] *)
Definition nonlinearities : gmap string string :=
  <["RNN_TANH" := "tanh"]> (<["RNN_RELU" := "relu"]> ∅).

(** [nn.RNN(..., nonlinearity=nl)] *)
Definition nn_RNN_mode (nl : string) : result rnn_mode :=
  if String.eqb nl "tanh" then Ok RNN_TANH
  else if String.eqb nl "relu" then Ok RNN_RELU
  else Raise ValueError.

(** The tail shared by the four constructors: the choice of the recurrent
    module from [config.model], for the input width [i].  [self] and
    [allocated] are the attributes assigned and the tensors allocated so
    far. *)
Definition make_rnn (values : init_values) (config : config) (i : nat)
  (self : gmap string attr) (allocated : list shape)
  : list shape * result (gmap string attr) :=
  if bool_decide (model config ∈ ["LSTM"; "GRU"]) then
    match nn_getattr (model config) with
    | Ok m =>
        let '(rnn, a) :=
          nn_recurrent (init_rnn values) m i (nhid config) (nlayers config) in
        (allocated ++ a, Ok (<["rnn" := ARNN rnn]> self))
    | Raise e => (allocated, Raise e)
    end
  else
    match nonlinearities !! model config with
    | None => (allocated, Raise ValueError)
    | Some nonlinearity =>
        match nn_RNN_mode nonlinearity with
        | Ok m =>
            let '(rnn, a) :=
              nn_recurrent (init_rnn values) m i (nhid config) (nlayers config) in
            (allocated ++ a, Ok (<["rnn" := ARNN rnn]> self))
        | Raise e => (allocated, Raise e)
        end
    end.

(** The loop [for i in range(n): ... self.rnn(output, hidden) ...] of the
    four [forward] methods.  [pre] is applied to the output before the
    module is called and [post i] after it. *)
Fixpoint rnn_loop (rnn : RNNModule) (pre : tensor3 -> tensor3)
  (post : nat -> tensor3 -> tensor3) (n i : nat)
  (output : tensor3) (h : hidden_state) : result (tensor3 * hidden_state) :=
  match n with
  | O => Ok (output, h)
  | S n' =>
      '(output, h) ← rnn_call rnn (pre output) h;
      rnn_loop rnn pre post n' (S i) (post i output) h
  end.

(** [init_weights(bsz)].  The body is the same in the four classes up to
    the names of the attributes it reads: [nlayers] and [nhid] in
    [Decoder], [n_layers] and [hidden_size] in the other three. *)
Definition attr_is_str (a : attr) (s : string) : bool :=
  match a with AStr s' => String.eqb s' s | _ => false end.

(** [Variable(weight.new(self.<layers>, bsz, self.<width>).zero_())] *)
Definition new_zeros (layers_name width_name : string)
  (self : gmap string attr) (bsz : nat) : result tensor3 :=
  layers ← getattr self layers_name ≫= as_int;
  width ← getattr self width_name ≫= as_int;
  _ ← guard (Z.leb 0 layers && Z.leb 0 width) ValueError;
  Ok (zeros3 (Z.to_nat layers) bsz (Z.to_nat width)).

Definition init_weights_with (layers_name width_name : string)
  (self : gmap string attr) (bsz : nat) : result hidden_state :=
  weight ← next (parameters self);
  rnn_type ← getattr self "rnn_type";
  if attr_is_str rnn_type "LSTM" then
    h ← new_zeros layers_name width_name self bsz;
    c ← new_zeros layers_name width_name self bsz;
    Ok (HTuple h c)
  else
    h ← new_zeros layers_name width_name self bsz;
    Ok (HTensor h).

(** ** [helper.initialize_out_of_vocab_words] and [init_embedding_weights] *)

(** The generator of [np.random]: the standard normal deviates it will
    produce, and the number already consumed. *)
Record rng : Type := RNG { deviates : nat -> R; consumed : nat }.

(** [np.random.normal(loc, scale, size)] *)
Definition np_random_normal (loc scale : R) (size : nat) (g : rng)
  : list R * rng :=
  (List.map (fun k => loc + scale * deviates g (consumed g + k)) (seq 0 size),
   RNG (deviates g) (consumed g + size)).

Module helper.

(** [np.random.normal(size=dimension)]: [loc] and [scale] take their
    defaults 0.0 and 1.0. *)
Definition initialize_out_of_vocab_words (dimension : nat) (g : rng)
  : list R * rng :=
  np_random_normal 0 1 dimension g.

End helper.

(** Modelled from the spec: the vocabulary class is not among the source
    files; it is an ordered mapping between ids and words, [idx2word] lists
    the words by id and [len(dictionary)] is the length of that list. *)
Record Dictionary : Type := { idx2word : list string }.

(** [pretrained_weight[i] = v] on a row of width [d]: numpy broadcasts a
    vector of length 1 and refuses any other length than [d]. *)
Definition assign_row (d : nat) (v : list R) : result (list R) :=
  if Nat.eqb (length v) d then Ok v
  else if Nat.eqb (length v) 1 then Ok (repeat (nth 0 v 0) d)
  else Raise ValueError.

(** The loop over [range(len(dictionary))]; the rows come out in the order
    of the ids. *)
Fixpoint fill_rows (words : list string) (embeddings_index : gmap string (list R))
  (d : nat) (g : rng) : result (list (list R) * rng) :=
  match words with
  | [] => Ok ([], g)
  | w :: rest =>
      '(row, g) ←
        match embeddings_index !! w with
        | Some v => row ← assign_row d v; Ok (row, g)
        | None =>
            let '(v, g') := helper.initialize_out_of_vocab_words d g in
            row ← assign_row d v; Ok (row, g')
        end;
      '(rows, g) ← fill_rows rest embeddings_index d g;
      Ok (row :: rows, g)
  end.

(** [self.embedding.weight.data.copy_(torch.from_numpy(pretrained_weight))]
    where [pretrained_weight] has shape (n, d). *)
Definition copy_from_numpy (e : Embedding) (n d : nat) (m : list (list R))
  : result Embedding :=
  _ ← guard (Nat.eqb n (num_embeddings e) && Nat.eqb d (embedding_dim e))
        ShapeMismatch;
  Ok {| num_embeddings := num_embeddings e;
        embedding_dim := embedding_dim e;
        emb_weight := fun i k => nth k (nth i m []) 0 |}.

(** [init_embedding_weights]: the four classes carry the same method,
    line for line.  It returns the instance with its embedding overwritten
    and the generator after the draws. *)
Definition init_embedding_weights (self : gmap string attr)
  (dictionary : Dictionary) (embeddings_index : gmap string (list R))
  (embedding_dim : nat) (g : rng) : result (gmap string attr * rng) :=
  '(pretrained_weight, g) ←
    fill_rows (idx2word dictionary) embeddings_index embedding_dim g;
  embedding ← getattr self "embedding" ≫= as_embedding;
  embedding ← copy_from_numpy embedding (length (idx2word dictionary))
                embedding_dim pretrained_weight;
  Ok (<["embedding" := AEmbedding embedding]> self, g).

(** [self.embedding.weight[i]] as a list. *)
Definition embedding_row (self : gmap string attr) (i : nat) : result (list R) :=
  e ← getattr self "embedding" ≫= as_embedding;
  _ ← guard (Nat.ltb i (num_embeddings e)) IndexError;
  Ok (List.map (emb_weight e i) (seq 0 (embedding_dim e))).

(** ** [class Decoder] *)

Module Decoder.

Definition __init__ (values : init_values) (input_size : nat) (config : config)
  : list shape * result (gmap string attr) :=
  let self : gmap string attr := <["config" := AConfig config]> ∅ in
  let '(embedding, a1) :=
    nn_Embedding (init_embedding values) input_size (emsize config) in
  let self := <["embedding" := AEmbedding embedding]> self in
  let self := <["drop" := ADropout (dropout config)]> self in
  let '(out, a2) := nn_Linear (init_out values) (nhid config) input_size in
  let self := <["out" := ALinear out]> self in
  make_rnn values config (emsize config) self (a1 ++ a2).

Definition forward (self : gmap string attr) (masks : nat -> mask)
  (input : list nat) (hidden : hidden_state) : result (tensor2 * hidden_state) :=
  _ ← getattr self "drop" ≫= as_dropout;
  embedding ← getattr self "embedding" ≫= as_embedding;
  embedded ← embed embedding input;
  let output := unsqueeze1 (drop2 (masks 0%nat) embedded) in
  config ← getattr self "config" ≫= as_config;
  rnn ← getattr self "rnn" ≫= as_rnn;
  '(output, hidden) ←
    rnn_loop rnn (fun x => x) (fun i => drop3 (masks (S i))) (nlayers config) 0 output hidden;
  out ← getattr self "out" ≫= as_linear;
  logits ← linear out (squeeze1 output);
  Ok (log_softmax logits, hidden).

Definition init_weights : gmap string attr -> nat -> result hidden_state :=
  init_weights_with "nlayers" "nhid".

End Decoder.

(** ** [class AttentionDecoder] *)

Module AttentionDecoder.

Definition __init__ (values : init_values) (input_size max_sent_length : nat)
  (config : config) : list shape * result (gmap string attr) :=
  let self : gmap string attr := <["config" := AConfig config]> ∅ in
  let '(embedding, a1) :=
    nn_Embedding (init_embedding values) input_size (emsize config) in
  let self := <["embedding" := AEmbedding embedding]> self in
  let '(attn, a2) :=
    nn_Linear (init_attn values) (nhid config * 2) max_sent_length in
  let self := <["attn" := ALinear attn]> self in
  let '(attn_combine, a3) :=
    nn_Linear (init_attn_combine values) (nhid config * 2) (nhid config) in
  let self := <["attn_combine" := ALinear attn_combine]> self in
  let self := <["drop" := ADropout (dropout config)]> self in
  let '(out, a4) := nn_Linear (init_out values) (nhid config) input_size in
  let self := <["out" := ALinear out]> self in
  make_rnn values config (emsize config) self (a1 ++ a2 ++ a3 ++ a4).

(** [hidden[0][hidden[0].size(0) - 1]].  On the pair of an LSTM [hidden[0]]
    is h and the result its last layer, a (batch, hidden) matrix.  On a
    single tensor [hidden[0]] is already a matrix and the result a vector,
    which [torch.cat] refuses next to the rank-2 [embedded]. *)
Definition final_layer (hidden : hidden_state) : result tensor2 :=
  match hidden with
  | HTuple h _ =>
      _ ← guard (Nat.ltb 0 (dim0 h)) IndexError;
      Ok (T2 (dim1 h) (dim2 h) (at3 h (dim0 h - 1)))
  | HTensor t =>
      _ ← guard (Nat.ltb 0 (dim0 t) && Nat.ltb 0 (dim1 t)) IndexError;
      Raise ShapeMismatch
  end.

Definition forward (self : gmap string attr) (masks : nat -> mask)
  (input : list nat) (hidden : hidden_state) (encoder_outputs : tensor3)
  : result (tensor2 * hidden_state * tensor2) :=
  _ ← getattr self "drop" ≫= as_dropout;
  embedding ← getattr self "embedding" ≫= as_embedding;
  embedded ← embed embedding input;
  let embedded := drop2 (masks 0%nat) embedded in
  attn ← getattr self "attn" ≫= as_linear;
  last ← final_layer hidden;
  joined ← cat1 embedded last;
  scores ← linear attn joined;
  let attn_weights := softmax scores in
  attn_applied ← bmm (unsqueeze1 attn_weights) encoder_outputs;
  output ← cat1 embedded (squeeze1 attn_applied);
  attn_combine ← getattr self "attn_combine" ≫= as_linear;
  output ← linear attn_combine output;
  let output := unsqueeze1 output in
  config ← getattr self "config" ≫= as_config;
  rnn ← getattr self "rnn" ≫= as_rnn;
  '(output, hidden) ←
    rnn_loop rnn (map3 relu) (fun i => drop3 (masks (S i))) (nlayers config) 0
      output hidden;
  out ← getattr self "out" ≫= as_linear;
  logits ← linear out (squeeze1 output);
  Ok (log_softmax logits, hidden, attn_weights).

Definition init_weights : gmap string attr -> nat -> result hidden_state :=
  init_weights_with "n_layers" "hidden_size".

End AttentionDecoder.

(** ** [class GloballyAttentiveDecoder] *)

Module GloballyAttentiveDecoder.

Definition __init__ (values : init_values) (input_size : nat) (config : config)
  : list shape * result (gmap string attr) :=
  let self : gmap string attr := <["config" := AConfig config]> ∅ in
  let '(weight, a1) :=
    nn_Parameter (init_weight values) (nhid config) (nhid config) in
  let self := <["weight" := AParameter weight]> self in
  let '(embedding, a2) :=
    nn_Embedding (init_embedding values) input_size (emsize config) in
  let self := <["embedding" := AEmbedding embedding]> self in
  let '(attn_combine, a3) :=
    nn_Linear (init_attn_combine values) (nhid config * 2) (nhid config) in
  let self := <["attn_combine" := ALinear attn_combine]> self in
  let self := <["drop" := ADropout (dropout config)]> self in
  let '(out, a4) := nn_Linear (init_out values) (nhid config) input_size in
  let self := <["out" := ALinear out]> self in
  make_rnn values config (emsize config + nhid config) self
    (a1 ++ a2 ++ a3 ++ a4).

(** The local variables of [forward] when it returns. *)
Record locals : Type :=
  { embedded : tensor3;
    rnn_input : tensor3;
    output : tensor3;
    hidden' : hidden_state;
    weighted_encoder_output : tensor3;
    score : tensor3;
    attn_weights : tensor2;
    context_vector : tensor3;
    attention_combine : tensor2;
    log_probs : tensor2 }.

Definition forward_locals (self : gmap string attr) (masks : nat -> mask)
  (input : list nat) (hidden : hidden_state) (last_context encoder_outputs : tensor3)
  : result locals :=
  _ ← getattr self "drop" ≫= as_dropout;
  embedding ← getattr self "embedding" ≫= as_embedding;
  embedded ← embed embedding input;
  let embedded := unsqueeze1 (drop2 (masks 0%nat) embedded) in
  rnn_input ← cat2 embedded last_context;
  config ← getattr self "config" ≫= as_config;
  rnn ← getattr self "rnn" ≫= as_rnn;
  '(output, hidden) ←
    rnn_loop rnn (fun x => x) (fun _ x => x) (nlayers config) 0 rnn_input hidden;
  weight ← getattr self "weight" ≫= as_parameter;
  weighted_encoder_output ←
    bmm (expand_batch (dim0 encoder_outputs) weight)
        (transpose12 encoder_outputs);
  score ← bmm output weighted_encoder_output;
  let attn_weights := softmax (squeeze1 score) in
  context_vector ← bmm (unsqueeze1 attn_weights) encoder_outputs;
  attn_combine ← getattr self "attn_combine" ≫= as_linear;
  joined ← cat1 (squeeze1 context_vector) (squeeze1 output);
  attention_combine ← linear attn_combine joined;
  out ← getattr self "out" ≫= as_linear;
  logits ← linear out attention_combine;
  Ok {| embedded := embedded; rnn_input := rnn_input; output := output;
        hidden' := hidden;
        weighted_encoder_output := weighted_encoder_output; score := score;
        attn_weights := attn_weights; context_vector := context_vector;
        attention_combine := attention_combine;
        log_probs := log_softmax logits |}.

(** [return output, hidden, context_vector, attn_weights] *)
Definition forward (self : gmap string attr) (masks : nat -> mask)
  (input : list nat) (hidden : hidden_state) (last_context encoder_outputs : tensor3)
  : result (tensor2 * hidden_state * tensor3 * tensor2) :=
  l ← forward_locals self masks input hidden last_context encoder_outputs;
  Ok (log_probs l, hidden' l, context_vector l, attn_weights l).

Definition init_weights : gmap string attr -> nat -> result hidden_state :=
  init_weights_with "n_layers" "hidden_size".

End GloballyAttentiveDecoder.

(** ** [class LocallyAttentiveDecoder] *)

Module LocallyAttentiveDecoder.

Definition __init__ (values : init_values) (input_size : nat) (config : config)
  : list shape * result (gmap string attr) :=
  let self : gmap string attr := <["config" := AConfig config]> ∅ in
  let '(weight, a1) :=
    nn_Parameter (init_weight values) (nhid config) (nhid config) in
  let self := <["weight" := AParameter weight]> self in
  let '(weight_p, a2) :=
    nn_Parameter (init_weight_p values) (nhid config) (nhid config) in
  let self := <["weight_p" := AParameter weight_p]> self in
  let '(weight_v, a3) :=
    nn_Parameter (init_weight_v values) 1 (nhid config) in
  let self := <["weight_v" := AParameter weight_v]> self in
  let '(embedding, a4) :=
    nn_Embedding (init_embedding values) input_size (emsize config) in
  let self := <["embedding" := AEmbedding embedding]> self in
  let '(attn_combine, a5) :=
    nn_Linear (init_attn_combine values) (nhid config * 2) (nhid config) in
  let self := <["attn_combine" := ALinear attn_combine]> self in
  let self := <["drop" := ADropout (dropout config)]> self in
  let '(out, a6) := nn_Linear (init_out values) (nhid config) input_size in
  let self := <["out" := ALinear out]> self in
  let self := <["window_size" := AInt 3]> self in
  make_rnn values config (emsize config) self
    (a1 ++ a2 ++ a3 ++ a4 ++ a5 ++ a6).

(** The local variables of [forward] when it returns; [softmax_weights] is
    [attn_weights] before, and [attn_weights] after, the multiplication by
    [emphasis]; [pt] is [pt_sigmoid] after the multiplication by the source
    length, one entry per batch row. *)
Record locals : Type :=
  { output : tensor3;
    hidden' : hidden_state;
    score : tensor3;
    softmax_weights : tensor2;
    pt : tensor1;
    current_s : tensor2;
    nominator : tensor2;
    denominator : R;
    emphasis : tensor2;
    attn_weights : tensor2;
    context_vector : tensor3;
    log_probs : tensor2 }.

Definition forward_locals (self : gmap string attr) (masks : nat -> mask)
  (input : list nat) (hidden : hidden_state) (encoder_outputs : tensor3)
  : result locals :=
  _ ← getattr self "drop" ≫= as_dropout;
  embedding ← getattr self "embedding" ≫= as_embedding;
  embedded ← embed embedding input;
  let embedded := drop2 (masks 0%nat) embedded in
  let output := unsqueeze1 embedded in
  config ← getattr self "config" ≫= as_config;
  rnn ← getattr self "rnn" ≫= as_rnn;
  '(output, hidden) ←
    rnn_loop rnn (fun x => x) (fun _ x => x) (nlayers config) 0 output hidden;
  weight ← getattr self "weight" ≫= as_parameter;
  weighted_encoder_output ←
    bmm (expand_batch (dim0 encoder_outputs) weight)
        (transpose12 encoder_outputs);
  score ← bmm output weighted_encoder_output;
  let softmax_weights := softmax (squeeze1 score) in
  weight_v ← getattr self "weight_v" ≫= as_parameter;
  weight_p ← getattr self "weight_p" ≫= as_parameter;
  projected ←
    bmm (expand_batch (dim0 encoder_outputs) weight_p) (transpose12 output);
  pt_sigmoid ←
    bmm (expand_batch (dim0 encoder_outputs) weight_v) (map3 tanh projected);
  let pt_sigmoid := map3 sigmoid pt_sigmoid in
  let pt :=
    map1 (fun x => x * INR (dim1 encoder_outputs))
         (squeeze1_2 (squeeze1 pt_sigmoid)) in
  let pt_sigmoid := unsqueeze1_expand pt (dim1 encoder_outputs) in
  current_s ← range0 (dim1 encoder_outputs);
  let current_s := expand_rows (dim0 encoder_outputs) current_s in
  pt_expanded ← expand2 pt_sigmoid (rows2 current_s) (cols2 current_s);
  difference ← zip2 Rminus current_s pt_expanded;
  let nominator := map2 (fun x => x ^ 2) difference in
  window_size ← getattr self "window_size" ≫= as_int;
  let denominator := -2 * (IZR window_size / 2) * (IZR window_size / 2) in
  let emphasis := map2 exp (map2 (fun x => x / denominator) nominator) in
  attn_weights ← zip2 Rmult softmax_weights emphasis;
  aggregated ← bmm (unsqueeze1 attn_weights) encoder_outputs;
  let context_vector :=
    map3 (fun x => x / INR (dim1 encoder_outputs)) aggregated in
  attn_combine ← getattr self "attn_combine" ≫= as_linear;
  joined ← cat1 (squeeze1 context_vector) (squeeze1 output);
  attention_combine ← linear attn_combine joined;
  out ← getattr self "out" ≫= as_linear;
  logits ← linear out attention_combine;
  Ok {| output := output; hidden' := hidden; score := score;
        softmax_weights := softmax_weights; pt := pt;
        current_s := current_s; nominator := nominator;
        denominator := denominator; emphasis := emphasis;
        attn_weights := attn_weights; context_vector := context_vector;
        log_probs := log_softmax logits |}.

(** [return output, hidden, attn_weights] *)
Definition forward (self : gmap string attr) (masks : nat -> mask)
  (input : list nat) (hidden : hidden_state) (encoder_outputs : tensor3)
  : result (tensor2 * hidden_state * tensor2) :=
  l ← forward_locals self masks input hidden encoder_outputs;
  Ok (log_probs l, hidden' l, attn_weights l).

Definition init_weights : gmap string attr -> nat -> result hidden_state :=
  init_weights_with "n_layers" "hidden_size".

End LocallyAttentiveDecoder.

(** ** Concrete instances *)

(** A one-layer relu recurrence on a sequence of length 1, as [nn.RNN]
    computes it: h' = relu(W_ih x + W_hh h + b). *)
Definition elman_relu (w_ih w_hh : nat -> nat -> R) (b : nat -> R)
  (x : tensor3) (h : hidden_state)
  : (nat -> nat -> nat -> R) * (nat -> nat -> nat -> R)
    * (nat -> nat -> nat -> R) :=
  let h0 := match h with HTensor t => t | HTuple t _ => t end in
  let hn := fun (l i k : nat) =>
    relu (rsum (dim2 x) (fun a => w_ih k a * at3 x i 0%nat a)
          + rsum (dim2 h0) (fun a => w_hh k a * at3 h0 l i a) + b k) in
  (fun i _ k => hn 0%nat i k, hn, fun _ _ _ => 0).

Definition neg_identity (k a : nat) : R := if Nat.eqb k a then -1 else 0.

Definition example_values : init_values :=
  {| init_embedding := fun i k => INR k - INR i;
     init_out := (fun o k => if Nat.eqb o k then 1 else 0, fun _ => 0);
     init_attn := (fun o k => if Nat.eqb o k then 1 else 0, fun _ => 0);
     init_attn_combine := (fun o k => if Nat.eqb o k then 1 else 0, fun _ => 0);
     init_weight := fun a c => if Nat.eqb a c then 1 else 0;
     init_weight_p := fun a c => if Nat.eqb a c then 1 else 0;
     init_weight_v := fun _ _ => 1;
     init_rnn := elman_relu neg_identity (fun _ _ => 0) (fun _ => 0) |}.

Definition example_config (m : string) (e h l : nat) : config :=
  {| model := m; emsize := e; nhid := h; nlayers := l; dropout := 0 |}.

(** Evaluation mode: every dropout mask is 1. *)
Definition eval_masks : nat -> mask := fun _ _ _ _ => 1.

Definition built (c : list shape * result (gmap string attr))
  : gmap string attr :=
  match c.2 with Ok self => self | Raise _ => ∅ end.


(** The names [config.model] may take, and the module each selects. *)
Definition supported : list string := ["LSTM"; "GRU"; "RNN_TANH"; "RNN_RELU"].

Definition mode_of (name : string) : option rnn_mode :=
  if String.eqb name "LSTM" then Some LSTM
  else if String.eqb name "GRU" then Some GRU
  else if String.eqb name "RNN_TANH" then Some RNN_TANH
  else if String.eqb name "RNN_RELU" then Some RNN_RELU
  else None.

(** The recurrent module the constructors build for the mode [m] and the
    input width [i]. *)
Definition recurrent (values : init_values) (cfg : config) (i : nat)
  (m : rnn_mode) : RNNModule :=
  {| mode := m; input_size := i; hidden_size := nhid cfg;
     num_layers := nlayers cfg; rnn_cell := init_rnn values |}.

(** The instance of the end-to-end scenario: vocabulary 5, embedding 4,
    hidden 6, one layer. *)
Definition scenario_decoder : gmap string attr :=
  built (Decoder.__init__ example_values 5 (example_config "GRU" 4 6 1)).

(** A hidden state of shape (l, b, w): one such tensor, or two for the
    pair of an LSTM. *)
Definition hidden_shaped (h : hidden_state) (l b w : nat) : Prop :=
  match h with
  | HTensor t => shape3 t = (l, b, w)
  | HTuple t c => shape3 t = (l, b, w) /\ shape3 c = (l, b, w)
  end.

(** A hidden state of the kind the mode [m] expects and of shape
    (l, b, w). *)
Definition hidden_for (m : rnn_mode) (h : hidden_state) (l b w : nat) : Prop :=
  match m, h with
  | LSTM, HTuple t c => shape3 t = (l, b, w) /\ shape3 c = (l, b, w)
  | LSTM, HTensor _ => False
  | _, HTensor t => shape3 t = (l, b, w)
  | _, HTuple _ _ => False
  end.

(** A global-attention decoder with two layers. *)
Definition stacked_decoder : gmap string attr :=
  built (GloballyAttentiveDecoder.__init__ example_values 5
           (example_config "GRU" 4 6 2)).

(** The instance of the second end-to-end scenario: a global-attention
    decoder with one layer, run on a batch of two tokens, a zero
    [last_context] of shape (2, 1, 6) and encoder outputs of shape
    (2, 3, 6). *)
Definition scenario_global : gmap string attr :=
  built (GloballyAttentiveDecoder.__init__ example_values 5
           (example_config "GRU" 4 6 1)).

Definition scenario_encoder_outputs : tensor3 :=
  T3 2 3 6 (fun i s k => if Nat.eqb s k then 1 else 0).

(** A local-attention decoder with one layer, run on the same batch. *)
Definition scenario_local : gmap string attr :=
  built (LocallyAttentiveDecoder.__init__ example_values 5
           (example_config "GRU" 4 6 1)).

(** The module [r] with a rectified-linear activation applied to its
    input, and the instance [self] with its recurrent module replaced by
    that one.  A [forward] that rectifies the input of every call of the
    module computes the same with either instance. *)
Definition relu_input (r : RNNModule) : RNNModule :=
  {| mode := mode r; input_size := input_size r;
     hidden_size := hidden_size r; num_layers := num_layers r;
     rnn_cell := fun x h => rnn_cell r (map3 relu x) h |}.

Definition with_relu_input (self : gmap string attr) : gmap string attr :=
  match self !! "rnn" with
  | Some (ARNN r) => <["rnn" := ARNN (relu_input r)]> self
  | _ => self
  end.

(** Instances of width 1 with one relu layer, and a batch of one token
    whose embedding is negative. *)
Definition tiny_config : config := example_config "RNN_RELU" 1 1 1.

Definition tiny_decoder : gmap string attr :=
  built (Decoder.__init__ example_values 2 tiny_config).
Definition tiny_global : gmap string attr :=
  built (GloballyAttentiveDecoder.__init__ example_values 2 tiny_config).
Definition tiny_local : gmap string attr :=
  built (LocallyAttentiveDecoder.__init__ example_values 2 tiny_config).

Definition tiny_hidden : hidden_state := HTensor (zeros3 1 1 1).
Definition tiny_encoder_outputs : tensor3 := T3 1 1 1 (fun _ _ _ => 1).

(** Entry (0, 0, 0) of the hidden state a [forward] returned. *)
Definition first_hidden_entry (h : hidden_state) : R :=
  match h with
  | HTensor t => at3 t 0%nat 0%nat 0%nat
  | HTuple t _ => at3 t 0%nat 0%nat 0%nat
  end.

(** The naive-attention decoder of width 1: it needs the pair of an LSTM
    as hidden state and a source of [max_sent_length] positions. *)
Definition tiny_attention : gmap string attr :=
  built (AttentionDecoder.__init__ example_values 2 1
           (example_config "LSTM" 1 1 1)).

Definition tiny_pair : hidden_state := HTuple (zeros3 1 1 1) (zeros3 1 1 1).

(** What [init_embedding_weights] leaves in the row of the word [w]: its
    pretrained vector when it has one, else the vector
    [initialize_out_of_vocab_words] returned at some state of the generator
    [g] the call started from. *)
Definition row_filled (embeddings_index : gmap string (list R)) (d : nat)
  (g : rng) (w : string) (row : list R) : Prop :=
  match embeddings_index !! w with
  | Some v => row = v
  | None =>
      exists g0, deviates g0 = deviates g
                 /\ row = (helper.initialize_out_of_vocab_words d g0).1
  end.

(** A vocabulary of five words, two of them with a pretrained vector. *)
Definition example_dictionary : Dictionary :=
  {| idx2word := ["the"; "cat"; "sat"; "on"; "mat"] |}.

Definition example_table : gmap string (list R) :=
  <["the" := [1; 0; 0; 0]]> (<["sat" := [0; 1; 0; 0]]> ∅).

Definition example_rng : rng := RNG (fun k => INR k) 0.

(** The number of words of the vocabulary without a pretrained vector,
    and whether every pretrained vector of a word of the vocabulary can be
    assigned to a row of width [d]. *)
Definition count_absent (embeddings_index : gmap string (list R))
  (words : list string) : nat :=
  length (List.filter
            (fun w => match embeddings_index !! w with
                      | Some _ => false
                      | None => true
                      end) words).




(** ** The data utilities of [helper.py]

    The functions of [helper.py] that cut the data into batches and turn
    sentences into tensors of word ids.  A Python list is a list, an integer
    tensor a list of integers (of lists, with two dimensions), a mask a
    list of booleans, and a [Variable] the tensor it wraps; moving a
    tensor to the GPU changes none of its entries.  The library is the one
    the decoders are read against: an index outside a tensor raises
    [IndexError] and a dimension of size 0 is kept. *)

Module helper_utils.

Inductive error : Type :=
| ZeroDivisionError
| KeyError (key : string)
| IndexError
| RuntimeError
| AssertionError.

Inductive outcome (A : Type) : Type :=
| Return (a : A)
| Throw (e : error).
Arguments Return {A} a.
Arguments Throw {A} e.

#[global] Instance outcome_ret : MRet outcome := fun _ a => Return a.
#[global] Instance outcome_bind : MBind outcome := fun _ _ k m =>
  match m with
  | Return a => k a
  | Throw e => Throw e
  end.

Definition returns {A : Type} (m : outcome A) : Prop :=
  match m with Return _ => True | Throw _ => False end.

(** *** Python lists *)

(** [data[k]]: a negative index counts from the end. *)
Definition item {A : Type} (data : list A) (k : Z) : outcome A :=
  let k := if (k <? 0)%Z then (k + Z.of_nat (length data))%Z else k in
  if (k <? 0)%Z then Throw IndexError
  else match nth_error data (Z.to_nat k) with
       | Some x => Return x
       | None => Throw IndexError
       end.

(** [data[0:stop]]: a negative bound counts from the end, a bound past the
    end is the end. *)
Definition slice_to {A : Type} (data : list A) (stop : Z) : list A :=
  let stop := if (stop <? 0)%Z then (stop + Z.of_nat (length data))%Z
              else stop in
  firstn (Z.to_nat stop) data.

(** [range(n)], empty when [n] is not positive. *)
Definition range (n : Z) : list Z := map Z.of_nat (seq 0 (Z.to_nat n)).

(** [[f(x) for x in l]] *)
Fixpoint comprehension {A B : Type} (f : A -> outcome B) (l : list A)
  : outcome (list B) :=
  match l with
  | [] => Return []
  | x :: l => y ← f x; ys ← comprehension f l; Return (y :: ys)
  end.

(** *** [batchify] *)

(** [//] is the division of [Z]: both round towards minus infinity. *)
Definition batchify {A : Type} (data : list A) (bsz : Z)
  : outcome (list (list A)) :=
  nbatch ← (if (bsz =? 0)%Z then Throw ZeroDivisionError
            else Return (Z.of_nat (length data) / bsz)%Z);
  let data := slice_to data (nbatch * bsz) in
  comprehension
    (fun i => comprehension (fun j => item data (bsz * i + j)) (range bsz))
    (range nbatch).

(** *** [sequence_mask] and [mask] *)

(** [t.max()] of a tensor of one dimension; there is none when it is
    empty. *)
Definition tensor_max (t : list Z) : outcome Z :=
  match t with
  | [] => Throw RuntimeError
  | x :: t => Return (fold_left Z.max t x)
  end.

(** [torch.range(a, b)]: the integers from [a] to [b], both included; the
    bounds must be in order. *)
Definition torch_range (a b : Z) : outcome (list Z) :=
  if (b <? a)%Z then Throw RuntimeError
  else Return ((fun k => a + Z.of_nat k)%Z <$> seq 0 (Z.to_nat (b - a + 1))).

(** [sequence_length] is a tensor of one dimension, [max_len] is [None]
    when the argument is left out.  The range has [max_len] entries, so
    both expansions are to the shape (batch_size, max_len). *)
Definition sequence_mask (sequence_length : list Z) (max_len : option Z)
  : outcome (list (list bool)) :=
  max_len ← match max_len with
            | None => tensor_max sequence_length
            | Some m => Return m
            end;
  let batch_size := length sequence_length in
  seq_range ← torch_range 0 (max_len - 1);
  let seq_range_expand := replicate batch_size seq_range in
  let seq_length_expand :=
    (fun l => replicate (Z.to_nat max_len) l) <$> sequence_length in
  Return (zip_with (zip_with Z.ltb) seq_range_expand seq_length_expand).

(** [torch.LongTensor([seq_idx]).expand(batch_size)] repeats the one
    entry. *)
Definition mask (sequence_length : list Z) (seq_idx : Z) : list bool :=
  let batch_size := length sequence_length in
  let seq_range_expand := replicate batch_size seq_idx in
  zip_with Z.ltb seq_range_expand sequence_length.

(** *** Sentences as tensors *)

(** What the functions read of the vocabulary: the dict [word2idx] from
    words to ids and the word [unknown_token]. *)
Record Vocabulary : Type :=
  { word2idx : gmap string Z; unknown_token : string }.

Record Instance : Type :=
  { sentence1 : list string; sentence2 : list string }.

(** [d[key]] on a dict. *)
Definition getitem (d : gmap string Z) (key : string) : outcome Z :=
  match d !! key with
  | Some v => Return v
  | None => Throw (KeyError key)
  end.

(** [t[i] = v] on a tensor of one dimension, [i] not negative. *)
Definition setitem {A : Type} (t : list A) (i : nat) (v : A)
  : outcome (list A) :=
  if (i <? length t)%nat then Return (<[i := v]> t) else Throw IndexError.

(** The loop of [sentence_to_tensor] from the index [i] on; the right-hand
    side of an assignment is evaluated before the store. *)
Fixpoint fill_sentence (sentence : list string) (i : nat)
  (dictionary : Vocabulary) (sen_rep : list Z) : outcome (list Z) :=
  match sentence with
  | [] => Return sen_rep
  | word :: sentence =>
      v ← (if bool_decide (is_Some (word2idx dictionary !! word))
           then getitem (word2idx dictionary) word
           else getitem (word2idx dictionary) (unknown_token dictionary));
      sen_rep ← setitem sen_rep i v;
      fill_sentence sentence (S i) dictionary sen_rep
  end.

Definition sentence_to_tensor (sentence : list string) (max_sent_length : nat)
  (dictionary : Vocabulary) : outcome (list Z) :=
  let sen_rep := replicate max_sent_length 0%Z in
  fill_sentence sentence 0 dictionary sen_rep.

(** The id [sentence_to_tensor] stores for a word: its own, or the one of
    the unknown token when the vocabulary does not have the word. *)
Definition word_id (dictionary : Vocabulary) (word : string) : option Z :=
  match word2idx dictionary !! word with
  | Some k => Some k
  | None => word2idx dictionary !! unknown_token dictionary
  end.

(** [torch.LongTensor(n, m)] and [torch.LongTensor(n)] allocate without
    initialising: the entries are what the memory holds. *)
Definition LongTensor2 (memory : nat -> nat -> Z) (n m : nat)
  : list (list Z) :=
  map (fun i => map (memory i) (seq 0 m)) (seq 0 n).

Definition LongTensor1 (memory : nat -> Z) (n : nat) : list Z :=
  map memory (seq 0 n).

(** [t[i] = row] on a tensor of two dimensions; the call sites assign rows
    of the width of the tensor. *)
Definition setrow (t : list (list Z)) (i : nat) (row : list Z)
  : outcome (list (list Z)) :=
  match t !! i with
  | None => Throw IndexError
  | Some old =>
      if (length row =? length old)%nat then Return (<[i := row]> t)
      else Throw RuntimeError
  end.

(** The loop of [instances_to_tensors] from the index [i] on. *)
Fixpoint fill_instances (instances : list Instance) (i : nat)
  (dictionary : Vocabulary) (max_sent_length : nat)
  (all_sentences1 all_sentences2 : list (list Z))
  : outcome (list (list Z) * list (list Z)) :=
  match instances with
  | [] => Return (all_sentences1, all_sentences2)
  | instance :: instances =>
      row ← sentence_to_tensor (sentence1 instance) max_sent_length dictionary;
      all_sentences1 ← setrow all_sentences1 i row;
      row ← sentence_to_tensor (sentence2 instance) max_sent_length dictionary;
      all_sentences2 ← setrow all_sentences2 i row;
      fill_instances instances (S i) dictionary max_sent_length
        all_sentences1 all_sentences2
  end.

(** [memory k] is what the [k]-th allocation finds. *)
Definition instances_to_tensors (memory : nat -> nat -> nat -> Z)
  (instances : list Instance) (dictionary : Vocabulary)
  (max_sent_length : nat) : outcome (list (list Z) * list (list Z)) :=
  let all_sentences1 :=
    LongTensor2 (memory 0%nat) (length instances) max_sent_length in
  let all_sentences2 :=
    LongTensor2 (memory 1%nat) (length instances) max_sent_length in
  fill_instances instances 0 dictionary max_sent_length
    all_sentences1 all_sentences2.

(** The first loop of [queries_to_tensors]. *)
Definition max_query_lengths (instances : list Instance) : nat * nat :=
  fold_left
    (fun '(max_query_length1, max_query_length2) item =>
       (if (max_query_length1 <? length (sentence1 item))%nat
        then length (sentence1 item) else max_query_length1,
        if (max_query_length2 <? length (sentence2 item))%nat
        then length (sentence2 item) else max_query_length2))
    instances (0%nat, 0%nat).

(** Its second loop, from the index [i] on. *)
Fixpoint fill_queries (instances : list Instance) (i : nat)
  (dictionary : Vocabulary) (max_query_length1 max_query_length2 : nat)
  (all_sentences1 all_sentences2 : list (list Z)) (lengths : list Z)
  : outcome (list (list Z) * list (list Z) * list Z) :=
  match instances with
  | [] => Return (all_sentences1, all_sentences2, lengths)
  | instance :: instances =>
      row ← sentence_to_tensor (sentence1 instance) max_query_length1
              dictionary;
      all_sentences1 ← setrow all_sentences1 i row;
      row ← sentence_to_tensor (sentence2 instance) max_query_length2
              dictionary;
      all_sentences2 ← setrow all_sentences2 i row;
      lengths ← setitem lengths i
                  (Z.of_nat (length (sentence2 instance)) - 1)%Z;
      fill_queries instances (S i) dictionary max_query_length1
        max_query_length2 all_sentences1 all_sentences2 lengths
  end.

Definition queries_to_tensors (memory : nat -> nat -> nat -> Z)
  (instances : list Instance) (dictionary : Vocabulary)
  : outcome (list (list Z) * list (list Z) * list Z) :=
  let '(max_query_length1, max_query_length2) :=
    max_query_lengths instances in
  let all_sentences1 :=
    LongTensor2 (memory 0%nat) (length instances) max_query_length1 in
  let all_sentences2 :=
    LongTensor2 (memory 1%nat) (length instances) max_query_length2 in
  let lengths := LongTensor1 (memory 2%nat 0%nat) (length instances) in
  fill_queries instances 0 dictionary max_query_length1 max_query_length2
    all_sentences1 all_sentences2 lengths.

(** *** [normalize_word_embedding] and [convert_to_minutes] *)





(** *** [load_model_states_without_dataparallel] *)

(** [k[n:]] on a string. *)
Fixpoint string_from (n : nat) (k : string) : string :=
  match n, k with
  | O, _ => k
  | S n, String _ k => string_from n k
  | S _, EmptyString => EmptyString
  end.

(** [d[k] = v] on an [OrderedDict], a list of entries in the order of
    their insertion: the value of a key that is there is replaced where it
    stands, a new key goes to the end. *)
Fixpoint od_setitem {V : Type} (d : list (string * V)) (k : string) (v : V)
  : list (string * V) :=
  match d with
  | [] => [(k, v)]
  | (k', v') :: d =>
      if String.eqb k' k then (k', v) :: d else (k', v') :: od_setitem d k v
  end.

(** The file system and the library are arguments: [exists] is
    [os.path.exists], [torch_load] opens and reads the file, and
    [load_state_dict] is the method of the model. *)
Definition load_model_states_without_dataparallel {V M : Type}
  (exists_ : string -> bool)
  (torch_load : string -> outcome (list (string * V)))
  (load_state_dict : list (string * V) -> outcome M)
  (filename : string) : outcome M :=
  _ ← (if exists_ filename then Return tt else Throw AssertionError);
  state_dict ← torch_load filename;
  let new_state_dict :=
    fold_left (fun new_state_dict '(k, v) =>
                 let name := string_from 7 k in
                 od_setitem new_state_dict name v)
      state_dict [] in
  load_state_dict new_state_dict.

(** The keys of a state dict saved from a model wrapped in
    [DataParallel]. *)
Definition data_parallel {V : Type} (state_dict : list (string * V))
  : list (string * V) :=
  (fun '(k, v) => ("module." +:+ k, v)) <$> state_dict.

(** A vocabulary of three entries, the first one the unknown token. *)
Definition example_vocabulary : Vocabulary :=
  {| word2idx := <["<unk>" := 1%Z]> (<["the" := 2%Z]> (<["cat" := 3%Z]> ∅));
     unknown_token := "<unk>" |}.


(** Two instances, and a memory that holds a 7 everywhere. *)
Definition example_instances : list Instance :=
  [ {| sentence1 := ["the"; "cat"]; sentence2 := ["dog"] |};
    {| sentence1 := ["cat"]; sentence2 := [] |} ].

Definition stale_memory : nat -> nat -> nat -> Z := fun _ _ _ => 7%Z.

End helper_utils.

(** * Properties *)

(** ** The error monad *)

Lemma bind_Ok {A B : Type} (m : result A) (k : A -> result B) (b : B) :
  m ≫= k = Ok b -> exists a, m = Ok a /\ k a = Ok b.
Proof. destruct m as [a|e]; simpl; [eauto | discriminate]. Qed.

Lemma guard_Ok (b : bool) (e : exn) (u : unit) : guard b e = Ok u -> b = true.
Proof. destruct b; simpl; [reflexivity | discriminate]. Qed.

Lemma is_ok_bind {A B : Type} (m : result A) (k : A -> result B) :
  is_ok m -> (forall a, m = Ok a -> is_ok (k a)) -> is_ok (m ≫= k).
Proof. destruct m as [a|e]; simpl; [auto | tauto]. Qed.

Lemma raises_bind {A B : Type} (m : result A) (k : A -> result B) :
  (forall a, m = Ok a -> raises (k a)) -> raises (m ≫= k).
Proof. destruct m as [a|e]; simpl; [auto | tauto]. Qed.

Lemma raises_bind_l {A B : Type} (m : result A) (k : A -> result B) :
  raises m -> raises (m ≫= k).
Proof. destruct m as [a|e]; simpl; tauto. Qed.

(** Inverts a successful computation: every bind on the way is split into
    the success of its first part and the rest. *)
Ltac inv_ok H :=
  repeat match type of H with
  | (_ ≫= _) = Ok _ =>
      let a := fresh "v" in
      let Ha := fresh "E" in
      apply bind_Ok in H as (a & Ha & H)
  | (let (_, _) := ?p in _) = Ok _ => destruct p
  | (match ?p with (_, _) => _ end) = Ok _ => destruct p
  end.

(** ** Construction *)

Lemma mode_of_supported (name : string) :
  name ∈ supported <-> is_Some (mode_of name).
Proof.
  unfold supported, mode_of. rewrite !elem_of_cons, elem_of_nil.
  destruct (String.eqb_spec name "LSTM"); [split; eauto|].
  destruct (String.eqb_spec name "GRU"); [split; eauto|].
  destruct (String.eqb_spec name "RNN_TANH"); [split; eauto|].
  destruct (String.eqb_spec name "RNN_RELU"); [split; eauto|].
  split; [intuition congruence | intros [? ?]; discriminate].
Qed.

Lemma make_rnn_spec (values : init_values) (cfg : config) (i : nat)
  (self : gmap string attr) (allocated : list shape) :
  make_rnn values cfg i self allocated =
  match mode_of (model cfg) with
  | Some m =>
      (allocated ++ rnn_shapes m i (nhid cfg) (nlayers cfg),
       Ok (<["rnn" := ARNN {| mode := m; input_size := i;
                              hidden_size := nhid cfg;
                              num_layers := nlayers cfg;
                              rnn_cell := init_rnn values |}]> self))
  | None => (allocated, Raise ValueError)
  end.
Proof.
  unfold make_rnn, mode_of, nn_getattr, nonlinearities.
  destruct (String.eqb_spec (model cfg) "LSTM") as [->|n1].
  { reflexivity. }
  destruct (String.eqb_spec (model cfg) "GRU") as [->|n2].
  { reflexivity. }
  rewrite bool_decide_eq_false_2
    by (rewrite !elem_of_cons, elem_of_nil; intuition congruence).
  destruct (String.eqb_spec (model cfg) "RNN_TANH") as [->|n3].
  { reflexivity. }
  rewrite lookup_insert_ne by congruence.
  destruct (String.eqb_spec (model cfg) "RNN_RELU") as [->|n4].
  { reflexivity. }
  rewrite lookup_insert_ne by congruence.
  rewrite lookup_empty. reflexivity.
Qed.

Lemma Decoder_init_spec (values : init_values) (n : nat) (cfg : config) :
  Decoder.__init__ values n cfg =
  make_rnn values cfg (emsize cfg)
    (<["out" := ALinear (nn_Linear (init_out values) (nhid cfg) n).1]>
     (<["drop" := ADropout (dropout cfg)]>
      (<["embedding" :=
           AEmbedding (nn_Embedding (init_embedding values) n (emsize cfg)).1]>
       (<["config" := AConfig cfg]> ∅))))
    [[n; emsize cfg]; [n; nhid cfg]; [n]].
Proof. reflexivity. Qed.

Lemma AttentionDecoder_init_spec (values : init_values) (n len : nat)
  (cfg : config) :
  AttentionDecoder.__init__ values n len cfg =
  make_rnn values cfg (emsize cfg)
    (<["out" := ALinear (nn_Linear (init_out values) (nhid cfg) n).1]>
     (<["drop" := ADropout (dropout cfg)]>
      (<["attn_combine" :=
           ALinear (nn_Linear (init_attn_combine values)
                      (nhid cfg * 2) (nhid cfg)).1]>
       (<["attn" :=
            ALinear (nn_Linear (init_attn values) (nhid cfg * 2) len).1]>
        (<["embedding" :=
             AEmbedding (nn_Embedding (init_embedding values) n (emsize cfg)).1]>
         (<["config" := AConfig cfg]> ∅))))))
    [[n; emsize cfg]; [len; (nhid cfg * 2)%nat]; [len];
     [nhid cfg; (nhid cfg * 2)%nat]; [nhid cfg]; [n; nhid cfg]; [n]].
Proof. reflexivity. Qed.

Lemma GloballyAttentiveDecoder_init_spec (values : init_values) (n : nat)
  (cfg : config) :
  GloballyAttentiveDecoder.__init__ values n cfg =
  make_rnn values cfg (emsize cfg + nhid cfg)
    (<["out" := ALinear (nn_Linear (init_out values) (nhid cfg) n).1]>
     (<["drop" := ADropout (dropout cfg)]>
      (<["attn_combine" :=
           ALinear (nn_Linear (init_attn_combine values)
                      (nhid cfg * 2) (nhid cfg)).1]>
       (<["embedding" :=
            AEmbedding (nn_Embedding (init_embedding values) n (emsize cfg)).1]>
        (<["weight" :=
             AParameter (T2 (nhid cfg) (nhid cfg) (init_weight values))]>
         (<["config" := AConfig cfg]> ∅))))))
    [[nhid cfg; nhid cfg]; [n; emsize cfg];
     [nhid cfg; (nhid cfg * 2)%nat]; [nhid cfg]; [n; nhid cfg]; [n]].
Proof. reflexivity. Qed.

Lemma LocallyAttentiveDecoder_init_spec (values : init_values) (n : nat)
  (cfg : config) :
  LocallyAttentiveDecoder.__init__ values n cfg =
  make_rnn values cfg (emsize cfg)
    (<["window_size" := AInt 3]>
     (<["out" := ALinear (nn_Linear (init_out values) (nhid cfg) n).1]>
      (<["drop" := ADropout (dropout cfg)]>
       (<["attn_combine" :=
            ALinear (nn_Linear (init_attn_combine values)
                       (nhid cfg * 2) (nhid cfg)).1]>
        (<["embedding" :=
             AEmbedding (nn_Embedding (init_embedding values) n (emsize cfg)).1]>
         (<["weight_v" :=
              AParameter (T2 1 (nhid cfg) (init_weight_v values))]>
          (<["weight_p" :=
               AParameter (T2 (nhid cfg) (nhid cfg) (init_weight_p values))]>
           (<["weight" :=
                AParameter (T2 (nhid cfg) (nhid cfg) (init_weight values))]>
            (<["config" := AConfig cfg]> ∅)))))))))
    [[nhid cfg; nhid cfg]; [nhid cfg; nhid cfg]; [1%nat; nhid cfg];
     [n; emsize cfg]; [nhid cfg; (nhid cfg * 2)%nat]; [nhid cfg];
     [n; nhid cfg]; [n]].
Proof. reflexivity. Qed.

(** C5, as stated, fails: with a model name outside the supported set the
    constructor of [Decoder] raises [ValueError], but only after the
    embedding matrix (5, 4) and the weight (5, 6) and bias (5) of the output
    projection have been allocated. *)
Lemma constructor_allocates_before_check :
  (Decoder.__init__ example_values 5 (example_config "FOO" 4 6 1)).2
    = Raise ValueError
  /\ (Decoder.__init__ example_values 5 (example_config "FOO" 4 6 1)).1
    = [[5; 4]; [5; 6]; [5]]%nat
  /\ (Decoder.__init__ example_values 5 (example_config "FOO" 4 6 1)).1 <> [].
Proof.
  rewrite Decoder_init_spec, make_rnn_spec. simpl.
  repeat split; discriminate.
Qed.

(** C5, amended: in the four classes a model name outside
    [LSTM], [GRU], [RNN_TANH], [RNN_RELU] makes the constructor raise
    [ValueError] once the embedding, the linear layers and the attention
    parameters are allocated and before the recurrent module is built; a
    name inside that set raises nothing. *)
Theorem constructor_model_check (values : init_values)
  (input_size max_sent_length : nat) (cfg : config) :
  (model cfg ∉ supported ->
   Decoder.__init__ values input_size cfg
     = ([[input_size; emsize cfg]; [input_size; nhid cfg]; [input_size]],
        Raise ValueError)
   /\ AttentionDecoder.__init__ values input_size max_sent_length cfg
     = ([[input_size; emsize cfg];
         [max_sent_length; (nhid cfg * 2)%nat]; [max_sent_length];
         [nhid cfg; (nhid cfg * 2)%nat]; [nhid cfg];
         [input_size; nhid cfg]; [input_size]],
        Raise ValueError)
   /\ GloballyAttentiveDecoder.__init__ values input_size cfg
     = ([[nhid cfg; nhid cfg]; [input_size; emsize cfg];
         [nhid cfg; (nhid cfg * 2)%nat]; [nhid cfg];
         [input_size; nhid cfg]; [input_size]],
        Raise ValueError)
   /\ LocallyAttentiveDecoder.__init__ values input_size cfg
     = ([[nhid cfg; nhid cfg]; [nhid cfg; nhid cfg]; [1%nat; nhid cfg];
         [input_size; emsize cfg]; [nhid cfg; (nhid cfg * 2)%nat]; [nhid cfg];
         [input_size; nhid cfg]; [input_size]],
        Raise ValueError))
  /\ (model cfg ∈ supported ->
      is_ok (Decoder.__init__ values input_size cfg).2
      /\ is_ok (AttentionDecoder.__init__ values input_size max_sent_length cfg).2
      /\ is_ok (GloballyAttentiveDecoder.__init__ values input_size cfg).2
      /\ is_ok (LocallyAttentiveDecoder.__init__ values input_size cfg).2).
Proof.
  rewrite Decoder_init_spec, AttentionDecoder_init_spec,
    GloballyAttentiveDecoder_init_spec, LocallyAttentiveDecoder_init_spec.
  rewrite !make_rnn_spec.
  split; intros Hm; rewrite mode_of_supported in Hm.
  - destruct (mode_of (model cfg)) as [m|].
    + exfalso. apply Hm. eauto.
    + repeat split.
  - destruct Hm as [m ->]. simpl. repeat split.
Qed.

Lemma constructor_model_check_witness :
  Decoder.__init__ example_values 5 (example_config "FOO" 4 6 1)
    = ([[5; 4]; [5; 6]; [5]]%nat, Raise ValueError)
  /\ is_ok (LocallyAttentiveDecoder.__init__ example_values 5
              (example_config "RNN_TANH" 4 6 1)).2.
Proof.
  split.
  - apply (proj1 (constructor_model_check example_values 5 3
                    (example_config "FOO" 4 6 1))).
    rewrite mode_of_supported. intros [m Hm]. vm_compute in Hm. discriminate.
  - apply (proj2 (constructor_model_check example_values 5 3
                    (example_config "RNN_TANH" 4 6 1))).
    rewrite mode_of_supported. vm_compute. eauto.
Defined.

(** ** [init_weights] *)

Lemma next_parameters (self : gmap string attr) (k : string) (a : attr) :
  self !! k = Some a -> holds_parameters a = true ->
  exists w, next (parameters self) = Ok w.
Proof.
  intros Hk Ha.
  assert (Hin : In a (parameters self)).
  { unfold parameters. apply filter_In. split; [|exact Ha].
    apply list_elem_of_In, list_elem_of_fmap.
    exists (k, a). split; [reflexivity|].
    apply elem_of_map_to_list. exact Hk. }
  destruct (parameters self) as [|w ws]; [destruct Hin | exists w; reflexivity].
Qed.

Lemma init_weights_with_raises (layers_name width_name : string)
  (self : gmap string attr) (bsz : nat) (e : Embedding) :
  self !! "embedding" = Some (AEmbedding e) ->
  self !! "rnn_type" = None ->
  init_weights_with layers_name width_name self bsz
    = Raise (AttributeError "rnn_type").
Proof.
  intros He Hn. unfold init_weights_with.
  destruct (next_parameters self "embedding" (AEmbedding e) He eq_refl)
    as [w ->].
  simpl. unfold getattr. rewrite Hn. reflexivity.
Qed.

Lemma make_rnn_Ok (values : init_values) (cfg : config) (i : nat)
  (base self : gmap string attr) (allocated a : list shape) :
  make_rnn values cfg i base allocated = (a, Ok self) ->
  exists m, mode_of (model cfg) = Some m
            /\ self = <["rnn" := ARNN (recurrent values cfg i m)]> base.
Proof.
  rewrite make_rnn_spec. destruct (mode_of (model cfg)) as [m|].
  - intros H. injection H as _ <-. exists m. split; reflexivity.
  - discriminate.
Qed.

Lemma built_Ok (c : list shape * result (gmap string attr)) :
  is_ok c.2 -> c = (c.1, Ok (built c)).
Proof. destruct c as [a [self|e]]; simpl; [reflexivity | tauto]. Qed.

(** C4: in the four classes [init_weights] reads [self.rnn_type], which no
    constructor assigns (the name chosen at construction is kept in
    [self.config.model]); the call raises [AttributeError] for every batch
    size instead of returning the zero hidden state. *)
Theorem init_weights_raises (values : init_values)
  (input_size max_sent_length : nat) (cfg : config) (bsz : nat)
  (a : list shape) (self : gmap string attr) :
  (Decoder.__init__ values input_size cfg = (a, Ok self) ->
   Decoder.init_weights self bsz = Raise (AttributeError "rnn_type"))
  /\ (AttentionDecoder.__init__ values input_size max_sent_length cfg
        = (a, Ok self) ->
      AttentionDecoder.init_weights self bsz = Raise (AttributeError "rnn_type"))
  /\ (GloballyAttentiveDecoder.__init__ values input_size cfg = (a, Ok self) ->
      GloballyAttentiveDecoder.init_weights self bsz
        = Raise (AttributeError "rnn_type"))
  /\ (LocallyAttentiveDecoder.__init__ values input_size cfg = (a, Ok self) ->
      LocallyAttentiveDecoder.init_weights self bsz
        = Raise (AttributeError "rnn_type")).
Proof.
  repeat split; intros H.
  - rewrite Decoder_init_spec in H.
    apply make_rnn_Ok in H as (m & _ & ->).
    eapply init_weights_with_raises; by simplify_map_eq.
  - rewrite AttentionDecoder_init_spec in H.
    apply make_rnn_Ok in H as (m & _ & ->).
    eapply init_weights_with_raises; by simplify_map_eq.
  - rewrite GloballyAttentiveDecoder_init_spec in H.
    apply make_rnn_Ok in H as (m & _ & ->).
    eapply init_weights_with_raises; by simplify_map_eq.
  - rewrite LocallyAttentiveDecoder_init_spec in H.
    apply make_rnn_Ok in H as (m & _ & ->).
    eapply init_weights_with_raises; by simplify_map_eq.
Qed.

Lemma init_weights_raises_witness :
  Decoder.init_weights scenario_decoder 2 = Raise (AttributeError "rnn_type").
Proof.
  apply (proj1 (init_weights_raises example_values 5 3
                  (example_config "GRU" 4 6 1) 2
                  (Decoder.__init__ example_values 5
                     (example_config "GRU" 4 6 1)).1
                  scenario_decoder)).
  apply built_Ok. rewrite Decoder_init_spec, make_rnn_spec. exact I.
Defined.

(** ** Sums, softmax and the sigmoid *)

Lemma rsum_ext (n : nat) (f g : nat -> R) :
  (forall k, (k < n)%nat -> f k = g k) -> rsum n f = rsum n g.
Proof.
  induction n as [|n IH]; intros H; simpl; [reflexivity|].
  rewrite IH by (intros; apply H; lia). rewrite H by lia. reflexivity.
Qed.

Lemma rsum_pos (n : nat) (f : nat -> R) :
  (0 < n)%nat -> (forall k, (k < n)%nat -> 0 < f k) -> 0 < rsum n f.
Proof.
  induction n as [|n IH]; intros Hn H; [lia|]. simpl.
  destruct n as [|n].
  - simpl. specialize (H 0%nat ltac:(lia)). lra.
  - assert (0 < rsum (S n) f) by (apply IH; [lia | intros; apply H; lia]).
    specialize (H (S n) ltac:(lia)). lra.
Qed.

Lemma rsum_scale (n : nat) (f : nat -> R) (c : R) :
  rsum n (fun k => f k * c) = rsum n f * c.
Proof. induction n as [|n IH]; simpl; [lra | rewrite IH; lra]. Qed.

Lemma rsum_exp_pos (n : nat) (f : nat -> R) :
  (0 < n)%nat -> 0 < rsum n (fun k => exp (f k)).
Proof. intros Hn. apply rsum_pos; [exact Hn | intros; apply exp_pos]. Qed.

Lemma softmax_nonneg (x : tensor2) (i j : nat) :
  (j < cols2 x)%nat -> 0 <= at2 (softmax x) i j.
Proof.
  intros Hj. simpl.
  assert (0 < rsum (cols2 x) (fun k => exp (at2 x i k)))
    by (apply rsum_exp_pos; lia).
  apply Rlt_le, Rdiv_lt_0_compat; [apply exp_pos | assumption].
Qed.

Lemma softmax_row_sum (x : tensor2) (i : nat) :
  (0 < cols2 x)%nat -> rsum (cols2 x) (at2 (softmax x) i) = 1.
Proof.
  intros Hc. simpl. unfold Rdiv. rewrite rsum_scale.
  apply Rinv_r, Rgt_not_eq, rsum_exp_pos. exact Hc.
Qed.

Lemma log_softmax_shape (x : tensor2) : shape2 (log_softmax x) = shape2 x.
Proof. reflexivity. Qed.

Lemma log_softmax_exp_row_sum (x : tensor2) (i : nat) :
  (0 < cols2 x)%nat ->
  rsum (cols2 x) (fun j => exp (at2 (log_softmax x) i j)) = 1.
Proof.
  intros Hc. simpl.
  pose proof (rsum_exp_pos (cols2 x) (at2 x i) Hc) as Hpos.
  rewrite (rsum_ext _ _
             (fun j => exp (at2 x i j)
                       * / rsum (cols2 x) (fun k => exp (at2 x i k)))).
  - rewrite rsum_scale. apply Rinv_r, Rgt_not_eq, Hpos.
  - intros k _. unfold Rminus. rewrite exp_plus, exp_Ropp, exp_ln by exact Hpos.
    reflexivity.
Qed.


Lemma within_tolerance (x : R) : x = 1 -> Rabs (x - 1) <= 1 / 100000.
Proof.
  intros ->. replace (1 - 1) with 0 by lra. rewrite Rabs_R0. lra.
Qed.

(** ** The recurrent module and the loop over it *)

Lemma shape3_eqb_true (t : tensor3) (a b c : nat) :
  shape3_eqb t a b c = true <-> shape3 t = (a, b, c).
Proof.
  unfold shape3_eqb, shape3. rewrite !andb_true_iff, !Nat.eqb_eq.
  split; [intros [[-> ->] ->]; reflexivity | intros [= -> -> ->]; auto].
Qed.

Lemma rnn_call_Ok (r : RNNModule) (x o : tensor3) (h h' : hidden_state) :
  rnn_call r x h = Ok (o, h') ->
  dim2 x = input_size r
  /\ shape3 o = (dim0 x, dim1 x, hidden_size r)
  /\ hidden_for (mode r) h (num_layers r) (dim0 x) (hidden_size r)
  /\ hidden_for (mode r) h' (num_layers r) (dim0 x) (hidden_size r).
Proof.
  unfold rnn_call. intros H.
  apply bind_Ok in H as (u & Hg & H). apply guard_Ok, Nat.eqb_eq in Hg.
  destruct (rnn_cell r x h) as [[ov hn] cn].
  destruct (mode r), h as [h0|h0 c0]; try discriminate;
    apply bind_Ok in H as (u' & Hs & H); apply guard_Ok in Hs;
    injection H as <- <-;
    rewrite ?andb_true_iff, !shape3_eqb_true in Hs; simpl; intuition.
Qed.

Lemma rnn_call_total (r : RNNModule) (x : tensor3) (h : hidden_state) :
  dim2 x = input_size r ->
  hidden_for (mode r) h (num_layers r) (dim0 x) (hidden_size r) ->
  is_ok (rnn_call r x h).
Proof.
  unfold rnn_call. intros Hx Hh.
  rewrite (proj2 (Nat.eqb_eq _ _) Hx). simpl.
  destruct (rnn_cell r x h) as [[ov hn] cn].
  destruct (mode r), h as [h0|h0 c0]; simpl in Hh; try contradiction.
  - destruct Hh as [H1 H2].
    rewrite (proj2 (shape3_eqb_true _ _ _ _) H1),
      (proj2 (shape3_eqb_true _ _ _ _) H2). exact I.
  - rewrite (proj2 (shape3_eqb_true _ _ _ _) Hh). exact I.
  - rewrite (proj2 (shape3_eqb_true _ _ _ _) Hh). exact I.
  - rewrite (proj2 (shape3_eqb_true _ _ _ _) Hh). exact I.
Qed.

Lemma hidden_for_shaped (m : rnn_mode) (h : hidden_state) (l b w : nat) :
  hidden_for m h l b w -> hidden_shaped h l b w.
Proof. destruct m, h; simpl; tauto. Qed.

Section Loop.

Variable rnn : RNNModule.
Variable pre : tensor3 -> tensor3.
Variable post : nat -> tensor3 -> tensor3.
Hypothesis pre_shape : forall x, shape3 (pre x) = shape3 x.
Hypothesis post_shape : forall i x, shape3 (post i x) = shape3 x.

Lemma shape3_dims (x y : tensor3) :
  shape3 x = shape3 y ->
  dim0 x = dim0 y /\ dim1 x = dim1 y /\ dim2 x = dim2 y.
Proof. unfold shape3. intros [= -> -> ->]. auto. Qed.

Lemma rnn_loop_shape (n i : nat) (x o : tensor3) (h h' : hidden_state) :
  rnn_loop rnn pre post n i x h = Ok (o, h') ->
  dim0 o = dim0 x /\ dim1 o = dim1 x
  /\ ((0 < n)%nat ->
      dim2 o = hidden_size rnn
      /\ hidden_for (mode rnn) h' (num_layers rnn) (dim0 x) (hidden_size rnn))
  /\ (n = 0%nat -> o = x /\ h' = h).
Proof.
  revert i x h. induction n as [|n IH]; intros i x h H; simpl in H.
  - injection H as <- <-. repeat split; intros; lia.
  - apply bind_Ok in H as ([o1 h1] & Hc & H).
    apply rnn_call_Ok in Hc as (_ & Ho1 & _ & Hh1).
    destruct (shape3_dims _ _ (pre_shape x)) as (P0 & P1 & _).
    rewrite P0 in Ho1, Hh1. rewrite P1 in Ho1.
    apply IH in H as (D0 & D1 & Hpos & Hzero).
    destruct (shape3_dims _ _ (post_shape i o1)) as (Q0 & Q1 & Q2).
    unfold shape3 in Ho1. injection Ho1 as O0 O1 O2.
    rewrite Q0, O0 in D0. rewrite Q1, O1 in D1. rewrite Q0, O0 in Hpos.
    repeat split; try assumption; try (intros; lia).
    + destruct n as [|n].
      * destruct (Hzero eq_refl) as [-> ->]. congruence.
      * apply Hpos. lia.
    + destruct n as [|n].
      * destruct (Hzero eq_refl) as [-> ->]. exact Hh1.
      * apply Hpos. lia.
Qed.

Lemma rnn_loop_total (n i : nat) (x : tensor3) (h : hidden_state) :
  input_size rnn = hidden_size rnn \/ (n <= 1)%nat ->
  dim2 x = input_size rnn ->
  hidden_for (mode rnn) h (num_layers rnn) (dim0 x) (hidden_size rnn) ->
  is_ok (rnn_loop rnn pre post n i x h).
Proof.
  revert i x h. induction n as [|n IH]; intros i x h Hn Hx Hh; simpl.
  - exact I.
  - destruct (shape3_dims _ _ (pre_shape x)) as (P0 & P1 & P2).
    assert (Hc : is_ok (rnn_call rnn (pre x) h)).
    { apply rnn_call_total; [congruence | rewrite P0; exact Hh]. }
    destruct (rnn_call rnn (pre x) h) as [[o1 h1]|e] eqn:Ec; [|destruct Hc].
    simpl. apply rnn_call_Ok in Ec as (_ & Ho1 & _ & Hh1).
    unfold shape3 in Ho1. injection Ho1 as O0 O1 O2.
    destruct (shape3_dims _ _ (post_shape i o1)) as (Q0 & Q1 & Q2).
    destruct Hn as [Heq | Hle].
    + apply IH; [left; exact Heq | congruence |].
      rewrite Q0, O0. exact Hh1.
    + assert (n = 0%nat) as -> by lia. exact I.
Qed.

(** Two or more iterations: the second call receives the output of the
    first, of width [hidden_size], where the module expects
    [input_size]. *)
Lemma rnn_loop_raises (n i : nat) (x : tensor3) (h : hidden_state) :
  (2 <= n)%nat -> input_size rnn <> hidden_size rnn ->
  raises (rnn_loop rnn pre post n i x h).
Proof.
  intros Hn Hne. destruct n as [|[|n]]; try lia. simpl.
  destruct (rnn_call rnn (pre x) h) as [[o1 h1]|e] eqn:Ec; [|exact I].
  simpl. apply rnn_call_Ok in Ec as (_ & Ho1 & _).
  unfold shape3 in Ho1. injection Ho1 as O0 O1 O2.
  destruct (shape3_dims _ _ (post_shape i o1)) as (_ & _ & Q2).
  destruct (shape3_dims _ _ (pre_shape (post i o1))) as (_ & _ & P2).
  unfold rnn_call at 1.
  replace (Nat.eqb (dim2 (pre (post i o1))) (input_size rnn)) with false.
  - exact I.
  - symmetry. apply Nat.eqb_neq. congruence.
Qed.

(** The same, naming the exception when the first call succeeds. *)
Lemma rnn_loop_second_call (n i : nat) (x o1 : tensor3) (h h1 : hidden_state) :
  input_size rnn <> hidden_size rnn ->
  rnn_call rnn (pre x) h = Ok (o1, h1) ->
  rnn_loop rnn pre post (S (S n)) i x h = Raise ShapeMismatch.
Proof.
  intros Hne Ec. simpl. rewrite Ec. simpl.
  apply rnn_call_Ok in Ec as (_ & Ho1 & _).
  unfold shape3 in Ho1. injection Ho1 as O0 O1 O2.
  destruct (shape3_dims _ _ (post_shape i o1)) as (_ & _ & Q2).
  destruct (shape3_dims _ _ (pre_shape (post i o1))) as (_ & _ & P2).
  unfold rnn_call at 1.
  replace (Nat.eqb (dim2 (pre (post i o1))) (input_size rnn)) with false.
  - reflexivity.
  - symmetry. apply Nat.eqb_neq. congruence.
Qed.

Lemma rnn_loop_mismatch (n i : nat) (x : tensor3) (h : hidden_state) :
  (2 <= n)%nat -> input_size rnn <> hidden_size rnn ->
  dim2 x = input_size rnn ->
  hidden_for (mode rnn) h (num_layers rnn) (dim0 x) (hidden_size rnn) ->
  rnn_loop rnn pre post n i x h = Raise ShapeMismatch.
Proof.
  intros Hn Hne Hx Hh. destruct n as [|[|n]]; try lia.
  destruct (shape3_dims _ _ (pre_shape x)) as (P0 & _ & P2).
  assert (Hc : is_ok (rnn_call rnn (pre x) h)).
  { apply rnn_call_total; [congruence | rewrite P0; exact Hh]. }
  destruct (rnn_call rnn (pre x) h) as [[o1 h1]|e] eqn:Ec; [|destruct Hc].
  eapply rnn_loop_second_call; eassumption.
Qed.

End Loop.

(** ** Inversion of the tensor operations *)

Lemma embed_Ok (e : Embedding) (input : list nat) (v : tensor2) :
  embed e input = Ok v ->
  Forall (fun t => (t < num_embeddings e)%nat) input
  /\ v = T2 (length input) (embedding_dim e)
            (fun i k => emb_weight e (nth i input 0%nat) k).
Proof.
  unfold embed. intros H. apply bind_Ok in H as (u & Hg & H).
  apply guard_Ok in Hg. injection H as <-. split; [|reflexivity].
  rewrite forallb_forall in Hg. apply List.Forall_forall.
  intros t Ht. apply Nat.ltb_lt, Hg, Ht.
Qed.

Lemma embed_total (e : Embedding) (input : list nat) :
  Forall (fun t => (t < num_embeddings e)%nat) input -> is_ok (embed e input).
Proof.
  intros H. unfold embed.
  replace (forallb _ input) with true; [exact I|].
  symmetry. apply forallb_forall. intros t Ht. apply Nat.ltb_lt.
  rewrite List.Forall_forall in H. apply H, Ht.
Qed.

Lemma linear_Ok (l : Linear) (x y : tensor2) :
  linear l x = Ok y ->
  cols2 x = in_features l
  /\ y = T2 (rows2 x) (out_features l)
            (fun i o => rsum (in_features l)
                          (fun k => at2 x i k * lin_weight l o k)
                        + lin_bias l o).
Proof.
  unfold linear. intros H. apply bind_Ok in H as (u & Hg & H).
  apply guard_Ok, Nat.eqb_eq in Hg. injection H as <-. auto.
Qed.

Lemma linear_total (l : Linear) (x : tensor2) :
  cols2 x = in_features l -> is_ok (linear l x).
Proof.
  intros H. unfold linear. rewrite (proj2 (Nat.eqb_eq _ _) H). exact I.
Qed.

Lemma cat1_Ok (x y z : tensor2) :
  cat1 x y = Ok z ->
  rows2 x = rows2 y
  /\ z = T2 (rows2 x) (cols2 x + cols2 y)
            (fun i k => if Nat.ltb k (cols2 x) then at2 x i k
                        else at2 y i (k - cols2 x)).
Proof.
  unfold cat1. intros H. apply bind_Ok in H as (u & Hg & H).
  apply guard_Ok, Nat.eqb_eq in Hg. injection H as <-. auto.
Qed.

Lemma cat2_Ok (x y z : tensor3) :
  cat2 x y = Ok z ->
  dim0 x = dim0 y /\ dim1 x = dim1 y
  /\ z = T3 (dim0 x) (dim1 x) (dim2 x + dim2 y)
            (fun i j k => if Nat.ltb k (dim2 x) then at3 x i j k
                          else at3 y i j (k - dim2 x)).
Proof.
  unfold cat2. intros H. apply bind_Ok in H as (u & Hg & H).
  apply guard_Ok in Hg. rewrite andb_true_iff, !Nat.eqb_eq in Hg.
  injection H as <-. tauto.
Qed.

Lemma bmm_Ok (x y z : tensor3) :
  bmm x y = Ok z ->
  dim0 x = dim0 y /\ dim2 x = dim1 y
  /\ z = T3 (dim0 x) (dim1 x) (dim2 y)
            (fun i j k => rsum (dim2 x) (fun l => at3 x i j l * at3 y i l k)).
Proof.
  unfold bmm. intros H. apply bind_Ok in H as (u & Hg & H).
  apply guard_Ok in Hg. rewrite andb_true_iff, !Nat.eqb_eq in Hg.
  injection H as <-. tauto.
Qed.

Lemma zip2_Ok (f : R -> R -> R) (x y z : tensor2) :
  zip2 f x y = Ok z ->
  rows2 x = rows2 y /\ cols2 x = cols2 y
  /\ z = T2 (rows2 x) (cols2 x) (fun i j => f (at2 x i j) (at2 y i j)).
Proof.
  unfold zip2. intros H. apply bind_Ok in H as (u & Hg & H).
  apply guard_Ok in Hg. rewrite andb_true_iff, !Nat.eqb_eq in Hg.
  injection H as <-. tauto.
Qed.

Lemma range0_Ok (n : nat) (v : tensor1) :
  range0 n = Ok v -> (0 < n)%nat /\ v = T1 n (fun s => INR s).
Proof.
  unfold range0. intros H. apply bind_Ok in H as (u & Hg & H).
  apply guard_Ok, Nat.ltb_lt in Hg. injection H as <-. auto.
Qed.

Lemma expand2_Ok (x y : tensor2) (r c : nat) :
  expand2 x r c = Ok y ->
  y = T2 r c (fun i j =>
        at2 x (if Nat.eqb (rows2 x) r then i else 0%nat)
              (if Nat.eqb (cols2 x) c then j else 0%nat)).
Proof.
  unfold expand2. intros H. apply bind_Ok in H as (u & Hg & H).
  apply bind_Ok in H as (u' & Hg' & H). injection H as <-. reflexivity.
Qed.

(** Resolves the attribute reads of a [forward] on a constructed instance
    and splits the successful run into its steps. *)
Ltac run_forward H :=
  unfold getattr in H; simplify_map_eq; inv_ok H.

(** The loops of the four [forward] methods wrap the call in functions
    that keep the shape; these tactics instantiate the lemmas on the loop
    with them. *)
Ltac loop_shape H :=
  match type of H with
  | rnn_loop ?r ?pre ?post _ _ _ _ = Ok _ =>
      apply (rnn_loop_shape r pre post (fun _ => eq_refl)
               (fun _ _ => eq_refl)) in H
  end.

Ltac loop_raises :=
  match goal with
  | |- raises (rnn_loop ?r ?pre ?post _ _ _ _) =>
      apply (rnn_loop_raises r pre post (fun _ => eq_refl)
               (fun _ _ => eq_refl))
  end.

Ltac loop_mismatch :=
  match goal with
  | |- context [rnn_loop ?r ?pre ?post ?n ?i ?x ?h] =>
      rewrite (rnn_loop_mismatch r pre post (fun _ => eq_refl)
                 (fun _ _ => eq_refl) n i x h)
  end.

Ltac loop_total :=
  match goal with
  | |- is_ok (rnn_loop ?r ?pre ?post _ _ _ _) =>
      apply (rnn_loop_total r pre post (fun _ => eq_refl)
               (fun _ _ => eq_refl))
  end.

(** ** The no-attention decoder *)

Lemma Forall_lt_nonempty (n i : nat) (input : list nat) :
  Forall (fun t => (t < n)%nat) input -> (i < length input)%nat -> (0 < n)%nat.
Proof.
  intros H Hi. destruct input as [|t ts]; simpl in Hi; [lia|].
  apply List.Forall_inv in H. lia.
Qed.

(** C9: on an instance built by the constructor and a hidden state of the
    configured kind and shape, [Decoder.forward] returns whenever the token
    ids are in the vocabulary and either there is one layer or the embedding
    and hidden widths agree; and whenever it returns, the log-probabilities
    have shape (b, vocab_size), every row sums to 1 after exponentiation
    (hence within 1e-5 of 1), and the new hidden state has shape
    (num_layers, b, hidden_dim). *)
Theorem Decoder_forward_log_probabilities (values : init_values)
  (input_size : nat) (cfg : config) (m : rnn_mode) (a : list shape)
  (self : gmap string attr) (masks : nat -> mask) (input : list nat)
  (hidden : hidden_state) :
  Decoder.__init__ values input_size cfg = (a, Ok self) ->
  mode_of (model cfg) = Some m ->
  hidden_for m hidden (nlayers cfg) (length input) (nhid cfg) ->
  (Forall (fun t => (t < input_size)%nat) input ->
   nlayers cfg = 1%nat \/ emsize cfg = nhid cfg ->
   is_ok (Decoder.forward self masks input hidden))
  /\ (forall out h',
        Decoder.forward self masks input hidden = Ok (out, h') ->
        shape2 out = (length input, input_size)
        /\ (forall i, (i < length input)%nat ->
              rsum input_size (fun j => exp (at2 out i j)) = 1
              /\ Rabs (rsum input_size (fun j => exp (at2 out i j)) - 1)
                 <= 1 / 100000)
        /\ hidden_shaped h' (nlayers cfg) (length input) (nhid cfg)).
Proof.
  intros Hinit Hm Hh. rewrite Decoder_init_spec in Hinit.
  apply make_rnn_Ok in Hinit as (m' & Hm' & ->).
  assert (m' = m) as -> by congruence. clear Hm'.
  split.
  - intros Hin Hl. unfold Decoder.forward, getattr. simplify_map_eq.
    apply is_ok_bind; [apply embed_total; exact Hin|].
    intros v Ev. apply embed_Ok in Ev as [_ ->].
    apply is_ok_bind.
    + loop_total; simpl; try reflexivity; try assumption.
      destruct Hl; [right; lia | left; assumption].
    + intros [o h1] El. apply is_ok_bind; [|intros; exact I].
      apply linear_total. simpl.
      loop_shape El. destruct El as (_ & _ & Hpos & Hzero).
      destruct (nlayers cfg) as [|l] eqn:En.
      * destruct (Hzero eq_refl) as [-> _]. simpl.
        destruct Hl; [lia|assumption].
      * destruct (Hpos ltac:(lia)) as [-> _]. reflexivity.
  - intros out h' H. unfold Decoder.forward in H. run_forward H.
    injection H as <- <-.
    apply embed_Ok in E as [Hin ->]. simpl in Hin.
    loop_shape E0. destruct E0 as (D0 & _ & Hpos & Hzero).
    apply linear_Ok in E1 as [_ Hv0].
    assert (Hc : cols2 v0 = input_size) by (rewrite Hv0; reflexivity).
    assert (Hr : rows2 v0 = length input) by (rewrite Hv0; exact D0).
    assert (Hsum : forall i, (i < length input)%nat ->
              rsum input_size (fun j => exp (at2 (log_softmax v0) i j)) = 1).
    { intros i Hi. rewrite <- Hc. apply log_softmax_exp_row_sum.
      rewrite Hc. eapply Forall_lt_nonempty; eassumption. }
    repeat split.
    + rewrite log_softmax_shape. unfold shape2. congruence.
    + apply Hsum. assumption.
    + apply within_tolerance, Hsum. assumption.
    + destruct (nlayers cfg) as [|l] eqn:En.
      * destruct (Hzero eq_refl) as [_ ->].
        eapply hidden_for_shaped. exact Hh.
      * destruct (Hpos ltac:(lia)) as [_ Hh1].
        eapply hidden_for_shaped. simpl in Hh1. rewrite En in Hh1. exact Hh1.
Qed.

Lemma Decoder_forward_log_probabilities_witness :
  is_ok (Decoder.forward scenario_decoder eval_masks [1; 3]%nat
           (HTensor (zeros3 1 2 6)))
  /\ (forall out h',
        Decoder.forward scenario_decoder eval_masks [1; 3]%nat
          (HTensor (zeros3 1 2 6)) = Ok (out, h') ->
        shape2 out = (2, 5)%nat
        /\ (forall i, (i < 2)%nat ->
              rsum 5 (fun j => exp (at2 out i j)) = 1
              /\ Rabs (rsum 5 (fun j => exp (at2 out i j)) - 1) <= 1 / 100000)
        /\ hidden_shaped h' 1 2 6).
Proof.
  assert (Hinit : Decoder.__init__ example_values 5 (example_config "GRU" 4 6 1)
                  = ((Decoder.__init__ example_values 5
                        (example_config "GRU" 4 6 1)).1, Ok scenario_decoder))
    by (apply built_Ok; rewrite Decoder_init_spec, make_rnn_spec; exact I).
  destruct (Decoder_forward_log_probabilities example_values 5
              (example_config "GRU" 4 6 1) GRU _ scenario_decoder eval_masks
              [1; 3]%nat (HTensor (zeros3 1 2 6)) Hinit eq_refl eq_refl)
    as [Hreturns Hresult].
  split.
  - apply Hreturns; [repeat constructor; lia | left; reflexivity].
  - exact Hresult.
Defined.

(** ** Stacked layers *)

Lemma Decoder_forward_stacked (values : init_values) (input_size : nat)
  (cfg : config) (a : list shape) (self : gmap string attr)
  (masks : nat -> mask) (input : list nat) (hidden : hidden_state) :
  (2 <= nlayers cfg)%nat ->
  Decoder.__init__ values input_size cfg = (a, Ok self) ->
  emsize cfg <> nhid cfg ->
  raises (Decoder.forward self masks input hidden)
  /\ (forall m, mode_of (model cfg) = Some m ->
        Forall (fun t => (t < input_size)%nat) input ->
        hidden_for m hidden (nlayers cfg) (length input) (nhid cfg) ->
        Decoder.forward self masks input hidden = Raise ShapeMismatch).
Proof.
  intros Hl Hinit Hne. rewrite Decoder_init_spec in Hinit.
  apply make_rnn_Ok in Hinit as (m' & Hm' & ->).
  unfold Decoder.forward, getattr. simplify_map_eq. split.
  - apply raises_bind. intros v _. apply raises_bind_l.
    loop_raises; assumption.
  - intros m Hm Hin Hh. assert (m' = m) as -> by congruence.
    pose proof (embed_total
                  {| num_embeddings := input_size; embedding_dim := emsize cfg;
                     emb_weight := init_embedding values |} input Hin) as He.
    destruct (embed _ input) as [v|] eqn:Ev; [|destruct He].
    apply embed_Ok in Ev as [_ ->]. simpl.
    loop_mismatch; [reflexivity | assumption | assumption | reflexivity
                   | exact Hh].
Qed.

Lemma rnn_loop_first_call (rnn : RNNModule) (pre : tensor3 -> tensor3)
  (post : nat -> tensor3 -> tensor3) (n i : nat) (x : tensor3)
  (h : hidden_state) :
  dim2 (pre x) <> input_size rnn ->
  rnn_loop rnn pre post (S n) i x h = Raise ShapeMismatch.
Proof.
  intros Hne. simpl. unfold rnn_call.
  rewrite (proj2 (Nat.eqb_neq _ _) Hne). reflexivity.
Qed.

Lemma GloballyAttentiveDecoder_forward_stacked (values : init_values)
  (input_size : nat) (cfg : config) (a : list shape)
  (self : gmap string attr) (masks : nat -> mask) (input : list nat)
  (hidden : hidden_state) (last_context encoder_outputs : tensor3) :
  (2 <= nlayers cfg)%nat ->
  GloballyAttentiveDecoder.__init__ values input_size cfg = (a, Ok self) ->
  (0 < emsize cfg)%nat ->
  raises (GloballyAttentiveDecoder.forward self masks input hidden
            last_context encoder_outputs)
  /\ (forall m, mode_of (model cfg) = Some m ->
        Forall (fun t => (t < input_size)%nat) input ->
        hidden_for m hidden (nlayers cfg) (length input) (nhid cfg) ->
        shape3 last_context = (length input, 1%nat, nhid cfg) ->
        GloballyAttentiveDecoder.forward self masks input hidden
          last_context encoder_outputs = Raise ShapeMismatch).
Proof.
  intros Hl Hinit Hne. rewrite GloballyAttentiveDecoder_init_spec in Hinit.
  apply make_rnn_Ok in Hinit as (m' & Hm' & ->).
  unfold GloballyAttentiveDecoder.forward,
    GloballyAttentiveDecoder.forward_locals, getattr.
  simplify_map_eq. split.
  - apply raises_bind_l, raises_bind. intros v _.
    apply raises_bind. intros x _. apply raises_bind_l.
    loop_raises; [assumption | simpl; lia].
  - intros m Hm Hin Hh Hc. assert (m' = m) as -> by congruence.
    pose proof (embed_total
                  {| num_embeddings := input_size; embedding_dim := emsize cfg;
                     emb_weight := init_embedding values |} input Hin) as He.
    destruct (embed _ input) as [v|] eqn:Ev; [|destruct He].
    apply embed_Ok in Ev as [_ ->]. simpl.
    unfold shape3 in Hc. injection Hc as C0 C1 C2.
    unfold cat2. simpl. rewrite C0, C1, !Nat.eqb_refl. simpl.
    loop_mismatch; [reflexivity | assumption | simpl; lia
                   | simpl; congruence | exact Hh].
Qed.

Lemma LocallyAttentiveDecoder_forward_stacked (values : init_values)
  (input_size : nat) (cfg : config) (a : list shape)
  (self : gmap string attr) (masks : nat -> mask) (input : list nat)
  (hidden : hidden_state) (encoder_outputs : tensor3) :
  (2 <= nlayers cfg)%nat ->
  LocallyAttentiveDecoder.__init__ values input_size cfg = (a, Ok self) ->
  emsize cfg <> nhid cfg ->
  raises (LocallyAttentiveDecoder.forward self masks input hidden
            encoder_outputs)
  /\ (forall m, mode_of (model cfg) = Some m ->
        Forall (fun t => (t < input_size)%nat) input ->
        hidden_for m hidden (nlayers cfg) (length input) (nhid cfg) ->
        LocallyAttentiveDecoder.forward self masks input hidden
          encoder_outputs = Raise ShapeMismatch).
Proof.
  intros Hl Hinit Hne. rewrite LocallyAttentiveDecoder_init_spec in Hinit.
  apply make_rnn_Ok in Hinit as (m' & Hm' & ->).
  unfold LocallyAttentiveDecoder.forward,
    LocallyAttentiveDecoder.forward_locals, getattr.
  simplify_map_eq. split.
  - apply raises_bind_l, raises_bind. intros v _. apply raises_bind_l.
    loop_raises; assumption.
  - intros m Hm Hin Hh. assert (m' = m) as -> by congruence.
    pose proof (embed_total
                  {| num_embeddings := input_size; embedding_dim := emsize cfg;
                     emb_weight := init_embedding values |} input Hin) as He.
    destruct (embed _ input) as [v|] eqn:Ev; [|destruct He].
    apply embed_Ok in Ev as [_ ->]. simpl.
    loop_mismatch; [reflexivity | assumption | assumption | reflexivity
                   | exact Hh].
Qed.

Lemma AttentionDecoder_forward_stacked (values : init_values)
  (input_size max_sent_length : nat) (cfg : config) (a : list shape)
  (self : gmap string attr) (masks : nat -> mask) (input : list nat)
  (hidden : hidden_state) (encoder_outputs : tensor3) :
  (2 <= nlayers cfg)%nat ->
  AttentionDecoder.__init__ values input_size max_sent_length cfg
    = (a, Ok self) ->
  emsize cfg <> nhid cfg ->
  raises (AttentionDecoder.forward self masks input hidden encoder_outputs)
  /\ (forall h c, hidden = HTuple h c ->
        Forall (fun t => (t < input_size)%nat) input ->
        shape3 h = (nlayers cfg, length input, nhid cfg) ->
        AttentionDecoder.forward self masks input hidden encoder_outputs
          = Raise ShapeMismatch).
Proof.
  intros Hl Hinit Hne. rewrite AttentionDecoder_init_spec in Hinit.
  apply make_rnn_Ok in Hinit as (m' & Hm' & ->).
  unfold AttentionDecoder.forward, getattr.
  simplify_map_eq. split.
  - do 6 (apply raises_bind; intros ? ?).
    apply raises_bind. intros v Ev. apply linear_Ok in Ev as [_ ->].
    apply raises_bind_l.
    destruct (nlayers cfg) as [|n]; [lia|].
    rewrite rnn_loop_first_call; [exact I | simpl; congruence].
  - intros h c -> Hin Hh.
    pose proof (embed_total
                  {| num_embeddings := input_size; embedding_dim := emsize cfg;
                     emb_weight := init_embedding values |} input Hin) as He.
    destruct (embed _ input) as [v|] eqn:Ev; [|destruct He].
    apply embed_Ok in Ev as [_ ->]. simpl.
    unfold shape3 in Hh. injection Hh as H0 H1 H2.
    rewrite H0. replace (Nat.ltb 0 (nlayers cfg)) with true
      by (symmetry; apply Nat.ltb_lt; lia).
    simpl. unfold cat1. simpl. rewrite H1, Nat.eqb_refl. simpl.
    unfold linear. simpl.
    replace (Nat.eqb (emsize cfg + dim2 h) (nhid cfg * 2)) with false
      by (symmetry; apply Nat.eqb_neq; lia).
    reflexivity.
Qed.

Lemma make_rnn_module (values : init_values) (cfg : config) (i : nat)
  (base self : gmap string attr) (allocated a : list shape) :
  make_rnn values cfg i base allocated = (a, Ok self) ->
  exists r, self !! "rnn" = Some (ARNN r)
            /\ num_layers r = nlayers cfg
            /\ input_size r = i
            /\ hidden_size r = nhid cfg.
Proof.
  intros H. apply make_rnn_Ok in H as (m & _ & ->).
  exists (recurrent values cfg i m). rewrite lookup_insert_eq. auto.
Qed.

(** C10: the module every constructor stores in [self.rnn] has
    [nlayers] layers and a fixed input width, and each [forward] calls that
    whole module once per iteration of [for i in range(nlayers)].  With two
    layers or more the second call receives an input of width [nhid] where
    the module was built for another width, so no [forward] returns: always
    for the global-attention decoder (built for width [emsize + nhid]), and
    whenever [emsize] differs from [nhid] for the other three.  On inputs
    that are otherwise well formed the exception is the shape mismatch. *)
Theorem forward_fails_with_stacked_layers (values : init_values)
  (vocab_size max_sent_length : nat) (cfg : config) (a : list shape)
  (self : gmap string attr) (masks : nat -> mask) (input : list nat)
  (hidden : hidden_state) (last_context encoder_outputs : tensor3) :
  (2 <= nlayers cfg)%nat ->
  (Decoder.__init__ values vocab_size cfg = (a, Ok self) ->
   (exists r, self !! "rnn" = Some (ARNN r)
              /\ num_layers r = nlayers cfg
              /\ input_size r = emsize cfg
              /\ hidden_size r = nhid cfg)
   /\ (emsize cfg <> nhid cfg ->
       raises (Decoder.forward self masks input hidden)
       /\ (forall m, mode_of (model cfg) = Some m ->
             Forall (fun t => (t < vocab_size)%nat) input ->
             hidden_for m hidden (nlayers cfg) (length input) (nhid cfg) ->
             Decoder.forward self masks input hidden = Raise ShapeMismatch)))
  /\ (AttentionDecoder.__init__ values vocab_size max_sent_length cfg
        = (a, Ok self) ->
      (exists r, self !! "rnn" = Some (ARNN r)
                 /\ num_layers r = nlayers cfg
                 /\ input_size r = emsize cfg
                 /\ hidden_size r = nhid cfg)
      /\ (emsize cfg <> nhid cfg ->
          raises (AttentionDecoder.forward self masks input hidden
                    encoder_outputs)
          /\ (forall h c, hidden = HTuple h c ->
                Forall (fun t => (t < vocab_size)%nat) input ->
                shape3 h = (nlayers cfg, length input, nhid cfg) ->
                AttentionDecoder.forward self masks input hidden
                  encoder_outputs = Raise ShapeMismatch)))
  /\ (GloballyAttentiveDecoder.__init__ values vocab_size cfg = (a, Ok self) ->
      (exists r, self !! "rnn" = Some (ARNN r)
                 /\ num_layers r = nlayers cfg
                 /\ input_size r = (emsize cfg + nhid cfg)%nat
                 /\ hidden_size r = nhid cfg)
      /\ ((0 < emsize cfg)%nat ->
          raises (GloballyAttentiveDecoder.forward self masks input hidden
                    last_context encoder_outputs)
          /\ (forall m, mode_of (model cfg) = Some m ->
                Forall (fun t => (t < vocab_size)%nat) input ->
                hidden_for m hidden (nlayers cfg) (length input) (nhid cfg) ->
                shape3 last_context = (length input, 1%nat, nhid cfg) ->
                GloballyAttentiveDecoder.forward self masks input hidden
                  last_context encoder_outputs = Raise ShapeMismatch)))
  /\ (LocallyAttentiveDecoder.__init__ values vocab_size cfg = (a, Ok self) ->
      (exists r, self !! "rnn" = Some (ARNN r)
                 /\ num_layers r = nlayers cfg
                 /\ input_size r = emsize cfg
                 /\ hidden_size r = nhid cfg)
      /\ (emsize cfg <> nhid cfg ->
          raises (LocallyAttentiveDecoder.forward self masks input hidden
                    encoder_outputs)
          /\ (forall m, mode_of (model cfg) = Some m ->
                Forall (fun t => (t < vocab_size)%nat) input ->
                hidden_for m hidden (nlayers cfg) (length input) (nhid cfg) ->
                LocallyAttentiveDecoder.forward self masks input hidden
                  encoder_outputs = Raise ShapeMismatch))).
Proof.
  intros Hl. split; [|split; [|split]]; intros Hinit; split.
  - rewrite Decoder_init_spec in Hinit. eapply make_rnn_module, Hinit.
  - intros Hne. eapply Decoder_forward_stacked; eassumption.
  - rewrite AttentionDecoder_init_spec in Hinit.
    eapply make_rnn_module, Hinit.
  - intros Hne. eapply AttentionDecoder_forward_stacked; eassumption.
  - rewrite GloballyAttentiveDecoder_init_spec in Hinit.
    eapply make_rnn_module, Hinit.
  - intros Hne. eapply GloballyAttentiveDecoder_forward_stacked; eassumption.
  - rewrite LocallyAttentiveDecoder_init_spec in Hinit.
    eapply make_rnn_module, Hinit.
  - intros Hne. eapply LocallyAttentiveDecoder_forward_stacked; eassumption.
Qed.

Lemma forward_fails_with_stacked_layers_witness :
  GloballyAttentiveDecoder.forward stacked_decoder eval_masks [1; 3]%nat
    (HTensor (zeros3 2 2 6)) (zeros3 2 1 6) (zeros3 2 3 6)
  = Raise ShapeMismatch.
Proof.
  assert (Hinit : GloballyAttentiveDecoder.__init__ example_values 5
                    (example_config "GRU" 4 6 2)
                  = ((GloballyAttentiveDecoder.__init__ example_values 5
                        (example_config "GRU" 4 6 2)).1, Ok stacked_decoder))
    by (apply built_Ok; rewrite GloballyAttentiveDecoder_init_spec,
          make_rnn_spec; exact I).
  destruct (forward_fails_with_stacked_layers example_values 5 3
              (example_config "GRU" 4 6 2)
              (GloballyAttentiveDecoder.__init__ example_values 5
                 (example_config "GRU" 4 6 2)).1
              stacked_decoder eval_masks
              [1; 3]%nat (HTensor (zeros3 2 2 6)) (zeros3 2 1 6)
              (zeros3 2 3 6) (le_n 2)) as (_ & _ & Hglobal & _).
  destruct (Hglobal Hinit) as [_ Hfails].
  destruct (Hfails ltac:(simpl; lia)) as [_ Hmismatch].
  apply (Hmismatch GRU eq_refl); [repeat constructor; lia | | ]; reflexivity.
Defined.

(** ** The global-attention decoder *)

Lemma rsum_scale_l (n : nat) (f : nat -> R) (c : R) :
  rsum n (fun k => c * f k) = c * rsum n f.
Proof. induction n as [|n IH]; simpl; [lra | rewrite IH; lra]. Qed.

(** A successful run of [forward], step by step. *)
Lemma GloballyAttentiveDecoder_locals_inv (self : gmap string attr)
  (masks : nat -> mask) (input : list nat) (hidden : hidden_state)
  (last_context encoder_outputs : tensor3)
  (l : GloballyAttentiveDecoder.locals) :
  GloballyAttentiveDecoder.forward_locals self masks input hidden
    last_context encoder_outputs = Ok l ->
  exists (e : Embedding) (cfg : config) (rnn : RNNModule) (weight : tensor2)
         (v : tensor2),
    getattr self "embedding" ≫= as_embedding = Ok e
    /\ getattr self "config" ≫= as_config = Ok cfg
    /\ getattr self "rnn" ≫= as_rnn = Ok rnn
    /\ getattr self "weight" ≫= as_parameter = Ok weight
    /\ embed e input = Ok v
    /\ GloballyAttentiveDecoder.embedded l = unsqueeze1 (drop2 (masks 0%nat) v)
    /\ cat2 (GloballyAttentiveDecoder.embedded l) last_context
       = Ok (GloballyAttentiveDecoder.rnn_input l)
    /\ rnn_loop rnn (fun x => x) (fun _ x => x) (nlayers cfg) 0
         (GloballyAttentiveDecoder.rnn_input l) hidden
       = Ok (GloballyAttentiveDecoder.output l,
             GloballyAttentiveDecoder.hidden' l)
    /\ bmm (expand_batch (dim0 encoder_outputs) weight)
           (transpose12 encoder_outputs)
       = Ok (GloballyAttentiveDecoder.weighted_encoder_output l)
    /\ bmm (GloballyAttentiveDecoder.output l)
           (GloballyAttentiveDecoder.weighted_encoder_output l)
       = Ok (GloballyAttentiveDecoder.score l)
    /\ GloballyAttentiveDecoder.attn_weights l
       = softmax (squeeze1 (GloballyAttentiveDecoder.score l))
    /\ bmm (unsqueeze1 (GloballyAttentiveDecoder.attn_weights l))
           encoder_outputs
       = Ok (GloballyAttentiveDecoder.context_vector l).
Proof.
  intros H. unfold GloballyAttentiveDecoder.forward_locals in H.
  inv_ok H. injection H as <-. simpl.
  repeat eexists; eassumption.
Qed.

(** Shapes of the attention weights of a successful run. *)
Lemma GloballyAttentiveDecoder_weights_shape (self : gmap string attr)
  (masks : nat -> mask) (input : list nat) (hidden : hidden_state)
  (last_context encoder_outputs : tensor3)
  (l : GloballyAttentiveDecoder.locals) :
  GloballyAttentiveDecoder.forward_locals self masks input hidden
    last_context encoder_outputs = Ok l ->
  shape2 (GloballyAttentiveDecoder.attn_weights l)
  = (length input, dim1 encoder_outputs).
Proof.
  intros H. apply GloballyAttentiveDecoder_locals_inv in H
    as (e & cfg & rnn & weight & v & _ & _ & _ & _ & Hv & Hemb & Hcat & Hloop
        & Hw & Hs & -> & _).
  apply embed_Ok in Hv as [_ ->].
  apply cat2_Ok in Hcat as (_ & _ & Hri). rewrite Hemb in Hri.
  loop_shape Hloop. destruct Hloop as (D0 & _).
  apply bmm_Ok in Hw as (_ & _ & Hw).
  apply bmm_Ok in Hs as (_ & _ & Hs).
  unfold shape2. simpl. rewrite Hs. simpl. rewrite Hw, D0, Hri. reflexivity.
Qed.

(** C2: one step of the global-attention decoder.  The recurrent module is
    fed the (dropped-out) embedding of the token followed by
    [last_context]; its output is scored against every source position by
    the bilinear form output · W · encoder_outputᵗ, in the one call
    [torch.bmm(output, weighted_encoder_output)]; the attention weights are
    the softmax of the scores; the context vector is the sum of the encoder
    outputs weighted by them; and the call returns (log-probabilities,
    hidden state, context vector, attention weights). *)
Theorem global_attention_step (values : init_values) (input_size : nat)
  (cfg : config) (a : list shape) (self : gmap string attr)
  (masks : nat -> mask) (input : list nat) (hidden : hidden_state)
  (last_context encoder_outputs : tensor3)
  (lp : tensor2) (h' : hidden_state) (ctx : tensor3) (w : tensor2) :
  GloballyAttentiveDecoder.__init__ values input_size cfg = (a, Ok self) ->
  GloballyAttentiveDecoder.forward self masks input hidden last_context
    encoder_outputs = Ok (lp, h', ctx, w) ->
  exists (m : rnn_mode) (l : GloballyAttentiveDecoder.locals),
    mode_of (model cfg) = Some m
    /\ GloballyAttentiveDecoder.forward_locals self masks input hidden
         last_context encoder_outputs = Ok l
    /\ lp = GloballyAttentiveDecoder.log_probs l
    /\ h' = GloballyAttentiveDecoder.hidden' l
    /\ ctx = GloballyAttentiveDecoder.context_vector l
    /\ w = GloballyAttentiveDecoder.attn_weights l
    /\ shape3 (GloballyAttentiveDecoder.rnn_input l)
       = (length input, 1%nat, (emsize cfg + dim2 last_context)%nat)
    /\ (forall i j k,
          at3 (GloballyAttentiveDecoder.rnn_input l) i j k
          = if Nat.ltb k (emsize cfg)
            then masks 0%nat i 0%nat k
                 * init_embedding values (nth i input 0%nat) k
            else at3 last_context i j (k - emsize cfg))
    /\ rnn_loop (recurrent values cfg (emsize cfg + nhid cfg) m)
         (fun x => x) (fun _ x => x) (nlayers cfg) 0
         (GloballyAttentiveDecoder.rnn_input l) hidden
       = Ok (GloballyAttentiveDecoder.output l, h')
    /\ bmm (GloballyAttentiveDecoder.output l)
           (GloballyAttentiveDecoder.weighted_encoder_output l)
       = Ok (GloballyAttentiveDecoder.score l)
    /\ (forall i j s,
          at3 (GloballyAttentiveDecoder.score l) i j s
          = rsum (nhid cfg) (fun p =>
              rsum (nhid cfg) (fun q =>
                at3 (GloballyAttentiveDecoder.output l) i j p
                * init_weight values p q * at3 encoder_outputs i s q)))
    /\ shape2 w = (length input, dim1 encoder_outputs)
    /\ (forall i s,
          at2 w i s
          = exp (at3 (GloballyAttentiveDecoder.score l) i 0%nat s)
            / rsum (dim1 encoder_outputs) (fun s' =>
                exp (at3 (GloballyAttentiveDecoder.score l) i 0%nat s')))
    /\ shape3 ctx = (length input, 1%nat, dim2 encoder_outputs)
    /\ (forall i j k,
          at3 ctx i j k
          = rsum (dim1 encoder_outputs) (fun s =>
              at2 w i s * at3 encoder_outputs i s k)).
Proof.
  intros Hinit H. unfold GloballyAttentiveDecoder.forward in H.
  apply bind_Ok in H as (l & Hl & H). injection H as <- <- <- <-.
  pose proof (GloballyAttentiveDecoder_weights_shape _ _ _ _ _ _ _ Hl) as Hws.
  pose proof Hl as Hinv.
  apply GloballyAttentiveDecoder_locals_inv in Hinv
    as (e & cfg' & rnn & weight & v & He & Hcfg & Hrnn & Hweight & Hv & Hemb
        & Hcat & Hloop & Hw & Hs & Hattn & Hctx).
  rewrite GloballyAttentiveDecoder_init_spec in Hinit.
  apply make_rnn_Ok in Hinit as (m & Hm & ->).
  unfold getattr in He, Hcfg, Hrnn, Hweight. simplify_map_eq.
  apply embed_Ok in Hv as [_ ->].
  apply cat2_Ok in Hcat as (_ & _ & Hri). rewrite Hemb in Hri. simpl in Hri.
  apply bmm_Ok in Hw as (_ & _ & Hw). simpl in Hw.
  pose proof Hs as Hbmm.
  apply bmm_Ok in Hs as (_ & Hd & Hs). rewrite Hw in Hd. simpl in Hd.
  apply bmm_Ok in Hctx as (_ & Hc & Hctx). simpl in Hc.
  unfold shape2 in Hws. injection Hws as Hr0 Hc0.
  exists m, l. repeat split; try assumption; try reflexivity.
  - rewrite Hri. reflexivity.
  - intros i j k. rewrite Hri. reflexivity.
  - intros i j s. rewrite Hs, Hd. simpl. apply rsum_ext. intros p _.
    rewrite Hw. simpl. rewrite <- rsum_scale_l. apply rsum_ext. intros q _.
    lra.
  - unfold shape2. congruence.
  - intros i s. rewrite Hattn in Hc0 |- *. simpl in Hc0 |- *.
    rewrite Hc0. reflexivity.
  - rewrite Hctx. unfold shape3. simpl. congruence.
  - intros i j k. rewrite Hctx. simpl. rewrite Hc0. reflexivity.
Qed.

(** ** Runs that return *)

Lemma bmm_total (x y : tensor3) :
  dim0 x = dim0 y -> dim2 x = dim1 y -> is_ok (bmm x y).
Proof.
  intros H0 H1. unfold bmm. rewrite H0, H1, !Nat.eqb_refl. exact I.
Qed.

Lemma cat1_total (x y : tensor2) : rows2 x = rows2 y -> is_ok (cat1 x y).
Proof. intros H. unfold cat1. rewrite H, Nat.eqb_refl. exact I. Qed.

Lemma cat2_total (x y : tensor3) :
  dim0 x = dim0 y -> dim1 x = dim1 y -> is_ok (cat2 x y).
Proof.
  intros H0 H1. unfold cat2. rewrite H0, H1, !Nat.eqb_refl. exact I.
Qed.

Lemma zip2_total (f : R -> R -> R) (x y : tensor2) :
  rows2 x = rows2 y -> cols2 x = cols2 y -> is_ok (zip2 f x y).
Proof.
  intros H0 H1. unfold zip2. rewrite H0, H1, !Nat.eqb_refl. exact I.
Qed.

Lemma range0_total (n : nat) : (0 < n)%nat -> is_ok (range0 n).
Proof.
  intros H. unfold range0. rewrite (proj2 (Nat.ltb_lt _ _) H). exact I.
Qed.

Lemma expand2_total (x : tensor2) (r c : nat) :
  rows2 x = r -> cols2 x = c -> is_ok (expand2 x r c).
Proof.
  intros <- <-. unfold expand2. rewrite !Nat.eqb_refl. exact I.
Qed.

(** Closes a goal on the sizes of tensors. *)
Ltac dims := simpl in *; first [reflexivity | congruence | lia].

Lemma GloballyAttentiveDecoder_forward_returns (values : init_values)
  (input_size : nat) (cfg : config) (m : rnn_mode) (a : list shape)
  (self : gmap string attr) (masks : nat -> mask) (input : list nat)
  (hidden : hidden_state) (last_context encoder_outputs : tensor3) :
  GloballyAttentiveDecoder.__init__ values input_size cfg = (a, Ok self) ->
  mode_of (model cfg) = Some m ->
  nlayers cfg = 1%nat ->
  Forall (fun t => (t < input_size)%nat) input ->
  hidden_for m hidden 1 (length input) (nhid cfg) ->
  shape3 last_context = (length input, 1%nat, nhid cfg) ->
  dim0 encoder_outputs = length input ->
  dim2 encoder_outputs = nhid cfg ->
  is_ok (GloballyAttentiveDecoder.forward self masks input hidden
           last_context encoder_outputs).
Proof.
  intros Hinit Hm Hl Hin Hh Hc E0 E2.
  rewrite GloballyAttentiveDecoder_init_spec in Hinit.
  apply make_rnn_Ok in Hinit as (m' & Hm' & ->).
  assert (m' = m) as -> by congruence.
  unfold shape3 in Hc. injection Hc as C0 C1 C2.
  unfold GloballyAttentiveDecoder.forward,
    GloballyAttentiveDecoder.forward_locals, getattr.
  simplify_map_eq.
  apply is_ok_bind; [|intros; exact I].
  apply is_ok_bind; [apply embed_total; exact Hin|].
  intros v Ev. apply embed_Ok in Ev as [_ ->].
  apply is_ok_bind; [apply cat2_total; simpl; congruence|].
  intros x Ex. apply cat2_Ok in Ex as (_ & _ & ->).
  apply is_ok_bind.
  { loop_total; simpl; [right; lia | congruence | rewrite Hl; exact Hh]. }
  intros [o h1] Eo. loop_shape Eo. destruct Eo as (D0 & D1 & Hpos & _).
  destruct (Hpos ltac:(lia)) as [D2 _]. clear Hpos. simpl in D0, D1, D2.
  apply is_ok_bind; [apply bmm_total; dims|].
  intros we Ewe. apply bmm_Ok in Ewe as (_ & _ & ->).
  apply is_ok_bind; [apply bmm_total; dims|].
  intros sc Esc. apply bmm_Ok in Esc as (_ & _ & ->).
  apply is_ok_bind; [apply bmm_total; dims|].
  intros cv Ecv. apply bmm_Ok in Ecv as (_ & _ & ->).
  apply is_ok_bind; [apply cat1_total; dims|].
  intros j Ej. apply cat1_Ok in Ej as (_ & ->).
  apply is_ok_bind; [apply linear_total; dims|].
  intros ac Eac. apply linear_Ok in Eac as (_ & ->).
  apply is_ok_bind; [apply linear_total; dims|].
  intros; exact I.
Qed.

Lemma scenario_global_init :
  GloballyAttentiveDecoder.__init__ example_values 5
    (example_config "GRU" 4 6 1)
  = ((GloballyAttentiveDecoder.__init__ example_values 5
        (example_config "GRU" 4 6 1)).1, Ok scenario_global).
Proof.
  apply built_Ok.
  rewrite GloballyAttentiveDecoder_init_spec, make_rnn_spec. exact I.
Qed.

Lemma scenario_global_returns :
  is_ok (GloballyAttentiveDecoder.forward scenario_global eval_masks
           [1; 3]%nat (HTensor (zeros3 1 2 6)) (zeros3 2 1 6)
           scenario_encoder_outputs).
Proof.
  eapply (GloballyAttentiveDecoder_forward_returns example_values 5
            (example_config "GRU" 4 6 1) GRU).
  - exact scenario_global_init.
  - reflexivity.
  - reflexivity.
  - repeat constructor; lia.
  - reflexivity.
  - reflexivity.
  - reflexivity.
  - reflexivity.
Qed.

Lemma global_attention_step_witness :
  exists lp h' ctx w,
    GloballyAttentiveDecoder.forward scenario_global eval_masks [1; 3]%nat
      (HTensor (zeros3 1 2 6)) (zeros3 2 1 6) scenario_encoder_outputs
    = Ok (lp, h', ctx, w)
    /\ shape2 w = (2, 3)%nat
    /\ shape3 ctx = (2, 1, 6)%nat.
Proof.
  pose proof scenario_global_returns as Hret.
  destruct (GloballyAttentiveDecoder.forward scenario_global eval_masks
              [1; 3]%nat (HTensor (zeros3 1 2 6)) (zeros3 2 1 6)
              scenario_encoder_outputs)
    as [[[[lp h'] ctx] w]|e] eqn:E; [|destruct Hret].
  exists lp, h', ctx, w. split; [reflexivity|].
  destruct (global_attention_step example_values 5
              (example_config "GRU" 4 6 1) _ scenario_global eval_masks
              [1; 3]%nat (HTensor (zeros3 1 2 6)) (zeros3 2 1 6)
              scenario_encoder_outputs lp h' ctx w scenario_global_init E)
    as (m & l & _ & _ & _ & _ & _ & _ & _ & _ & _ & _ & _ & Hw & _ & Hc & _).
  split; assumption.
Defined.

(** ** The local-attention decoder *)

(** A successful run of [forward], step by step. *)
Lemma LocallyAttentiveDecoder_locals_inv (self : gmap string attr)
  (masks : nat -> mask) (input : list nat) (hidden : hidden_state)
  (encoder_outputs : tensor3) (l : LocallyAttentiveDecoder.locals) :
  LocallyAttentiveDecoder.forward_locals self masks input hidden
    encoder_outputs = Ok l ->
  exists (e : Embedding) (cfg : config) (rnn : RNNModule)
         (weight weight_v weight_p : tensor2) (window_size : Z)
         (attn_combine out : Linear)
         (v : tensor2) (weighted projected pre_sigmoid : tensor3)
         (range : tensor1) (pt_expanded difference joined combined logits : tensor2)
         (aggregated : tensor3),
    getattr self "embedding" ≫= as_embedding = Ok e
    /\ getattr self "config" ≫= as_config = Ok cfg
    /\ getattr self "rnn" ≫= as_rnn = Ok rnn
    /\ getattr self "weight" ≫= as_parameter = Ok weight
    /\ getattr self "weight_v" ≫= as_parameter = Ok weight_v
    /\ getattr self "weight_p" ≫= as_parameter = Ok weight_p
    /\ getattr self "window_size" ≫= as_int = Ok window_size
    /\ getattr self "attn_combine" ≫= as_linear = Ok attn_combine
    /\ getattr self "out" ≫= as_linear = Ok out
    /\ embed e input = Ok v
    /\ rnn_loop rnn (fun x => x) (fun _ x => x) (nlayers cfg) 0
         (unsqueeze1 (drop2 (masks 0%nat) v)) hidden
       = Ok (LocallyAttentiveDecoder.output l,
             LocallyAttentiveDecoder.hidden' l)
    /\ bmm (expand_batch (dim0 encoder_outputs) weight)
           (transpose12 encoder_outputs) = Ok weighted
    /\ bmm (LocallyAttentiveDecoder.output l) weighted
       = Ok (LocallyAttentiveDecoder.score l)
    /\ LocallyAttentiveDecoder.softmax_weights l
       = softmax (squeeze1 (LocallyAttentiveDecoder.score l))
    /\ bmm (expand_batch (dim0 encoder_outputs) weight_p)
           (transpose12 (LocallyAttentiveDecoder.output l)) = Ok projected
    /\ bmm (expand_batch (dim0 encoder_outputs) weight_v)
           (map3 tanh projected) = Ok pre_sigmoid
    /\ LocallyAttentiveDecoder.pt l
       = map1 (fun x => x * INR (dim1 encoder_outputs))
              (squeeze1_2 (squeeze1 (map3 sigmoid pre_sigmoid)))
    /\ range0 (dim1 encoder_outputs) = Ok range
    /\ LocallyAttentiveDecoder.current_s l
       = expand_rows (dim0 encoder_outputs) range
    /\ expand2 (unsqueeze1_expand (LocallyAttentiveDecoder.pt l)
                  (dim1 encoder_outputs))
               (rows2 (LocallyAttentiveDecoder.current_s l))
               (cols2 (LocallyAttentiveDecoder.current_s l))
       = Ok pt_expanded
    /\ zip2 Rminus (LocallyAttentiveDecoder.current_s l) pt_expanded
       = Ok difference
    /\ LocallyAttentiveDecoder.nominator l = map2 (fun x => x ^ 2) difference
    /\ LocallyAttentiveDecoder.denominator l
       = -2 * (IZR window_size / 2) * (IZR window_size / 2)
    /\ LocallyAttentiveDecoder.emphasis l
       = map2 exp (map2 (fun x => x / LocallyAttentiveDecoder.denominator l)
                     (LocallyAttentiveDecoder.nominator l))
    /\ zip2 Rmult (LocallyAttentiveDecoder.softmax_weights l)
            (LocallyAttentiveDecoder.emphasis l)
       = Ok (LocallyAttentiveDecoder.attn_weights l)
    /\ bmm (unsqueeze1 (LocallyAttentiveDecoder.attn_weights l))
           encoder_outputs = Ok aggregated
    /\ LocallyAttentiveDecoder.context_vector l
       = map3 (fun x => x / INR (dim1 encoder_outputs)) aggregated
    /\ cat1 (squeeze1 (LocallyAttentiveDecoder.context_vector l))
            (squeeze1 (LocallyAttentiveDecoder.output l)) = Ok joined
    /\ linear attn_combine joined = Ok combined
    /\ linear out combined = Ok logits
    /\ LocallyAttentiveDecoder.log_probs l = log_softmax logits.
Proof.
  intros H. unfold LocallyAttentiveDecoder.forward_locals in H.
  inv_ok H. injection H as <-. simpl.
  repeat eexists; eassumption.
Qed.


(** C3: in a returning [forward] of the local-attention decoder, with
    [window_size] fixed at 3 by the constructor, the emphasis of position s
    in a batch row is exp(-(s - p_t)² / (2·(3/2)²)) for the predicted
    position p_t of that row; the attention weights are the softmax of the
    bilinear scores times the emphasis; and the context vector, from which
    the returned log-probabilities are computed, is the sum of the encoder
    outputs weighted by them, divided by the source length. *)
Theorem local_attention_emphasis (values : init_values) (input_size : nat)
  (cfg : config) (a : list shape) (self : gmap string attr)
  (masks : nat -> mask) (input : list nat) (hidden : hidden_state)
  (encoder_outputs : tensor3) (l : LocallyAttentiveDecoder.locals) :
  LocallyAttentiveDecoder.__init__ values input_size cfg = (a, Ok self) ->
  LocallyAttentiveDecoder.forward_locals self masks input hidden
    encoder_outputs = Ok l ->
  LocallyAttentiveDecoder.forward self masks input hidden encoder_outputs
  = Ok (LocallyAttentiveDecoder.log_probs l,
        LocallyAttentiveDecoder.hidden' l,
        LocallyAttentiveDecoder.attn_weights l)
  /\ self !! "window_size" = Some (AInt 3)
  /\ shape2 (LocallyAttentiveDecoder.emphasis l)
     = (length input, dim1 encoder_outputs)
  /\ (forall i s,
        at2 (LocallyAttentiveDecoder.emphasis l) i s
        = exp (- (INR s - at1 (LocallyAttentiveDecoder.pt l) i) ^ 2
               / (2 * (3 / 2) ^ 2)))
  /\ (forall i s,
        at2 (LocallyAttentiveDecoder.softmax_weights l) i s
        = exp (at3 (LocallyAttentiveDecoder.score l) i 0%nat s)
          / rsum (dim1 encoder_outputs) (fun s' =>
              exp (at3 (LocallyAttentiveDecoder.score l) i 0%nat s')))
  /\ (forall i s,
        at2 (LocallyAttentiveDecoder.attn_weights l) i s
        = at2 (LocallyAttentiveDecoder.softmax_weights l) i s
          * at2 (LocallyAttentiveDecoder.emphasis l) i s)
  /\ (forall i j k,
        at3 (LocallyAttentiveDecoder.context_vector l) i j k
        = rsum (dim1 encoder_outputs) (fun s =>
            at2 (LocallyAttentiveDecoder.attn_weights l) i s
            * at3 encoder_outputs i s k)
          / INR (dim1 encoder_outputs))
  /\ exists joined combined logits,
       cat1 (squeeze1 (LocallyAttentiveDecoder.context_vector l))
            (squeeze1 (LocallyAttentiveDecoder.output l)) = Ok joined
       /\ linear (nn_Linear (init_attn_combine values) (nhid cfg * 2)
                    (nhid cfg)).1 joined = Ok combined
       /\ linear (nn_Linear (init_out values) (nhid cfg) input_size).1 combined
          = Ok logits
       /\ LocallyAttentiveDecoder.log_probs l = log_softmax logits.
Proof.
  intros Hinit Hl. split.
  { unfold LocallyAttentiveDecoder.forward. rewrite Hl. reflexivity. }
  apply LocallyAttentiveDecoder_locals_inv in Hl
    as (e & cfg' & rnn & weight & weight_v & weight_p & window_size
        & attn_combine & out & v & weighted & projected & pre_sigmoid
        & range & pt_expanded & difference & joined & combined & logits
        & aggregated & He & Hcfg & Hrnn & Hweight & Hwv & Hwp & Hws & Hac
        & Hout & Hv & Hloop & Hwe & Hsc & Hsm & Hpr & Hps & Hpt & Hrange
        & Hcs & Hpe & Hdiff & Hnom & Hden & Hemph & Hattn & Hagg & Hctx
        & Hj & Hcomb & Hlogits & Hlp).
  rewrite LocallyAttentiveDecoder_init_spec in Hinit.
  apply make_rnn_Ok in Hinit as (m & Hm & ->).
  unfold getattr in He, Hcfg, Hrnn, Hweight, Hwv, Hwp, Hws, Hac, Hout.
  simplify_map_eq.
  split; [reflexivity|].
  apply embed_Ok in Hv as [_ ->].
  loop_shape Hloop. destruct Hloop as (D0 & _). simpl in D0.
  apply bmm_Ok in Hwe as (_ & _ & ->).
  apply bmm_Ok in Hsc as (B0 & _ & Hsc). simpl in B0.
  apply bmm_Ok in Hps as (_ & _ & Hps).
  apply range0_Ok in Hrange as [HS ->].
  assert (Hlen : len1 (LocallyAttentiveDecoder.pt l) = dim0 encoder_outputs).
  { rewrite Hpt, Hps. reflexivity. }
  rewrite Hcs in Hpe, Hdiff. simpl in Hpe.
  apply expand2_Ok in Hpe. simpl in Hpe.
  rewrite Hlen, !Nat.eqb_refl in Hpe. subst pt_expanded.
  apply zip2_Ok in Hdiff as (_ & _ & ->). simpl in Hnom.
  apply zip2_Ok in Hattn as (_ & Hcols & Hattn).
  apply bmm_Ok in Hagg as (_ & Hd & ->). simpl in Hd.
  assert (Hsc2 : dim2 (LocallyAttentiveDecoder.score l) = dim1 encoder_outputs).
  { rewrite Hsc. reflexivity. }
  repeat split.
  - rewrite Hemph, Hnom. unfold shape2. simpl. congruence.
  - intros i s. rewrite Hemph, Hnom, Hden. simpl. f_equal. field.
  - intros i s. rewrite Hsm. simpl. rewrite Hsc2. reflexivity.
  - intros i s. rewrite Hattn. reflexivity.
  - intros i j k. rewrite Hctx. simpl. rewrite Hd. reflexivity.
  - exists joined, combined, logits. repeat split; assumption.
Qed.

Lemma LocallyAttentiveDecoder_forward_returns (values : init_values)
  (input_size : nat) (cfg : config) (m : rnn_mode) (a : list shape)
  (self : gmap string attr) (masks : nat -> mask) (input : list nat)
  (hidden : hidden_state) (encoder_outputs : tensor3) :
  LocallyAttentiveDecoder.__init__ values input_size cfg = (a, Ok self) ->
  mode_of (model cfg) = Some m ->
  nlayers cfg = 1%nat ->
  Forall (fun t => (t < input_size)%nat) input ->
  hidden_for m hidden 1 (length input) (nhid cfg) ->
  dim0 encoder_outputs = length input ->
  (0 < dim1 encoder_outputs)%nat ->
  dim2 encoder_outputs = nhid cfg ->
  is_ok (LocallyAttentiveDecoder.forward_locals self masks input hidden
           encoder_outputs).
Proof.
  intros Hinit Hm Hl Hin Hh E0 E1 E2.
  rewrite LocallyAttentiveDecoder_init_spec in Hinit.
  apply make_rnn_Ok in Hinit as (m' & Hm' & ->).
  assert (m' = m) as -> by congruence.
  unfold LocallyAttentiveDecoder.forward_locals, getattr.
  simplify_map_eq.
  apply is_ok_bind; [apply embed_total; exact Hin|].
  intros v Ev. apply embed_Ok in Ev as [_ ->].
  apply is_ok_bind.
  { loop_total; simpl; [right; lia | reflexivity | rewrite Hl; exact Hh]. }
  intros [o h1] Eo. loop_shape Eo. destruct Eo as (D0 & D1 & Hpos & _).
  destruct (Hpos ltac:(lia)) as [D2 _]. clear Hpos. simpl in D0, D1, D2.
  apply is_ok_bind; [apply bmm_total; dims|].
  intros we Ewe. apply bmm_Ok in Ewe as (_ & _ & ->).
  apply is_ok_bind; [apply bmm_total; dims|].
  intros sc Esc. apply bmm_Ok in Esc as (_ & _ & ->).
  apply is_ok_bind; [apply bmm_total; dims|].
  intros pr Epr. apply bmm_Ok in Epr as (_ & _ & ->).
  apply is_ok_bind; [apply bmm_total; dims|].
  intros ps Eps. apply bmm_Ok in Eps as (_ & _ & ->).
  apply is_ok_bind; [apply range0_total; exact E1|].
  intros rg Erg. apply range0_Ok in Erg as (_ & ->).
  apply is_ok_bind; [apply expand2_total; dims|].
  intros pe Epe. apply expand2_Ok in Epe as ->.
  apply is_ok_bind; [apply zip2_total; dims|].
  intros df Edf. apply zip2_Ok in Edf as (_ & _ & ->).
  apply is_ok_bind; [apply zip2_total; dims|].
  intros aw Eaw. apply zip2_Ok in Eaw as (_ & _ & ->).
  apply is_ok_bind; [apply bmm_total; dims|].
  intros ag Eag. apply bmm_Ok in Eag as (_ & _ & ->).
  apply is_ok_bind; [apply cat1_total; dims|].
  intros j Ej. apply cat1_Ok in Ej as (_ & ->).
  apply is_ok_bind; [apply linear_total; dims|].
  intros ac Eac. apply linear_Ok in Eac as (_ & ->).
  apply is_ok_bind; [apply linear_total; dims|].
  intros; exact I.
Qed.

Lemma scenario_local_init :
  LocallyAttentiveDecoder.__init__ example_values 5
    (example_config "GRU" 4 6 1)
  = ((LocallyAttentiveDecoder.__init__ example_values 5
        (example_config "GRU" 4 6 1)).1, Ok scenario_local).
Proof.
  apply built_Ok.
  rewrite LocallyAttentiveDecoder_init_spec, make_rnn_spec. exact I.
Qed.

Lemma scenario_local_returns :
  is_ok (LocallyAttentiveDecoder.forward_locals scenario_local eval_masks
           [1; 3]%nat (HTensor (zeros3 1 2 6)) scenario_encoder_outputs).
Proof.
  eapply (LocallyAttentiveDecoder_forward_returns example_values 5
            (example_config "GRU" 4 6 1) GRU).
  - exact scenario_local_init.
  - reflexivity.
  - reflexivity.
  - repeat constructor; lia.
  - reflexivity.
  - reflexivity.
  - simpl; lia.
  - reflexivity.
Qed.


Lemma local_attention_emphasis_witness :
  exists l,
    LocallyAttentiveDecoder.forward_locals scenario_local eval_masks
      [1; 3]%nat (HTensor (zeros3 1 2 6)) scenario_encoder_outputs = Ok l
    /\ forall i s,
         at2 (LocallyAttentiveDecoder.emphasis l) i s
         = exp (- (INR s - at1 (LocallyAttentiveDecoder.pt l) i) ^ 2
                / (2 * (3 / 2) ^ 2)).
Proof.
  pose proof scenario_local_returns as Hret.
  destruct (LocallyAttentiveDecoder.forward_locals scenario_local eval_masks
              [1; 3]%nat (HTensor (zeros3 1 2 6)) scenario_encoder_outputs)
    as [l|e] eqn:E; [|destruct Hret].
  exists l. split; [reflexivity|].
  destruct (local_attention_emphasis example_values 5
              (example_config "GRU" 4 6 1) _ scenario_local eval_masks
              [1; 3]%nat (HTensor (zeros3 1 2 6)) scenario_encoder_outputs l
              scenario_local_init E) as (_ & _ & _ & Hemph & _).
  exact Hemph.
Defined.

(** ** Attention weights *)

Lemma softmax_distribution (x : tensor2) (n : nat) (i : nat) :
  cols2 x = n -> (0 < n)%nat ->
  (forall s, (s < n)%nat -> 0 <= at2 (softmax x) i s)
  /\ rsum n (at2 (softmax x) i) = 1
  /\ Rabs (rsum n (at2 (softmax x) i) - 1) <= 1 / 100000.
Proof.
  intros <- Hn. repeat split.
  - intros s Hs. apply softmax_nonneg. exact Hs.
  - apply softmax_row_sum. exact Hn.
  - apply within_tolerance, softmax_row_sum. exact Hn.
Qed.

(** C1: the attention weights returned by the naive-attention and the
    global-attention decoders have one row per batch row and one column
    per source position; every row is non-negative and sums to 1 (hence
    within 1e-5 of 1) as soon as there is a source position.  The weights
    returned by the local-attention decoder, taken after the multiplication
    by the emphasis, are non-negative. *)
Theorem attention_weights_distribution (self : gmap string attr)
  (masks : nat -> mask) (input : list nat) (hidden : hidden_state)
  (last_context encoder_outputs : tensor3) :
  (forall lp h' w,
     AttentionDecoder.forward self masks input hidden encoder_outputs
       = Ok (lp, h', w) ->
     (0 < dim1 encoder_outputs)%nat ->
     shape2 w = (length input, dim1 encoder_outputs)
     /\ forall i, (i < length input)%nat ->
          (forall s, (s < dim1 encoder_outputs)%nat -> 0 <= at2 w i s)
          /\ rsum (dim1 encoder_outputs) (at2 w i) = 1
          /\ Rabs (rsum (dim1 encoder_outputs) (at2 w i) - 1) <= 1 / 100000)
  /\ (forall lp h' ctx w,
        GloballyAttentiveDecoder.forward self masks input hidden last_context
          encoder_outputs = Ok (lp, h', ctx, w) ->
        (0 < dim1 encoder_outputs)%nat ->
        shape2 w = (length input, dim1 encoder_outputs)
        /\ forall i, (i < length input)%nat ->
             (forall s, (s < dim1 encoder_outputs)%nat -> 0 <= at2 w i s)
             /\ rsum (dim1 encoder_outputs) (at2 w i) = 1
             /\ Rabs (rsum (dim1 encoder_outputs) (at2 w i) - 1)
                <= 1 / 100000)
  /\ (forall lp h' w,
        LocallyAttentiveDecoder.forward self masks input hidden
          encoder_outputs = Ok (lp, h', w) ->
        shape2 w = (length input, dim1 encoder_outputs)
        /\ forall i s, (i < length input)%nat ->
             (s < dim1 encoder_outputs)%nat -> 0 <= at2 w i s).
Proof.
  repeat split.
  - (* naive attention *)
    unfold AttentionDecoder.forward in H. inv_ok H.
    injection H as <- <- <-.
    apply embed_Ok in E1 as [_ ->].
    apply cat1_Ok in E4 as (_ & ->).
    apply linear_Ok in E5 as (_ & ->).
    apply bmm_Ok in E6 as (_ & Hc & _). simpl in Hc.
    unfold shape2. simpl. congruence.
  - unfold AttentionDecoder.forward in H. inv_ok H.
    injection H as <- <- <-.
    apply bmm_Ok in E6 as (_ & Hc & _). simpl in Hc.
    eapply softmax_distribution; eassumption.
  - unfold AttentionDecoder.forward in H. inv_ok H.
    injection H as <- <- <-.
    apply bmm_Ok in E6 as (_ & Hc & _). simpl in Hc.
    eapply softmax_distribution; eassumption.
  - unfold AttentionDecoder.forward in H. inv_ok H.
    injection H as <- <- <-.
    apply bmm_Ok in E6 as (_ & Hc & _). simpl in Hc.
    eapply softmax_distribution; eassumption.
  - (* global attention *)
    unfold GloballyAttentiveDecoder.forward in H.
    apply bind_Ok in H as (l & Hl & H). injection H as <- <- <- <-.
    eapply GloballyAttentiveDecoder_weights_shape. exact Hl.
  - unfold GloballyAttentiveDecoder.forward in H.
    apply bind_Ok in H as (l & Hl & H). injection H as <- <- <- <-.
    pose proof (GloballyAttentiveDecoder_weights_shape _ _ _ _ _ _ _ Hl) as Hs.
    apply GloballyAttentiveDecoder_locals_inv in Hl
      as (e & cfg & rnn & weight & v & _ & _ & _ & _ & _ & _ & _ & _ & _ & _
          & Hw & _).
    rewrite Hw in Hs |- *. unfold shape2 in Hs. injection Hs as _ Hc.
    eapply softmax_distribution; eassumption.
  - unfold GloballyAttentiveDecoder.forward in H.
    apply bind_Ok in H as (l & Hl & H). injection H as <- <- <- <-.
    pose proof (GloballyAttentiveDecoder_weights_shape _ _ _ _ _ _ _ Hl) as Hs.
    apply GloballyAttentiveDecoder_locals_inv in Hl
      as (e & cfg & rnn & weight & v & _ & _ & _ & _ & _ & _ & _ & _ & _ & _
          & Hw & _).
    rewrite Hw in Hs |- *. unfold shape2 in Hs. injection Hs as _ Hc.
    eapply softmax_distribution; eassumption.
  - unfold GloballyAttentiveDecoder.forward in H.
    apply bind_Ok in H as (l & Hl & H). injection H as <- <- <- <-.
    pose proof (GloballyAttentiveDecoder_weights_shape _ _ _ _ _ _ _ Hl) as Hs.
    apply GloballyAttentiveDecoder_locals_inv in Hl
      as (e & cfg & rnn & weight & v & _ & _ & _ & _ & _ & _ & _ & _ & _ & _
          & Hw & _).
    rewrite Hw in Hs |- *. unfold shape2 in Hs. injection Hs as _ Hc.
    eapply softmax_distribution; eassumption.
  - (* local attention *)
    unfold LocallyAttentiveDecoder.forward in H.
    apply bind_Ok in H as (l & Hl & H). injection H as <- <- <-.
    apply LocallyAttentiveDecoder_locals_inv in Hl
      as (e & cfg' & rnn & weight & weight_v & weight_p & window_size
          & attn_combine & out & v & weighted & projected & pre_sigmoid
          & range & pt_expanded & difference & joined & combined & logits
          & aggregated & _ & _ & _ & _ & _ & _ & _ & _ & _ & Hv & Hloop
          & Hwe & Hsc & Hsm & _ & _ & _ & _ & _ & _ & _ & _ & _ & _ & Hattn
          & _).
    apply embed_Ok in Hv as [_ ->].
    loop_shape Hloop. destruct Hloop as (D0 & _). simpl in D0.
    apply bmm_Ok in Hwe as (_ & _ & ->).
    apply bmm_Ok in Hsc as (_ & _ & Hsc).
    apply zip2_Ok in Hattn as (_ & _ & ->).
    rewrite Hsm, Hsc. unfold shape2. simpl. congruence.
  - intros i s Hi Hs.
    unfold LocallyAttentiveDecoder.forward in H.
    apply bind_Ok in H as (l & Hl & H). injection H as <- <- <-.
    apply LocallyAttentiveDecoder_locals_inv in Hl
      as (e & cfg' & rnn & weight & weight_v & weight_p & window_size
          & attn_combine & out & v & weighted & projected & pre_sigmoid
          & range & pt_expanded & difference & joined & combined & logits
          & aggregated & _ & _ & _ & _ & _ & _ & _ & _ & _ & _ & _
          & Hwe & Hsc & Hsm & _ & _ & _ & _ & _ & _ & _ & _ & _ & Hemph
          & Hattn & _).
    apply bmm_Ok in Hwe as (_ & _ & ->).
    apply bmm_Ok in Hsc as (_ & _ & Hsc).
    apply zip2_Ok in Hattn as (_ & _ & ->). simpl.
    apply Rmult_le_pos.
    + rewrite Hsm. apply softmax_nonneg. rewrite Hsc. exact Hs.
    + rewrite Hemph. simpl. apply Rlt_le, exp_pos.
Qed.

Lemma attention_weights_distribution_witness :
  exists lp h' ctx w,
    GloballyAttentiveDecoder.forward scenario_global eval_masks [1; 3]%nat
      (HTensor (zeros3 1 2 6)) (zeros3 2 1 6) scenario_encoder_outputs
    = Ok (lp, h', ctx, w)
    /\ shape2 w = (2, 3)%nat
    /\ forall i, (i < 2)%nat ->
         (forall s, (s < 3)%nat -> 0 <= at2 w i s)
         /\ rsum 3 (at2 w i) = 1
         /\ Rabs (rsum 3 (at2 w i) - 1) <= 1 / 100000.
Proof.
  pose proof scenario_global_returns as Hret.
  destruct (GloballyAttentiveDecoder.forward scenario_global eval_masks
              [1; 3]%nat (HTensor (zeros3 1 2 6)) (zeros3 2 1 6)
              scenario_encoder_outputs)
    as [[[[lp h'] ctx] w]|e] eqn:E; [|destruct Hret].
  exists lp, h', ctx, w. split; [reflexivity|].
  destruct (attention_weights_distribution scenario_global eval_masks
              [1; 3]%nat (HTensor (zeros3 1 2 6)) (zeros3 2 1 6)
              scenario_encoder_outputs) as (_ & Hglobal & _).
  apply (Hglobal lp h' ctx w E). simpl. lia.
Defined.

(** ** Rectified input of the recurrent module *)

Lemma relu_idempotent (x : R) : relu (relu x) = relu x.
Proof.
  unfold relu, Rmax.
  destruct (Rle_dec 0 x) as [Hx|Hx].
  - destruct (Rle_dec 0 x); [reflexivity | contradiction].
  - destruct (Rle_dec 0 0) as [H0|H0]; [reflexivity | lra].
Qed.

Lemma map3_relu_idempotent (x : tensor3) :
  map3 relu (map3 relu x) = map3 relu x.
Proof.
  unfold map3. simpl. f_equal.
  apply functional_extensionality. intros i.
  apply functional_extensionality. intros j.
  apply functional_extensionality. intros k.
  apply relu_idempotent.
Qed.

Lemma rnn_call_relu_input (r : RNNModule) (x : tensor3) (h : hidden_state) :
  rnn_call (relu_input r) (map3 relu x) h = rnn_call r (map3 relu x) h.
Proof.
  unfold rnn_call. simpl. rewrite map3_relu_idempotent. reflexivity.
Qed.

Lemma rnn_loop_relu_input (r : RNNModule) (post : nat -> tensor3 -> tensor3)
  (n i : nat) (x : tensor3) (h : hidden_state) :
  rnn_loop (relu_input r) (map3 relu) post n i x h
  = rnn_loop r (map3 relu) post n i x h.
Proof.
  revert i x h. induction n as [|n IH]; intros i x h; simpl; [reflexivity|].
  rewrite rnn_call_relu_input.
  destruct (rnn_call r (map3 relu x) h) as [[o h1]|e]; simpl;
    [apply IH | reflexivity].
Qed.

Lemma bind_ext {A B : Type} (m : result A) (k1 k2 : A -> result B) :
  (forall a, k1 a = k2 a) -> m ≫= k1 = m ≫= k2.
Proof. intros H. destruct m as [a|e]; simpl; [apply H | reflexivity]. Qed.

Lemma getattr_insert_ne (self : gmap string attr) (k name : string) (a : attr) :
  k <> name -> getattr (<[k := a]> self) name = getattr self name.
Proof. intros H. unfold getattr. rewrite lookup_insert_ne by exact H. reflexivity. Qed.

Lemma AttentionDecoder_forward_relu_input (self : gmap string attr)
  (masks : nat -> mask) (input : list nat) (hidden : hidden_state)
  (encoder_outputs : tensor3) :
  AttentionDecoder.forward (with_relu_input self) masks input hidden
    encoder_outputs
  = AttentionDecoder.forward self masks input hidden encoder_outputs.
Proof.
  unfold with_relu_input.
  destruct (self !! "rnn") as [[| | | |r| | |]|] eqn:Hr; try reflexivity.
  unfold AttentionDecoder.forward.
  rewrite (getattr_insert_ne self "rnn" "drop"),
    (getattr_insert_ne self "rnn" "embedding"),
    (getattr_insert_ne self "rnn" "attn"),
    (getattr_insert_ne self "rnn" "attn_combine"),
    (getattr_insert_ne self "rnn" "config"),
    (getattr_insert_ne self "rnn" "out") by discriminate.
  do 12 (apply bind_ext; intros ?).
  unfold getattr. rewrite lookup_insert_eq, Hr. simpl.
  rewrite rnn_loop_relu_input. reflexivity.
Qed.

Lemma Decoder_forward_keeps_sign :
  Decoder.forward (with_relu_input tiny_decoder) eval_masks [1%nat] tiny_hidden
  <> Decoder.forward tiny_decoder eval_masks [1%nat] tiny_hidden.
Proof.
  unfold tiny_decoder, built, tiny_config.
  rewrite Decoder_init_spec, make_rnn_spec. simpl.
  unfold with_relu_input. simplify_map_eq.
  unfold Decoder.forward, getattr. simplify_map_eq. simpl.
  intros H.
  apply (f_equal (fun r => match r with
                           | Ok (_, h) => first_hidden_entry h
                           | Raise _ => 0
                           end)) in H.
  simpl in H. unfold relu, Rmax, neg_identity, eval_masks in H. simpl in H.
  repeat destruct (Rle_dec _ _) in H; lra.
Qed.

Lemma GloballyAttentiveDecoder_forward_keeps_sign :
  GloballyAttentiveDecoder.forward (with_relu_input tiny_global) eval_masks
    [1%nat] tiny_hidden (zeros3 1 1 1) tiny_encoder_outputs
  <> GloballyAttentiveDecoder.forward tiny_global eval_masks
       [1%nat] tiny_hidden (zeros3 1 1 1) tiny_encoder_outputs.
Proof.
  unfold tiny_global, built, tiny_config.
  rewrite GloballyAttentiveDecoder_init_spec, make_rnn_spec. simpl.
  unfold with_relu_input. simplify_map_eq.
  unfold GloballyAttentiveDecoder.forward,
    GloballyAttentiveDecoder.forward_locals, getattr.
  simplify_map_eq. simpl.
  intros H.
  apply (f_equal (fun r => match r with
                           | Ok (_, h, _, _) => first_hidden_entry h
                           | Raise _ => 0
                           end)) in H.
  simpl in H. unfold relu, Rmax, neg_identity, eval_masks in H. simpl in H.
  repeat destruct (Rle_dec _ _) in H; lra.
Qed.

Lemma LocallyAttentiveDecoder_forward_keeps_sign :
  LocallyAttentiveDecoder.forward (with_relu_input tiny_local) eval_masks
    [1%nat] tiny_hidden tiny_encoder_outputs
  <> LocallyAttentiveDecoder.forward tiny_local eval_masks
       [1%nat] tiny_hidden tiny_encoder_outputs.
Proof.
  unfold tiny_local, built, tiny_config.
  rewrite LocallyAttentiveDecoder_init_spec, make_rnn_spec. simpl.
  unfold with_relu_input. simplify_map_eq.
  unfold LocallyAttentiveDecoder.forward,
    LocallyAttentiveDecoder.forward_locals, getattr.
  simplify_map_eq. simpl.
  intros H.
  apply (f_equal (fun r => match r with
                           | Ok (_, h, _) => first_hidden_entry h
                           | Raise _ => 0
                           end)) in H.
  simpl in H. unfold relu, Rmax, neg_identity, eval_masks in H. simpl in H.
  repeat destruct (Rle_dec _ _) in H; lra.
Qed.

Lemma AttentionDecoder_forward_rectifies :
  exists lp h' w,
    AttentionDecoder.forward tiny_attention eval_masks [1%nat] tiny_pair
      tiny_encoder_outputs = Ok (lp, h', w)
    /\ first_hidden_entry h' = 0.
Proof.
  unfold tiny_attention, built.
  rewrite AttentionDecoder_init_spec, make_rnn_spec. simpl.
  unfold AttentionDecoder.forward, getattr. simplify_map_eq. simpl.
  do 3 eexists. split; [reflexivity|]. simpl.
  unfold relu, Rmax, neg_identity, eval_masks. simpl.
  repeat destruct (Rle_dec _ _); lra.
Qed.

(** C6, as stated, fails: the local-attention decoder passes the output to
    the recurrent module as it is.  On the instance of width 1 the
    embedding of the token is negative, and replacing the module by one
    that rectifies its input changes what [forward] returns. *)
Lemma local_attention_does_not_rectify :
  LocallyAttentiveDecoder.forward (with_relu_input tiny_local) eval_masks
    [1%nat] tiny_hidden tiny_encoder_outputs
  <> LocallyAttentiveDecoder.forward tiny_local eval_masks
       [1%nat] tiny_hidden tiny_encoder_outputs.
Proof. exact LocallyAttentiveDecoder_forward_keeps_sign. Qed.

(** C6, amended: the naive-attention decoder ([AttentionDecoder]) applies
    a rectified-linear activation to the input of every call of the
    recurrent module, so its [forward] is the same whether or not the
    module rectifies its input again, and on the instance of width 1 the
    negative input reaches the module as 0; it is the only one of the four
    decoders that does so: for each of the other three an instance is
    given on which a module that rectifies its input changes the result. *)
Theorem naive_attention_rectifies_recurrent_input :
  (forall self masks input hidden encoder_outputs,
     AttentionDecoder.forward (with_relu_input self) masks input hidden
       encoder_outputs
     = AttentionDecoder.forward self masks input hidden encoder_outputs)
  /\ (exists lp h' w,
        AttentionDecoder.forward tiny_attention eval_masks [1%nat] tiny_pair
          tiny_encoder_outputs = Ok (lp, h', w)
        /\ first_hidden_entry h' = 0)
  /\ Decoder.forward (with_relu_input tiny_decoder) eval_masks [1%nat]
       tiny_hidden
     <> Decoder.forward tiny_decoder eval_masks [1%nat] tiny_hidden
  /\ GloballyAttentiveDecoder.forward (with_relu_input tiny_global) eval_masks
       [1%nat] tiny_hidden (zeros3 1 1 1) tiny_encoder_outputs
     <> GloballyAttentiveDecoder.forward tiny_global eval_masks
          [1%nat] tiny_hidden (zeros3 1 1 1) tiny_encoder_outputs
  /\ LocallyAttentiveDecoder.forward (with_relu_input tiny_local) eval_masks
       [1%nat] tiny_hidden tiny_encoder_outputs
     <> LocallyAttentiveDecoder.forward tiny_local eval_masks
          [1%nat] tiny_hidden tiny_encoder_outputs.
Proof.
  split; [exact AttentionDecoder_forward_relu_input|].
  split; [exact AttentionDecoder_forward_rectifies|].
  split; [exact Decoder_forward_keeps_sign|].
  split; [exact GloballyAttentiveDecoder_forward_keeps_sign|].
  exact LocallyAttentiveDecoder_forward_keeps_sign.
Qed.

(** ** Initialisation of the embedding *)

Lemma initialize_out_of_vocab_words_spec (d : nat) (g : rng) :
  length (helper.initialize_out_of_vocab_words d g).1 = d
  /\ deviates (helper.initialize_out_of_vocab_words d g).2 = deviates g
  /\ (helper.initialize_out_of_vocab_words d g).1
     = (np_random_normal 0 1 d g).1.
Proof.
  unfold helper.initialize_out_of_vocab_words, np_random_normal. simpl.
  rewrite length_map, length_seq. auto.
Qed.

Lemma assign_row_same (d : nat) (v : list R) :
  length v = d -> assign_row d v = Ok v.
Proof. intros H. unfold assign_row. rewrite H, Nat.eqb_refl. reflexivity. Qed.

Section Fill.

Variable embeddings_index : gmap string (list R).
Variable d : nat.
Hypothesis table_width :
  forall w v, embeddings_index !! w = Some v -> length v = d.

Lemma fill_rows_spec (words : list string) (g : rng) :
  exists rows g',
    fill_rows words embeddings_index d g = Ok (rows, g')
    /\ deviates g' = deviates g
    /\ length rows = length words
    /\ Forall (fun r => length r = d) rows
    /\ forall i w, words !! i = Some w ->
         exists row, rows !! i = Some row
                     /\ row_filled embeddings_index d g w row.
Proof.
  revert g. induction words as [|w rest IH]; intros g.
  - exists [], g. simpl. repeat split; auto. intros i w H. discriminate.
  - cbn [fill_rows]. destruct (embeddings_index !! w) as [v|] eqn:Hw.
    + rewrite (assign_row_same d v (table_width w v Hw)). simpl.
      destruct (IH g) as (rows & g' & -> & Hd & Hlen & Hall & Hrows).
      simpl. exists (v :: rows), g'. repeat split; auto.
      * simpl. congruence.
      * constructor; [exact (table_width w v Hw) | exact Hall].
      * intros [|i] w' Hi; simpl in Hi.
        -- injection Hi as <-. exists v. split; [reflexivity|].
           unfold row_filled. rewrite Hw. reflexivity.
        -- apply Hrows, Hi.
    + destruct (initialize_out_of_vocab_words_spec d g) as (Hl & Hdev & _).
      destruct (helper.initialize_out_of_vocab_words d g) as [v g1] eqn:Hv.
      simpl in Hl, Hdev.
      rewrite (assign_row_same d v Hl). simpl.
      destruct (IH g1) as (rows & g' & -> & Hd & Hlen & Hall & Hrows).
      simpl. exists (v :: rows), g'. repeat split; auto.
      * congruence.
      * simpl. congruence.
      * intros [|i] w' Hi; simpl in Hi.
        -- injection Hi as <-. exists v. split; [reflexivity|].
           unfold row_filled. rewrite Hw. exists g.
           split; [reflexivity|]. rewrite Hv. reflexivity.
        -- destruct (Hrows i w' Hi) as (row & Hrow & Hfilled).
           exists row. split; [exact Hrow|].
           unfold row_filled in *.
           destruct (embeddings_index !! w'); [exact Hfilled|].
           destruct Hfilled as (g0 & Hg0 & ->).
           exists g0. split; [congruence | reflexivity].
Qed.

End Fill.

Lemma map_nth_seq_id (v : list R) (d : nat) :
  length v = d -> List.map (fun k => nth k v 0) (seq 0 d) = v.
Proof.
  intros Hv. apply (nth_ext _ _ 0 0).
  - rewrite length_map, length_seq. auto.
  - intros n Hn. rewrite length_map, length_seq in Hn.
    rewrite nth_indep with (d' := (fun k => nth k v 0) 0%nat)
      by (rewrite length_map, length_seq; lia).
    rewrite (map_nth (fun k => nth k v 0)), seq_nth by lia. reflexivity.
Qed.

(** One run of the initialiser on an instance whose embedding has the shape
    of the table: it returns, keeps that shape, and leaves in every row
    what [row_filled] says. *)
Lemma init_embedding_weights_spec (self : gmap string attr)
  (dictionary : Dictionary) (embeddings_index : gmap string (list R))
  (d : nat) (g : rng) (e : Embedding) :
  (forall w v, embeddings_index !! w = Some v -> length v = d) ->
  self !! "embedding" = Some (AEmbedding e) ->
  num_embeddings e = length (idx2word dictionary) ->
  embedding_dim e = d ->
  exists self' g' e',
    init_embedding_weights self dictionary embeddings_index d g
      = Ok (self', g')
    /\ self' !! "embedding" = Some (AEmbedding e')
    /\ num_embeddings e' = length (idx2word dictionary)
    /\ embedding_dim e' = d
    /\ forall i w, idx2word dictionary !! i = Some w ->
         exists row, embedding_row self' i = Ok row
                     /\ row_filled embeddings_index d g w row.
Proof.
  intros Hwf He Hn Hd.
  destruct (fill_rows_spec embeddings_index d Hwf (idx2word dictionary) g)
    as (rows & g' & Hfill & _ & Hlen & Hall & Hrows).
  unfold init_embedding_weights. rewrite Hfill. simpl.
  unfold getattr. rewrite He. simpl.
  unfold copy_from_numpy. rewrite Hn, Hd, !Nat.eqb_refl. simpl.
  eexists _, g', _. split; [reflexivity|].
  split; [apply lookup_insert_eq|].
  split; [reflexivity|]. split; [reflexivity|].
  intros i w Hi. destruct (Hrows i w Hi) as (row & Hrow & Hfilled).
  exists row. split; [|exact Hfilled].
  unfold embedding_row, getattr. rewrite lookup_insert_eq. simpl.
  assert (Hlt : (i < length (idx2word dictionary))%nat)
    by (apply lookup_lt_is_Some; eauto).
  rewrite (proj2 (Nat.ltb_lt _ _) Hlt). simpl. f_equal.
  rewrite nth_lookup, Hrow. simpl.
  apply map_nth_seq_id.
  rewrite List.Forall_forall in Hall. apply Hall.
  apply list_elem_of_In. eapply list_elem_of_lookup_2. exact Hrow.
Qed.



(** * Further properties of the decoders *)

(** ** When a step returns *)

Lemma rnn_loop_Ok_inv (rnn : RNNModule) (pre : tensor3 -> tensor3)
  (post : nat -> tensor3 -> tensor3)
  (pre_shape : forall x, shape3 (pre x) = shape3 x)
  (post_shape : forall i x, shape3 (post i x) = shape3 x)
  (n i : nat) (x o : tensor3) (h h' : hidden_state) :
  rnn_loop rnn pre post n i x h = Ok (o, h') ->
  (1 <= n)%nat ->
  dim2 x = input_size rnn
  /\ hidden_for (mode rnn) h (num_layers rnn) (dim0 x) (hidden_size rnn)
  /\ ((2 <= n)%nat -> input_size rnn = hidden_size rnn).
Proof.
  intros H Hn.
  destruct (shape3_dims _ _ (pre_shape x)) as (P0 & _ & P2).
  repeat split.
  - destruct n as [|n]; [lia|]. simpl in H.
    apply bind_Ok in H as ([o1 h1] & Hc & _).
    apply rnn_call_Ok in Hc as (Hd & _). congruence.
  - destruct n as [|n]; [lia|]. simpl in H.
    apply bind_Ok in H as ([o1 h1] & Hc & _).
    apply rnn_call_Ok in Hc as (_ & _ & Hh & _). rewrite P0 in Hh. exact Hh.
  - intros H2. destruct (Nat.eq_dec (input_size rnn) (hidden_size rnn))
      as [Heq|Hne]; [exact Heq|].
    pose proof (rnn_loop_raises rnn pre post pre_shape post_shape n i x h
                  H2 Hne) as Hr.
    rewrite H in Hr. destruct Hr.
Qed.

Ltac loop_inv H :=
  match type of H with
  | rnn_loop ?r ?pre ?post _ _ _ _ = Ok _ =>
      apply (rnn_loop_Ok_inv r pre post (fun _ => eq_refl)
               (fun _ _ => eq_refl)) in H
  end.

Lemma is_ok_Ok {A : Type} (m : result A) : is_ok m -> exists a, m = Ok a.
Proof. destruct m as [a|e]; simpl; [eauto | tauto]. Qed.

Lemma Decoder_forward_domain (values : init_values) (vocab : nat)
  (cfg : config) (m : rnn_mode) (a : list shape) (self : gmap string attr)
  (masks : nat -> mask) (input : list nat) (hidden : hidden_state) :
  Decoder.__init__ values vocab cfg = (a, Ok self) ->
  mode_of (model cfg) = Some m ->
  (1 <= nlayers cfg)%nat ->
  is_ok (Decoder.forward self masks input hidden)
  <-> Forall (fun t => (t < vocab)%nat) input
      /\ (nlayers cfg = 1%nat \/ emsize cfg = nhid cfg)
      /\ hidden_for m hidden (nlayers cfg) (length input) (nhid cfg).
Proof.
  intros Hinit Hm Hl. rewrite Decoder_init_spec in Hinit.
  apply make_rnn_Ok in Hinit as (m' & Hm' & ->).
  assert (m' = m) as -> by congruence. clear Hm'.
  split.
  - intros Hok. apply is_ok_Ok in Hok as ([lp h'] & H).
    unfold Decoder.forward in H. run_forward H.
    apply embed_Ok in E as [Hin ->]. simpl in Hin.
    loop_inv E0; [|exact Hl]. destruct E0 as (Hw & Hh & H2). simpl in *.
    repeat split; try assumption.
    destruct (nlayers cfg) as [|[|n]]; [lia | left; reflexivity|].
    right. apply H2. lia.
  - intros (Hin & Hw & Hh).
    unfold Decoder.forward, getattr. simplify_map_eq.
    apply is_ok_bind; [apply embed_total; exact Hin|].
    intros v Ev. apply embed_Ok in Ev as [_ ->].
    apply is_ok_bind.
    + loop_total; simpl; try reflexivity; try assumption.
      destruct Hw; [right; lia | left; assumption].
    + intros [o h1] El. apply is_ok_bind; [|intros; exact I].
      apply linear_total. simpl.
      loop_shape El. destruct El as (_ & _ & Hpos & _).
      destruct (Hpos ltac:(lia)) as [-> _]. reflexivity.
Qed.

(** X1: with at least one layer, [Decoder.forward] returns exactly when
    the token ids are in the vocabulary, the hidden state has the kind and
    the shape (nlayers, batch, nhid) of the configured module, and either
    there is a single layer or the embedding and hidden widths agree. *)
Theorem Decoder_forward_returns_iff (values : init_values) (vocab : nat)
  (cfg : config) (m : rnn_mode) (a : list shape) (self : gmap string attr)
  (masks : nat -> mask) (input : list nat) (hidden : hidden_state) :
  Decoder.__init__ values vocab cfg = (a, Ok self) ->
  mode_of (model cfg) = Some m ->
  (1 <= nlayers cfg)%nat ->
  is_ok (Decoder.forward self masks input hidden)
  <-> Forall (fun t => (t < vocab)%nat) input
      /\ (nlayers cfg = 1%nat \/ emsize cfg = nhid cfg)
      /\ hidden_for m hidden (nlayers cfg) (length input) (nhid cfg).
Proof.
  intros Hinit Hm Hl. split.
  - intros Hok. eapply Decoder_forward_domain; eassumption.
  - intros Hconditions. eapply Decoder_forward_domain; eassumption.
Qed.

Lemma scenario_decoder_init :
  Decoder.__init__ example_values 5 (example_config "GRU" 4 6 1)
  = ((Decoder.__init__ example_values 5 (example_config "GRU" 4 6 1)).1,
     Ok scenario_decoder).
Proof.
  apply built_Ok. rewrite Decoder_init_spec, make_rnn_spec. exact I.
Qed.

Lemma Decoder_forward_returns_iff_witness :
  is_ok (Decoder.forward scenario_decoder eval_masks [1; 3]%nat
           (HTensor (zeros3 1 2 6)))
  /\ ~ is_ok (Decoder.forward scenario_decoder eval_masks [1; 5]%nat
                (HTensor (zeros3 1 2 6))).
Proof.
  split.
  - apply (Decoder_forward_returns_iff example_values 5
             (example_config "GRU" 4 6 1) GRU _ scenario_decoder eval_masks
             [1; 3]%nat (HTensor (zeros3 1 2 6)) scenario_decoder_init
             eq_refl (le_n 1)).
    split; [repeat constructor; lia|]. split; [left|]; reflexivity.
  - intros Hok.
    apply (Decoder_forward_returns_iff example_values 5
             (example_config "GRU" 4 6 1) GRU _ scenario_decoder eval_masks
             [1; 5]%nat (HTensor (zeros3 1 2 6)) scenario_decoder_init
             eq_refl (le_n 1)) in Hok.
    destruct Hok as (Hin & _).
    apply List.Forall_inv_tail, List.Forall_inv in Hin. lia.
Defined.

Lemma GloballyAttentiveDecoder_forward_domain (values : init_values)
  (vocab : nat) (cfg : config) (m : rnn_mode) (a : list shape)
  (self : gmap string attr) (masks : nat -> mask) (input : list nat)
  (hidden : hidden_state) (last_context encoder_outputs : tensor3) :
  GloballyAttentiveDecoder.__init__ values vocab cfg = (a, Ok self) ->
  mode_of (model cfg) = Some m ->
  (1 <= nlayers cfg)%nat ->
  (0 < emsize cfg)%nat ->
  is_ok (GloballyAttentiveDecoder.forward self masks input hidden
           last_context encoder_outputs)
  <-> nlayers cfg = 1%nat
      /\ Forall (fun t => (t < vocab)%nat) input
      /\ hidden_for m hidden 1 (length input) (nhid cfg)
      /\ shape3 last_context = (length input, 1%nat, nhid cfg)
      /\ dim0 encoder_outputs = length input
      /\ dim2 encoder_outputs = nhid cfg.
Proof.
  intros Hinit Hm Hl He. split.
  - intros Hok. apply is_ok_Ok in Hok as ([[[lp h'] ctx] w] & H).
    unfold GloballyAttentiveDecoder.forward in H.
    apply bind_Ok in H as (l & Hlocals & _).
    apply GloballyAttentiveDecoder_locals_inv in Hlocals
      as (e & cfg' & rnn & weight & v & Hemb & Hcfg & Hrnn & Hweight & Hv
          & Hembedded & Hcat & Hloop & Hw & Hs & _ & Hctx).
    rewrite GloballyAttentiveDecoder_init_spec in Hinit.
    apply make_rnn_Ok in Hinit as (m' & Hm' & ->).
    assert (m' = m) as -> by congruence. clear Hm'.
    unfold getattr in Hemb, Hcfg, Hrnn, Hweight. simplify_map_eq.
    apply embed_Ok in Hv as [Hin ->]. simpl in Hin.
    apply cat2_Ok in Hcat as (C0 & C1 & Hri).
    rewrite Hembedded in C0, C1, Hri. simpl in C0, C1, Hri.
    pose proof Hloop as Hshape. loop_shape Hshape.
    destruct Hshape as (D0 & _). rewrite Hri in D0. simpl in D0.
    loop_inv Hloop; [|exact Hl]. destruct Hloop as (Hwd & Hh & H2).
    rewrite Hri in Hwd, Hh. simpl in Hwd, Hh.
    apply bmm_Ok in Hw as (_ & W1 & Hw). simpl in W1.
    apply bmm_Ok in Hs as (S0 & _ & _). rewrite Hw in S0. simpl in S0.
    assert (Hone : nlayers cfg' = 1%nat).
    { destruct (nlayers cfg') as [|[|n]]; [lia | reflexivity|].
      specialize (H2 ltac:(lia)). simpl in H2. lia. }
    rewrite Hone in Hh.
    repeat split; try assumption; try congruence.
    unfold shape3. f_equal; [f_equal|]; [congruence | congruence | lia].
  - intros (Hone & Hin & Hh & Hc & E0 & E2).
    eapply GloballyAttentiveDecoder_forward_returns; eassumption.
Qed.

(** X2: with at least one layer and a non-empty embedding, the
    global-attention [forward] returns exactly when there is a single
    layer, the token ids are in the vocabulary, the hidden state fits the
    module, [last_context] has shape (batch, 1, nhid) and the encoder
    outputs have shape (batch, source_length, nhid). *)
Theorem GloballyAttentiveDecoder_forward_returns_iff (values : init_values)
  (vocab : nat) (cfg : config) (m : rnn_mode) (a : list shape)
  (self : gmap string attr) (masks : nat -> mask) (input : list nat)
  (hidden : hidden_state) (last_context encoder_outputs : tensor3) :
  GloballyAttentiveDecoder.__init__ values vocab cfg = (a, Ok self) ->
  mode_of (model cfg) = Some m ->
  (1 <= nlayers cfg)%nat ->
  (0 < emsize cfg)%nat ->
  is_ok (GloballyAttentiveDecoder.forward self masks input hidden
           last_context encoder_outputs)
  <-> nlayers cfg = 1%nat
      /\ Forall (fun t => (t < vocab)%nat) input
      /\ hidden_for m hidden 1 (length input) (nhid cfg)
      /\ shape3 last_context = (length input, 1%nat, nhid cfg)
      /\ dim0 encoder_outputs = length input
      /\ dim2 encoder_outputs = nhid cfg.
Proof.
  intros Hinit Hm Hl He. split.
  - intros Hok. eapply GloballyAttentiveDecoder_forward_domain; eassumption.
  - intros Hconditions. eapply GloballyAttentiveDecoder_forward_domain; eassumption.
Qed.

Lemma GloballyAttentiveDecoder_forward_returns_iff_witness :
  is_ok (GloballyAttentiveDecoder.forward scenario_global eval_masks
           [1; 3]%nat (HTensor (zeros3 1 2 6)) (zeros3 2 1 6)
           scenario_encoder_outputs)
  /\ ~ is_ok (GloballyAttentiveDecoder.forward scenario_global eval_masks
                [1; 3]%nat (HTensor (zeros3 1 2 6)) (zeros3 2 1 4)
                scenario_encoder_outputs).
Proof.
  split.
  - apply (GloballyAttentiveDecoder_forward_returns_iff example_values 5
             (example_config "GRU" 4 6 1) GRU _ scenario_global eval_masks
             [1; 3]%nat (HTensor (zeros3 1 2 6)) (zeros3 2 1 6)
             scenario_encoder_outputs scenario_global_init eq_refl (le_n 1)).
    + simpl. lia.
    + repeat split. repeat constructor; lia.
  - intros Hok.
    apply (GloballyAttentiveDecoder_forward_returns_iff example_values 5
             (example_config "GRU" 4 6 1) GRU _ scenario_global eval_masks
             [1; 3]%nat (HTensor (zeros3 1 2 6)) (zeros3 2 1 4)
             scenario_encoder_outputs scenario_global_init eq_refl (le_n 1))
      in Hok; [|simpl; lia].
    destruct Hok as (_ & _ & _ & Hc & _). discriminate Hc.
Defined.

(** X3: what a returning step of the global-attention decoder hands back
    is accepted by the next step: the new hidden state and the new context
    vector, of shape (batch, 1, nhid), used as [hidden] and [last_context]
    with the same encoder outputs and any batch of in-vocabulary tokens of
    the same size, make [forward] return again. *)
Theorem GloballyAttentiveDecoder_steps_chain (values : init_values)
  (vocab : nat) (cfg : config) (a : list shape) (self : gmap string attr)
  (masks masks' : nat -> mask) (input input' : list nat)
  (hidden : hidden_state) (last_context encoder_outputs : tensor3)
  (lp : tensor2) (h' : hidden_state) (ctx : tensor3) (w : tensor2) :
  GloballyAttentiveDecoder.__init__ values vocab cfg = (a, Ok self) ->
  (1 <= nlayers cfg)%nat ->
  (0 < emsize cfg)%nat ->
  GloballyAttentiveDecoder.forward self masks input hidden last_context
    encoder_outputs = Ok (lp, h', ctx, w) ->
  length input' = length input ->
  Forall (fun t => (t < vocab)%nat) input' ->
  shape3 ctx = (length input, 1%nat, nhid cfg)
  /\ is_ok (GloballyAttentiveDecoder.forward self masks' input' h' ctx
              encoder_outputs).
Proof.
  intros Hinit Hl He H Hlen Hin'.
  pose proof Hinit as Hbuilt.
  rewrite GloballyAttentiveDecoder_init_spec in Hbuilt.
  apply make_rnn_Ok in Hbuilt as (m & Hm & Hself).
  assert (Hok : is_ok (GloballyAttentiveDecoder.forward self masks input
                         hidden last_context encoder_outputs))
    by (rewrite H; exact I).
  apply (GloballyAttentiveDecoder_forward_domain values vocab cfg m a
           self masks input hidden last_context encoder_outputs Hinit Hm Hl
           He) in Hok as (Hone & _ & _ & _ & E0 & E2).
  unfold GloballyAttentiveDecoder.forward in H.
  apply bind_Ok in H as (l & Hlocals & H). injection H as <- <- <- <-.
  pose proof (GloballyAttentiveDecoder_weights_shape _ _ _ _ _ _ _ Hlocals)
    as Hws.
  apply GloballyAttentiveDecoder_locals_inv in Hlocals
    as (e & cfg' & rnn & weight & v & Hemb & Hcfg & Hrnn & Hweight & Hv
        & Hembedded & Hcat & Hloop & _ & _ & _ & Hctx).
  subst self. unfold getattr in Hemb, Hcfg, Hrnn, Hweight. simplify_map_eq.
  apply embed_Ok in Hv as [_ ->].
  apply cat2_Ok in Hcat as (_ & _ & Hri). rewrite Hembedded in Hri.
  simpl in Hri.
  loop_shape Hloop. destruct Hloop as (_ & _ & Hpos & _).
  destruct (Hpos ltac:(lia)) as [_ Hh']. rewrite Hri in Hh'. simpl in Hh'.
  rewrite Hone in Hh'.
  apply bmm_Ok in Hctx as (_ & _ & Hctx).
  unfold shape2 in Hws. injection Hws as Hr _.
  assert (Hshape : shape3 (GloballyAttentiveDecoder.context_vector l)
                   = (length input, 1%nat, nhid cfg')).
  { rewrite Hctx. unfold shape3. simpl. congruence. }
  split; [exact Hshape|].
  eapply (GloballyAttentiveDecoder_forward_returns values vocab cfg' m).
  - rewrite GloballyAttentiveDecoder_init_spec, make_rnn_spec, Hm.
    reflexivity.
  - exact Hm.
  - exact Hone.
  - exact Hin'.
  - rewrite Hlen. exact Hh'.
  - rewrite Hlen. exact Hshape.
  - congruence.
  - exact E2.
Qed.

Lemma GloballyAttentiveDecoder_steps_chain_witness :
  exists lp h' ctx w,
    GloballyAttentiveDecoder.forward scenario_global eval_masks [1; 3]%nat
      (HTensor (zeros3 1 2 6)) (zeros3 2 1 6) scenario_encoder_outputs
    = Ok (lp, h', ctx, w)
    /\ shape3 ctx = (2, 1, 6)%nat
    /\ is_ok (GloballyAttentiveDecoder.forward scenario_global eval_masks
                [4; 0]%nat h' ctx scenario_encoder_outputs).
Proof.
  pose proof scenario_global_returns as Hret.
  destruct (GloballyAttentiveDecoder.forward scenario_global eval_masks
              [1; 3]%nat (HTensor (zeros3 1 2 6)) (zeros3 2 1 6)
              scenario_encoder_outputs)
    as [[[[lp h'] ctx] w]|e] eqn:E; [|destruct Hret].
  exists lp, h', ctx, w. split; [reflexivity|].
  apply (GloballyAttentiveDecoder_steps_chain example_values 5
           (example_config "GRU" 4 6 1) _ scenario_global eval_masks
           eval_masks [1; 3]%nat [4; 0]%nat (HTensor (zeros3 1 2 6))
           (zeros3 2 1 6) scenario_encoder_outputs lp h' ctx w
           scenario_global_init (le_n 1)).
  - simpl. lia.
  - exact E.
  - reflexivity.
  - repeat constructor; lia.
Defined.

Lemma LocallyAttentiveDecoder_forward_total (values : init_values)
  (vocab : nat) (cfg : config) (m : rnn_mode) (a : list shape)
  (self : gmap string attr) (masks : nat -> mask) (input : list nat)
  (hidden : hidden_state) (encoder_outputs : tensor3) :
  LocallyAttentiveDecoder.__init__ values vocab cfg = (a, Ok self) ->
  mode_of (model cfg) = Some m ->
  (1 <= nlayers cfg)%nat ->
  nlayers cfg = 1%nat \/ emsize cfg = nhid cfg ->
  Forall (fun t => (t < vocab)%nat) input ->
  hidden_for m hidden (nlayers cfg) (length input) (nhid cfg) ->
  dim0 encoder_outputs = length input ->
  (0 < dim1 encoder_outputs)%nat ->
  dim2 encoder_outputs = nhid cfg ->
  is_ok (LocallyAttentiveDecoder.forward self masks input hidden
           encoder_outputs).
Proof.
  intros Hinit Hm Hl Hw Hin Hh E0 E1 E2.
  rewrite LocallyAttentiveDecoder_init_spec in Hinit.
  apply make_rnn_Ok in Hinit as (m' & Hm' & ->).
  assert (m' = m) as -> by congruence.
  unfold LocallyAttentiveDecoder.forward,
    LocallyAttentiveDecoder.forward_locals, getattr.
  simplify_map_eq.
  apply is_ok_bind; [|intros; exact I].
  apply is_ok_bind; [apply embed_total; exact Hin|].
  intros v Ev. apply embed_Ok in Ev as [_ ->].
  apply is_ok_bind.
  { loop_total; simpl; [|reflexivity|exact Hh].
    destruct Hw; [right; lia | left; assumption]. }
  intros [o h1] Eo. loop_shape Eo. destruct Eo as (D0 & D1 & Hpos & _).
  destruct (Hpos ltac:(lia)) as [D2 _]. clear Hpos. simpl in D0, D1, D2.
  apply is_ok_bind; [apply bmm_total; dims|].
  intros we Ewe. apply bmm_Ok in Ewe as (_ & _ & ->).
  apply is_ok_bind; [apply bmm_total; dims|].
  intros sc Esc. apply bmm_Ok in Esc as (_ & _ & ->).
  apply is_ok_bind; [apply bmm_total; dims|].
  intros pr Epr. apply bmm_Ok in Epr as (_ & _ & ->).
  apply is_ok_bind; [apply bmm_total; dims|].
  intros ps Eps. apply bmm_Ok in Eps as (_ & _ & ->).
  apply is_ok_bind; [apply range0_total; exact E1|].
  intros rg Erg. apply range0_Ok in Erg as (_ & ->).
  apply is_ok_bind; [apply expand2_total; dims|].
  intros pe Epe. apply expand2_Ok in Epe as ->.
  apply is_ok_bind; [apply zip2_total; dims|].
  intros df Edf. apply zip2_Ok in Edf as (_ & _ & ->).
  apply is_ok_bind; [apply zip2_total; dims|].
  intros aw Eaw. apply zip2_Ok in Eaw as (_ & _ & ->).
  apply is_ok_bind; [apply bmm_total; dims|].
  intros ag Eag. apply bmm_Ok in Eag as (_ & _ & ->).
  apply is_ok_bind; [apply cat1_total; dims|].
  intros j Ej. apply cat1_Ok in Ej as (_ & ->).
  apply is_ok_bind; [apply linear_total; dims|].
  intros ac Eac. apply linear_Ok in Eac as (_ & ->).
  apply is_ok_bind; [apply linear_total; dims|].
  intros; exact I.
Qed.

Lemma LocallyAttentiveDecoder_forward_domain (values : init_values)
  (vocab : nat) (cfg : config) (m : rnn_mode) (a : list shape)
  (self : gmap string attr) (masks : nat -> mask) (input : list nat)
  (hidden : hidden_state) (encoder_outputs : tensor3) :
  LocallyAttentiveDecoder.__init__ values vocab cfg = (a, Ok self) ->
  mode_of (model cfg) = Some m ->
  (1 <= nlayers cfg)%nat ->
  is_ok (LocallyAttentiveDecoder.forward self masks input hidden
           encoder_outputs)
  <-> (nlayers cfg = 1%nat \/ emsize cfg = nhid cfg)
      /\ Forall (fun t => (t < vocab)%nat) input
      /\ hidden_for m hidden (nlayers cfg) (length input) (nhid cfg)
      /\ dim0 encoder_outputs = length input
      /\ (0 < dim1 encoder_outputs)%nat
      /\ dim2 encoder_outputs = nhid cfg.
Proof.
  intros Hinit Hm Hl. split.
  - intros Hok. apply is_ok_Ok in Hok as ([[lp h'] w] & H).
    unfold LocallyAttentiveDecoder.forward in H.
    apply bind_Ok in H as (l & Hlocals & _).
    apply LocallyAttentiveDecoder_locals_inv in Hlocals
      as (e & cfg' & rnn & weight & weight_v & weight_p & window_size
          & attn_combine & out & v & weighted & projected & pre_sigmoid
          & range & pt_expanded & difference & joined & combined & logits
          & aggregated & He & Hcfg & Hrnn & Hweight & Hwv & Hwp & Hws & Hac
          & Hout & Hv & Hloop & Hwe & Hsc & _ & _ & _ & _ & Hrange & _).
    rewrite LocallyAttentiveDecoder_init_spec in Hinit.
    apply make_rnn_Ok in Hinit as (m' & Hm' & ->).
    assert (m' = m) as -> by congruence. clear Hm'.
    unfold getattr in He, Hcfg, Hrnn, Hweight, Hwv, Hwp, Hws, Hac, Hout.
    simplify_map_eq.
    apply embed_Ok in Hv as [Hin ->]. simpl in Hin.
    pose proof Hloop as Hshape. loop_shape Hshape.
    destruct Hshape as (D0 & _). simpl in D0.
    loop_inv Hloop; [|exact Hl]. destruct Hloop as (_ & Hh & H2).
    simpl in Hh, H2.
    apply bmm_Ok in Hwe as (_ & W1 & Hwe). simpl in W1.
    apply bmm_Ok in Hsc as (S0 & _ & _). rewrite Hwe in S0. simpl in S0.
    apply range0_Ok in Hrange as [HS _].
    repeat split; try assumption; try congruence.
    destruct (nlayers cfg') as [|[|n]]; [lia | left; reflexivity|].
    right. apply H2. lia.
  - intros (Hw & Hin & Hh & E0 & E1 & E2).
    eapply LocallyAttentiveDecoder_forward_total; eassumption.
Qed.

(** X4: with at least one layer, the local-attention [forward] returns
    exactly when the token ids are in the vocabulary, the hidden state fits
    the module, there is a single layer or the embedding and hidden widths
    agree, and the encoder outputs have shape (batch, source_length, nhid)
    with at least one source position. *)
Theorem LocallyAttentiveDecoder_forward_returns_iff (values : init_values)
  (vocab : nat) (cfg : config) (m : rnn_mode) (a : list shape)
  (self : gmap string attr) (masks : nat -> mask) (input : list nat)
  (hidden : hidden_state) (encoder_outputs : tensor3) :
  LocallyAttentiveDecoder.__init__ values vocab cfg = (a, Ok self) ->
  mode_of (model cfg) = Some m ->
  (1 <= nlayers cfg)%nat ->
  is_ok (LocallyAttentiveDecoder.forward self masks input hidden
           encoder_outputs)
  <-> (nlayers cfg = 1%nat \/ emsize cfg = nhid cfg)
      /\ Forall (fun t => (t < vocab)%nat) input
      /\ hidden_for m hidden (nlayers cfg) (length input) (nhid cfg)
      /\ dim0 encoder_outputs = length input
      /\ (0 < dim1 encoder_outputs)%nat
      /\ dim2 encoder_outputs = nhid cfg.
Proof.
  intros Hinit Hm Hl. split.
  - intros Hok. eapply LocallyAttentiveDecoder_forward_domain; eassumption.
  - intros Hconditions. eapply LocallyAttentiveDecoder_forward_domain; eassumption.
Qed.

Lemma LocallyAttentiveDecoder_forward_returns_iff_witness :
  is_ok (LocallyAttentiveDecoder.forward scenario_local eval_masks
           [1; 3]%nat (HTensor (zeros3 1 2 6)) scenario_encoder_outputs)
  /\ ~ is_ok (LocallyAttentiveDecoder.forward scenario_local eval_masks
                [1; 3]%nat (HTensor (zeros3 1 2 6)) (zeros3 2 0 6)).
Proof.
  split.
  - apply (LocallyAttentiveDecoder_forward_returns_iff example_values 5
             (example_config "GRU" 4 6 1) GRU _ scenario_local eval_masks
             [1; 3]%nat (HTensor (zeros3 1 2 6)) scenario_encoder_outputs
             scenario_local_init eq_refl (le_n 1)).
    split; [left; reflexivity|]. split; [repeat constructor; lia|].
    repeat split. simpl. lia.
  - intros Hok.
    apply (LocallyAttentiveDecoder_forward_returns_iff example_values 5
             (example_config "GRU" 4 6 1) GRU _ scenario_local eval_masks
             [1; 3]%nat (HTensor (zeros3 1 2 6)) (zeros3 2 0 6)
             scenario_local_init eq_refl (le_n 1)) in Hok.
    destruct Hok as (_ & _ & _ & _ & Hpos & _). simpl in Hpos. lia.
Defined.

Lemma final_layer_Ok (hidden : hidden_state) (last : tensor2) :
  AttentionDecoder.final_layer hidden = Ok last ->
  exists h c, hidden = HTuple h c
              /\ (0 < dim0 h)%nat
              /\ last = T2 (dim1 h) (dim2 h) (at3 h (dim0 h - 1)).
Proof.
  destruct hidden as [t|h c]; simpl.
  - intros H. apply bind_Ok in H as (u & _ & H). discriminate.
  - intros H. apply bind_Ok in H as (u & Hg & H).
    apply guard_Ok, Nat.ltb_lt in Hg. injection H as <-.
    exists h, c. auto.
Qed.

Lemma AttentionDecoder_forward_domain (values : init_values)
  (vocab max_sent_length : nat) (cfg : config) (m : rnn_mode)
  (a : list shape) (self : gmap string attr) (masks : nat -> mask)
  (input : list nat) (hidden : hidden_state) (encoder_outputs : tensor3) :
  AttentionDecoder.__init__ values vocab max_sent_length cfg = (a, Ok self) ->
  mode_of (model cfg) = Some m ->
  (1 <= nlayers cfg)%nat ->
  is_ok (AttentionDecoder.forward self masks input hidden encoder_outputs)
  <-> m = LSTM
      /\ emsize cfg = nhid cfg
      /\ Forall (fun t => (t < vocab)%nat) input
      /\ hidden_for LSTM hidden (nlayers cfg) (length input) (nhid cfg)
      /\ shape3 encoder_outputs = (length input, max_sent_length, nhid cfg).
Proof.
  intros Hinit Hm Hl. rewrite AttentionDecoder_init_spec in Hinit.
  apply make_rnn_Ok in Hinit as (m' & Hm' & ->).
  assert (m' = m) as -> by congruence. clear Hm'.
  split.
  - intros Hok. apply is_ok_Ok in Hok as ([[lp h'] w] & H).
    unfold AttentionDecoder.forward in H. run_forward H.
    apply embed_Ok in E as [Hin ->]. simpl in Hin.
    apply final_layer_Ok in E0 as (hh & cc & -> & Hpos & ->).
    apply cat1_Ok in E1 as (R0 & ->). simpl in R0.
    apply linear_Ok in E2 as (L0 & ->). simpl in L0.
    apply bmm_Ok in E3 as (B0 & B1 & ->). simpl in B0, B1.
    apply cat1_Ok in E4 as (_ & ->).
    apply linear_Ok in E5 as (L1 & ->). simpl in L1.
    loop_inv E6; [|exact Hl]. destruct E6 as (Hw & Hh & _).
    simpl in Hw, Hh.
    destruct m; simpl in Hh; try contradiction.
    destruct Hh as [Hh Hc].
    pose proof Hh as Hh0. unfold shape3 in Hh0. injection Hh0 as H0 H1 H2.
    split; [reflexivity|]. split; [congruence|].
    split; [exact Hin|]. split; [split; assumption|].
    unfold shape3. f_equal; [f_equal|]; lia.
  - intros (-> & Hw & Hin & Hh & He).
    destruct hidden as [t|h c]; simpl in Hh; [contradiction|].
    destruct Hh as [Hh Hc].
    pose proof Hh as Hh0. unfold shape3 in Hh0. injection Hh0 as H0 H1 H2.
    unfold shape3 in He. injection He as E0 E1 E2.
    unfold AttentionDecoder.forward, getattr. simplify_map_eq.
    apply is_ok_bind; [apply embed_total; exact Hin|].
    intros v Ev. apply embed_Ok in Ev as [_ ->].
    replace (Nat.ltb 0 (dim0 h)) with true
      by (symmetry; apply Nat.ltb_lt; lia).
    simpl.
    apply is_ok_bind; [apply cat1_total; dims|].
    intros j Ej. apply cat1_Ok in Ej as (_ & ->).
    apply is_ok_bind; [apply linear_total; dims|].
    intros sc Esc. apply linear_Ok in Esc as (_ & ->).
    apply is_ok_bind; [apply bmm_total; dims|].
    intros ap Eap. apply bmm_Ok in Eap as (_ & _ & ->).
    apply is_ok_bind; [apply cat1_total; dims|].
    intros o Eo. apply cat1_Ok in Eo as (_ & ->).
    apply is_ok_bind; [apply linear_total; dims|].
    intros oc Eoc. apply linear_Ok in Eoc as (_ & ->).
    apply is_ok_bind.
    { loop_total; simpl; [left; exact Hw | congruence|].
      split; assumption. }
    intros [o h1] El. apply is_ok_bind; [|intros; exact I].
    apply linear_total. simpl.
    loop_shape El. destruct El as (_ & _ & Hpos & _).
    destruct (Hpos ltac:(lia)) as [-> _]. reflexivity.
Qed.

(** X5: with at least one layer, the naive-attention [forward] returns
    exactly when the module is an LSTM, the embedding and hidden widths
    agree, the token ids are in the vocabulary, the hidden state is a pair
    of tensors of shape (nlayers, batch, nhid), and the encoder outputs have
    shape (batch, max_sent_length, nhid): the source must have exactly the
    length fixed at construction. *)
Theorem AttentionDecoder_forward_returns_iff (values : init_values)
  (vocab max_sent_length : nat) (cfg : config) (m : rnn_mode)
  (a : list shape) (self : gmap string attr) (masks : nat -> mask)
  (input : list nat) (hidden : hidden_state) (encoder_outputs : tensor3) :
  AttentionDecoder.__init__ values vocab max_sent_length cfg = (a, Ok self) ->
  mode_of (model cfg) = Some m ->
  (1 <= nlayers cfg)%nat ->
  is_ok (AttentionDecoder.forward self masks input hidden encoder_outputs)
  <-> m = LSTM
      /\ emsize cfg = nhid cfg
      /\ Forall (fun t => (t < vocab)%nat) input
      /\ hidden_for LSTM hidden (nlayers cfg) (length input) (nhid cfg)
      /\ shape3 encoder_outputs = (length input, max_sent_length, nhid cfg).
Proof.
  intros Hinit Hm Hl. split.
  - intros Hok. eapply AttentionDecoder_forward_domain; eassumption.
  - intros Hconditions. eapply AttentionDecoder_forward_domain; eassumption.
Qed.

Lemma tiny_attention_init :
  AttentionDecoder.__init__ example_values 2 1 (example_config "LSTM" 1 1 1)
  = ((AttentionDecoder.__init__ example_values 2 1
        (example_config "LSTM" 1 1 1)).1, Ok tiny_attention).
Proof.
  apply built_Ok. rewrite AttentionDecoder_init_spec, make_rnn_spec. exact I.
Qed.

Lemma AttentionDecoder_forward_returns_iff_witness :
  is_ok (AttentionDecoder.forward tiny_attention eval_masks [1%nat] tiny_pair
           tiny_encoder_outputs)
  /\ ~ is_ok (AttentionDecoder.forward tiny_attention eval_masks [1%nat]
                tiny_pair (zeros3 1 2 1))
  /\ ~ is_ok (AttentionDecoder.forward tiny_attention eval_masks [1%nat]
                tiny_hidden tiny_encoder_outputs).
Proof.
  pose proof (fun hidden enc =>
    AttentionDecoder_forward_returns_iff example_values 2 1
      (example_config "LSTM" 1 1 1) LSTM _ tiny_attention eval_masks
      [1%nat] hidden enc tiny_attention_init eq_refl (le_n 1)) as Hiff.
  split; [|split].
  - apply (proj2 (Hiff tiny_pair tiny_encoder_outputs)).
    repeat split. repeat constructor; lia.
  - intros Hok. apply Hiff in Hok as (_ & _ & _ & _ & He). discriminate He.
  - intros Hok. apply Hiff in Hok as (_ & _ & _ & Hh & _). exact Hh.
Defined.

(** ** Chaining steps through the hidden state *)

Lemma Decoder_forward_hidden (values : init_values) (vocab : nat)
  (cfg : config) (m : rnn_mode) (a : list shape) (self : gmap string attr)
  (masks : nat -> mask) (input : list nat) (hidden : hidden_state)
  (lp : tensor2) (h' : hidden_state) :
  Decoder.__init__ values vocab cfg = (a, Ok self) ->
  mode_of (model cfg) = Some m ->
  (1 <= nlayers cfg)%nat ->
  Decoder.forward self masks input hidden = Ok (lp, h') ->
  hidden_for m h' (nlayers cfg) (length input) (nhid cfg).
Proof.
  intros Hinit Hm Hl H. rewrite Decoder_init_spec in Hinit.
  apply make_rnn_Ok in Hinit as (m' & Hm' & ->).
  assert (m' = m) as -> by congruence.
  unfold Decoder.forward in H. run_forward H. injection H as _ <-.
  apply embed_Ok in E as [_ ->].
  loop_shape E0. destruct E0 as (_ & _ & Hpos & _).
  destruct (Hpos ltac:(lia)) as [_ Hh]. exact Hh.
Qed.

Lemma AttentionDecoder_forward_hidden (values : init_values)
  (vocab max_sent_length : nat) (cfg : config) (m : rnn_mode)
  (a : list shape) (self : gmap string attr) (masks : nat -> mask)
  (input : list nat) (hidden : hidden_state) (encoder_outputs : tensor3)
  (lp : tensor2) (h' : hidden_state) (w : tensor2) :
  AttentionDecoder.__init__ values vocab max_sent_length cfg = (a, Ok self) ->
  mode_of (model cfg) = Some m ->
  (1 <= nlayers cfg)%nat ->
  AttentionDecoder.forward self masks input hidden encoder_outputs
    = Ok (lp, h', w) ->
  hidden_for m h' (nlayers cfg) (length input) (nhid cfg).
Proof.
  intros Hinit Hm Hl H. rewrite AttentionDecoder_init_spec in Hinit.
  apply make_rnn_Ok in Hinit as (m' & Hm' & ->).
  assert (m' = m) as -> by congruence.
  unfold AttentionDecoder.forward in H. run_forward H.
  injection H as _ <- _.
  apply embed_Ok in E as [_ ->].
  apply cat1_Ok in E4 as (_ & ->).
  apply linear_Ok in E5 as (_ & ->).
  loop_shape E6. destruct E6 as (_ & _ & Hpos & _).
  destruct (Hpos ltac:(lia)) as [_ Hh]. exact Hh.
Qed.

Lemma LocallyAttentiveDecoder_forward_hidden (values : init_values)
  (vocab : nat) (cfg : config) (m : rnn_mode) (a : list shape)
  (self : gmap string attr) (masks : nat -> mask) (input : list nat)
  (hidden : hidden_state) (encoder_outputs : tensor3)
  (lp : tensor2) (h' : hidden_state) (w : tensor2) :
  LocallyAttentiveDecoder.__init__ values vocab cfg = (a, Ok self) ->
  mode_of (model cfg) = Some m ->
  (1 <= nlayers cfg)%nat ->
  LocallyAttentiveDecoder.forward self masks input hidden encoder_outputs
    = Ok (lp, h', w) ->
  hidden_for m h' (nlayers cfg) (length input) (nhid cfg).
Proof.
  intros Hinit Hm Hl H.
  unfold LocallyAttentiveDecoder.forward in H.
  apply bind_Ok in H as (l & Hlocals & H). injection H as _ <- _.
  apply LocallyAttentiveDecoder_locals_inv in Hlocals
    as (e & cfg' & rnn & weight & weight_v & weight_p & window_size
        & attn_combine & out & v & weighted & projected & pre_sigmoid
        & range & pt_expanded & difference & joined & combined & logits
        & aggregated & He & Hcfg & Hrnn & _ & _ & _ & _ & _ & _ & Hv
        & Hloop & _).
  rewrite LocallyAttentiveDecoder_init_spec in Hinit.
  apply make_rnn_Ok in Hinit as (m' & Hm' & ->).
  assert (m' = m) as -> by congruence.
  unfold getattr in He, Hcfg, Hrnn. simplify_map_eq.
  apply embed_Ok in Hv as [_ ->].
  loop_shape Hloop. destruct Hloop as (_ & _ & Hpos & _).
  destruct (Hpos ltac:(lia)) as [_ Hh]. exact Hh.
Qed.

(** X6: in the no-attention, naive-attention and local-attention decoders
    the hidden state a returning step hands back is accepted by the next
    step: with it, the same encoder outputs and any batch of in-vocabulary
    tokens of the same size, [forward] returns again. *)
Theorem forward_steps_chain (values : init_values)
  (vocab max_sent_length : nat) (cfg : config) (a : list shape)
  (self : gmap string attr) (masks masks' : nat -> mask)
  (input input' : list nat) (hidden : hidden_state)
  (encoder_outputs : tensor3) :
  (1 <= nlayers cfg)%nat ->
  length input' = length input ->
  Forall (fun t => (t < vocab)%nat) input' ->
  (Decoder.__init__ values vocab cfg = (a, Ok self) ->
   forall lp h',
     Decoder.forward self masks input hidden = Ok (lp, h') ->
     is_ok (Decoder.forward self masks' input' h'))
  /\ (AttentionDecoder.__init__ values vocab max_sent_length cfg
        = (a, Ok self) ->
      forall lp h' w,
        AttentionDecoder.forward self masks input hidden encoder_outputs
          = Ok (lp, h', w) ->
        is_ok (AttentionDecoder.forward self masks' input' h'
                 encoder_outputs))
  /\ (LocallyAttentiveDecoder.__init__ values vocab cfg = (a, Ok self) ->
      forall lp h' w,
        LocallyAttentiveDecoder.forward self masks input hidden
          encoder_outputs = Ok (lp, h', w) ->
        is_ok (LocallyAttentiveDecoder.forward self masks' input' h'
                 encoder_outputs)).
Proof.
  intros Hl Hlen Hin'. split; [|split].
  - intros Hinit lp h' H.
    pose proof Hinit as Hb. rewrite Decoder_init_spec in Hb.
    apply make_rnn_Ok in Hb as (m & Hm & _).
    pose proof (Decoder_forward_hidden _ _ _ _ _ _ _ _ _ _ _ Hinit Hm Hl H)
      as Hh'.
    assert (Hok : is_ok (Decoder.forward self masks input hidden))
      by (rewrite H; exact I).
    apply (Decoder_forward_domain _ _ _ _ _ _ _ _ _ Hinit Hm Hl) in Hok
      as (_ & Hw & _).
    apply (Decoder_forward_domain _ _ _ _ _ _ _ _ _ Hinit Hm Hl).
    rewrite Hlen. repeat split; assumption.
  - intros Hinit lp h' w H.
    pose proof Hinit as Hb. rewrite AttentionDecoder_init_spec in Hb.
    apply make_rnn_Ok in Hb as (m & Hm & _).
    pose proof (AttentionDecoder_forward_hidden _ _ _ _ _ _ _ _ _ _ _ _ _ _
                  Hinit Hm Hl H) as Hh'.
    assert (Hok : is_ok (AttentionDecoder.forward self masks input hidden
                           encoder_outputs))
      by (rewrite H; exact I).
    apply (AttentionDecoder_forward_domain _ _ _ _ _ _ _ _ _ _ _ Hinit
             Hm Hl) in Hok as (-> & Hw & _ & _ & He).
    apply (AttentionDecoder_forward_domain _ _ _ _ _ _ _ _ _ _ _ Hinit
             Hm Hl).
    rewrite Hlen. repeat split; assumption.
  - intros Hinit lp h' w H.
    pose proof Hinit as Hb. rewrite LocallyAttentiveDecoder_init_spec in Hb.
    apply make_rnn_Ok in Hb as (m & Hm & _).
    pose proof (LocallyAttentiveDecoder_forward_hidden _ _ _ _ _ _ _ _ _ _ _
                  _ _ Hinit Hm Hl H) as Hh'.
    assert (Hok : is_ok (LocallyAttentiveDecoder.forward self masks input
                           hidden encoder_outputs))
      by (rewrite H; exact I).
    apply (LocallyAttentiveDecoder_forward_domain _ _ _ _ _ _ _ _ _ _
             Hinit Hm Hl) in Hok as (Hw & _ & _ & E0 & E1 & E2).
    apply (LocallyAttentiveDecoder_forward_domain _ _ _ _ _ _ _ _ _ _
             Hinit Hm Hl).
    rewrite Hlen. repeat split; assumption.
Qed.

Lemma forward_steps_chain_witness :
  exists lp h',
    Decoder.forward scenario_decoder eval_masks [1; 3]%nat
      (HTensor (zeros3 1 2 6)) = Ok (lp, h')
    /\ is_ok (Decoder.forward scenario_decoder eval_masks [4; 0]%nat h').
Proof.
  assert (Hret : is_ok (Decoder.forward scenario_decoder eval_masks
                          [1; 3]%nat (HTensor (zeros3 1 2 6)))).
  { apply (Decoder_forward_domain example_values 5
             (example_config "GRU" 4 6 1) GRU _ scenario_decoder eval_masks
             [1; 3]%nat (HTensor (zeros3 1 2 6)) scenario_decoder_init
             eq_refl (le_n 1)).
    split; [repeat constructor; lia|]. split; [left|]; reflexivity. }
  destruct (Decoder.forward scenario_decoder eval_masks [1; 3]%nat
              (HTensor (zeros3 1 2 6))) as [[lp h']|e] eqn:E;
    [|destruct Hret].
  exists lp, h'. split; [reflexivity|].
  destruct (forward_steps_chain example_values 5 3
              (example_config "GRU" 4 6 1)
              (Decoder.__init__ example_values 5
                 (example_config "GRU" 4 6 1)).1
              scenario_decoder eval_masks
              eval_masks [1; 3]%nat [4; 0]%nat (HTensor (zeros3 1 2 6))
              scenario_encoder_outputs (le_n 1) eq_refl)
    as (Hdecoder & _).
  - repeat constructor; lia.
  - exact (Hdecoder scenario_decoder_init lp h' E).
Defined.

(** ** Log-probabilities of the attention decoders *)

Lemma log_probs_normalised (logits : tensor2) (vocab : nat)
  (input : list nat) :
  shape2 logits = (length input, vocab) ->
  Forall (fun t => (t < vocab)%nat) input ->
  shape2 (log_softmax logits) = (length input, vocab)
  /\ forall i, (i < length input)%nat ->
       rsum vocab (fun j => exp (at2 (log_softmax logits) i j)) = 1.
Proof.
  intros Hs Hin. unfold shape2 in Hs. injection Hs as Hr Hc.
  split; [rewrite log_softmax_shape; unfold shape2; congruence|].
  intros i Hi. rewrite <- Hc. apply log_softmax_exp_row_sum.
  rewrite Hc. eapply Forall_lt_nonempty; eassumption.
Qed.

(** X7: the log-probabilities returned by the naive-attention, the
    global-attention and the local-attention decoders have shape
    (batch, vocabulary size), and every row sums to 1 after
    exponentiation. *)
Theorem attention_log_probabilities (values : init_values)
  (vocab max_sent_length : nat) (cfg : config) (a : list shape)
  (self : gmap string attr) (masks : nat -> mask) (input : list nat)
  (hidden : hidden_state) (last_context encoder_outputs : tensor3) :
  (AttentionDecoder.__init__ values vocab max_sent_length cfg
     = (a, Ok self) ->
   forall lp h' w,
     AttentionDecoder.forward self masks input hidden encoder_outputs
       = Ok (lp, h', w) ->
     shape2 lp = (length input, vocab)
     /\ forall i, (i < length input)%nat ->
          rsum vocab (fun j => exp (at2 lp i j)) = 1)
  /\ (GloballyAttentiveDecoder.__init__ values vocab cfg = (a, Ok self) ->
      forall lp h' ctx w,
        GloballyAttentiveDecoder.forward self masks input hidden
          last_context encoder_outputs = Ok (lp, h', ctx, w) ->
        shape2 lp = (length input, vocab)
        /\ forall i, (i < length input)%nat ->
             rsum vocab (fun j => exp (at2 lp i j)) = 1)
  /\ (LocallyAttentiveDecoder.__init__ values vocab cfg = (a, Ok self) ->
      forall lp h' w,
        LocallyAttentiveDecoder.forward self masks input hidden
          encoder_outputs = Ok (lp, h', w) ->
        shape2 lp = (length input, vocab)
        /\ forall i, (i < length input)%nat ->
             rsum vocab (fun j => exp (at2 lp i j)) = 1).
Proof.
  split; [|split].
  - intros Hinit lp h' w H. rewrite AttentionDecoder_init_spec in Hinit.
    apply make_rnn_Ok in Hinit as (m & Hm & ->).
    unfold AttentionDecoder.forward in H. run_forward H.
    injection H as <- _ _.
    apply embed_Ok in E as [Hin ->]. simpl in Hin.
    apply cat1_Ok in E4 as (_ & ->).
    apply linear_Ok in E5 as (_ & ->).
    loop_shape E6. destruct E6 as (D0 & _). simpl in D0.
    apply linear_Ok in E7 as (_ & ->).
    apply log_probs_normalised; [|exact Hin].
    unfold shape2. simpl. congruence.
  - intros Hinit lp h' ctx w H.
    unfold GloballyAttentiveDecoder.forward in H.
    apply bind_Ok in H as (l & Hlocals & H). injection H as <- _ _ _.
    pose proof (GloballyAttentiveDecoder_weights_shape _ _ _ _ _ _ _ Hlocals)
      as Hws.
    unfold GloballyAttentiveDecoder.forward_locals in Hlocals.
    rewrite GloballyAttentiveDecoder_init_spec in Hinit.
    apply make_rnn_Ok in Hinit as (m & Hm & ->).
    run_forward Hlocals. injection Hlocals as <-. simpl in *.
    apply embed_Ok in E as [Hin _]. simpl in Hin.
    apply bmm_Ok in E4 as (_ & _ & ->).
    apply cat1_Ok in E5 as (_ & ->).
    apply linear_Ok in E6 as (_ & ->).
    apply linear_Ok in E7 as (_ & ->).
    unfold shape2 in Hws. simpl in Hws. injection Hws as Hr _.
    apply log_probs_normalised; [|exact Hin].
    unfold shape2. simpl. congruence.
  - intros Hinit lp h' w H.
    unfold LocallyAttentiveDecoder.forward in H.
    apply bind_Ok in H as (l & Hlocals & H). injection H as <- _ _.
    apply LocallyAttentiveDecoder_locals_inv in Hlocals
      as (e & cfg' & rnn & weight & weight_v & weight_p & window_size
          & attn_combine & out & v & weighted & projected & pre_sigmoid
          & range & pt_expanded & difference & joined & combined & logits
          & aggregated & He & Hcfg & Hrnn & Hweight & Hwv & Hwp & Hws & Hac
          & Hout & Hv & Hloop & Hwe & Hsc & Hsm & _ & _ & _ & _ & _ & _ & _
          & _ & _ & _ & Hattn & Hagg & Hctx & Hj & Hcomb & Hlogits & ->).
    rewrite LocallyAttentiveDecoder_init_spec in Hinit.
    apply make_rnn_Ok in Hinit as (m & Hm & ->).
    unfold getattr in He, Hcfg, Hrnn, Hweight, Hwv, Hwp, Hws, Hac, Hout.
    simplify_map_eq.
    apply embed_Ok in Hv as [Hin ->]. simpl in Hin.
    loop_shape Hloop. destruct Hloop as (D0 & _). simpl in D0.
    apply bmm_Ok in Hsc as (_ & _ & Hsc).
    apply zip2_Ok in Hattn as (_ & _ & Hattn).
    apply bmm_Ok in Hagg as (_ & _ & ->).
    apply cat1_Ok in Hj as (_ & ->).
    apply linear_Ok in Hcomb as (_ & ->).
    apply linear_Ok in Hlogits as (_ & ->).
    apply log_probs_normalised; [|exact Hin].
    unfold shape2. simpl. rewrite Hctx. simpl. rewrite Hattn. simpl.
    rewrite Hsm. simpl. rewrite Hsc. simpl. congruence.
Qed.

Lemma attention_log_probabilities_witness :
  exists lp h' ctx w,
    GloballyAttentiveDecoder.forward scenario_global eval_masks [1; 3]%nat
      (HTensor (zeros3 1 2 6)) (zeros3 2 1 6) scenario_encoder_outputs
    = Ok (lp, h', ctx, w)
    /\ shape2 lp = (2, 5)%nat
    /\ forall i, (i < 2)%nat -> rsum 5 (fun j => exp (at2 lp i j)) = 1.
Proof.
  pose proof scenario_global_returns as Hret.
  destruct (GloballyAttentiveDecoder.forward scenario_global eval_masks
              [1; 3]%nat (HTensor (zeros3 1 2 6)) (zeros3 2 1 6)
              scenario_encoder_outputs)
    as [[[[lp h'] ctx] w]|e] eqn:E; [|destruct Hret].
  exists lp, h', ctx, w. split; [reflexivity|].
  destruct (attention_log_probabilities example_values 5 3
              (example_config "GRU" 4 6 1)
              (GloballyAttentiveDecoder.__init__ example_values 5
                 (example_config "GRU" 4 6 1)).1
              scenario_global eval_masks [1; 3]%nat (HTensor (zeros3 1 2 6))
              (zeros3 2 1 6) scenario_encoder_outputs) as (_ & Hglobal & _).
  exact (Hglobal scenario_global_init lp h' ctx w E).
Defined.

(** ** Token ids outside the vocabulary *)

Lemma embed_out_of_range (e : Embedding) (input : list nat) :
  ~ Forall (fun t => (t < num_embeddings e)%nat) input ->
  embed e input = Raise IndexError.
Proof.
  intros H. unfold embed.
  destruct (forallb (fun t => Nat.ltb t (num_embeddings e)) input) eqn:Hf.
  - exfalso. apply H. apply List.Forall_forall. intros t Ht.
    rewrite forallb_forall in Hf. apply Nat.ltb_lt, Hf, Ht.
  - reflexivity.
Qed.

(** X8: in the four decoders a batch holding a token id outside the
    vocabulary makes [forward] raise [IndexError] at the embedding lookup,
    whatever the hidden state and the other arguments are. *)
Theorem forward_token_out_of_vocabulary (values : init_values)
  (vocab max_sent_length : nat) (cfg : config) (a : list shape)
  (self : gmap string attr) (masks : nat -> mask) (input : list nat)
  (hidden : hidden_state) (last_context encoder_outputs : tensor3) :
  ~ Forall (fun t => (t < vocab)%nat) input ->
  (Decoder.__init__ values vocab cfg = (a, Ok self) ->
   Decoder.forward self masks input hidden = Raise IndexError)
  /\ (AttentionDecoder.__init__ values vocab max_sent_length cfg
        = (a, Ok self) ->
      AttentionDecoder.forward self masks input hidden encoder_outputs
        = Raise IndexError)
  /\ (GloballyAttentiveDecoder.__init__ values vocab cfg = (a, Ok self) ->
      GloballyAttentiveDecoder.forward self masks input hidden last_context
        encoder_outputs = Raise IndexError)
  /\ (LocallyAttentiveDecoder.__init__ values vocab cfg = (a, Ok self) ->
      LocallyAttentiveDecoder.forward self masks input hidden
        encoder_outputs = Raise IndexError).
Proof.
  intros Hin. split; [|split; [|split]]; intros Hinit.
  - rewrite Decoder_init_spec in Hinit.
    apply make_rnn_Ok in Hinit as (m & _ & ->).
    unfold Decoder.forward, getattr. simplify_map_eq.
    rewrite embed_out_of_range by exact Hin. reflexivity.
  - rewrite AttentionDecoder_init_spec in Hinit.
    apply make_rnn_Ok in Hinit as (m & _ & ->).
    unfold AttentionDecoder.forward, getattr. simplify_map_eq.
    rewrite embed_out_of_range by exact Hin. reflexivity.
  - rewrite GloballyAttentiveDecoder_init_spec in Hinit.
    apply make_rnn_Ok in Hinit as (m & _ & ->).
    unfold GloballyAttentiveDecoder.forward,
      GloballyAttentiveDecoder.forward_locals, getattr. simplify_map_eq.
    rewrite embed_out_of_range by exact Hin. reflexivity.
  - rewrite LocallyAttentiveDecoder_init_spec in Hinit.
    apply make_rnn_Ok in Hinit as (m & _ & ->).
    unfold LocallyAttentiveDecoder.forward,
      LocallyAttentiveDecoder.forward_locals, getattr. simplify_map_eq.
    rewrite embed_out_of_range by exact Hin. reflexivity.
Qed.

Lemma forward_token_out_of_vocabulary_witness :
  Decoder.forward scenario_decoder eval_masks [1; 5]%nat
    (HTensor (zeros3 1 2 6)) = Raise IndexError.
Proof.
  assert (Hin : ~ Forall (fun t => (t < 5)%nat) [1; 5]%nat).
  { intros H. apply List.Forall_inv_tail, List.Forall_inv in H. lia. }
  destruct (forward_token_out_of_vocabulary example_values 5 3
              (example_config "GRU" 4 6 1)
              (Decoder.__init__ example_values 5
                 (example_config "GRU" 4 6 1)).1
              scenario_decoder eval_masks [1; 5]%nat (HTensor (zeros3 1 2 6))
              (zeros3 2 1 6) scenario_encoder_outputs Hin) as (Hdecoder & _).
  exact (Hdecoder scenario_decoder_init).
Defined.

(** ** The weights of the local-attention decoder *)






(** * Further properties of the initialisation of the embedding *)

Lemma count_absent_cons (embeddings_index : gmap string (list R))
  (w : string) (rest : list string) :
  count_absent embeddings_index (w :: rest)
  = ((match embeddings_index !! w with Some _ => 0 | None => 1 end)
     + count_absent embeddings_index rest)%nat.
Proof.
  unfold count_absent. simpl.
  destruct (embeddings_index !! w); reflexivity.
Qed.

Lemma fill_rows_generator (embeddings_index : gmap string (list R))
  (d : nat) (words : list string) (g g' : rng) (rows : list (list R)) :
  fill_rows words embeddings_index d g = Ok (rows, g') ->
  deviates g' = deviates g
  /\ consumed g' = (consumed g + d * count_absent embeddings_index words)%nat.
Proof.
  revert g g' rows. induction words as [|w rest IH]; intros g g' rows H.
  - simpl in H. injection H as <- <-. unfold count_absent. simpl.
    split; [reflexivity | lia].
  - cbn [fill_rows] in H. rewrite count_absent_cons.
    destruct (embeddings_index !! w) as [v|] eqn:Hw.
    + apply bind_Ok in H as ([row g0] & Hrow & H).
      apply bind_Ok in Hrow as (row' & _ & Hrow). injection Hrow as <- <-.
      apply bind_Ok in H as ([rows' g1] & Hrest & H). injection H as <- <-.
      apply IH in Hrest. exact Hrest.
    + apply bind_Ok in H as ([row g0] & Hrow & H).
      unfold helper.initialize_out_of_vocab_words, np_random_normal in Hrow.
      apply bind_Ok in Hrow as (row' & _ & Hrow). injection Hrow as <- <-.
      apply bind_Ok in H as ([rows' g1] & Hrest & H). injection H as <- <-.
      apply IH in Hrest as [Hd Hc]. simpl in Hd, Hc.
      split; [exact Hd|]. rewrite Hc. lia.
Qed.

(** X10: a run of [init_embedding_weights] that returns changes no
    attribute of the instance but [embedding]; it advances the random
    generator by the embedding dimension for every word of the vocabulary
    without a pretrained vector; and running it again from the same state
    of the generator leaves the instance as the first run left it. *)
Theorem init_embedding_weights_idempotent (self : gmap string attr)
  (dictionary : Dictionary) (embeddings_index : gmap string (list R))
  (d : nat) (g : rng) (self1 : gmap string attr) (g1 : rng) :
  init_embedding_weights self dictionary embeddings_index d g
    = Ok (self1, g1) ->
  init_embedding_weights self1 dictionary embeddings_index d g
    = Ok (self1, g1)
  /\ (forall k, k <> "embedding" -> self1 !! k = self !! k)
  /\ deviates g1 = deviates g
  /\ consumed g1
     = (consumed g
        + d * count_absent embeddings_index (idx2word dictionary))%nat.
Proof.
  intros H. unfold init_embedding_weights in H.
  apply bind_Ok in H as ([rows g'] & Hfill & H).
  apply bind_Ok in H as (e & He & H).
  apply bind_Ok in H as (e1 & Hcopy & H). injection H as <- <-.
  unfold copy_from_numpy in Hcopy.
  apply bind_Ok in Hcopy as (u & Hg & Hcopy). injection Hcopy as <-.
  apply guard_Ok in Hg.
  destruct (fill_rows_generator _ _ _ _ _ _ Hfill) as [Hd Hc].
  repeat split; try assumption.
  - unfold init_embedding_weights. rewrite Hfill. simpl.
    unfold getattr. rewrite lookup_insert_eq. simpl.
    unfold copy_from_numpy. simpl. rewrite Hg. simpl.
    rewrite insert_insert_eq. reflexivity.
  - intros k Hk. apply lookup_insert_ne. congruence.
Qed.

Lemma scenario_decoder_embedding :
  scenario_decoder !! "embedding"
  = Some (AEmbedding (nn_Embedding (init_embedding example_values) 5 4).1).
Proof.
  unfold scenario_decoder, built.
  rewrite Decoder_init_spec, make_rnn_spec. simpl. by simplify_map_eq.
Qed.

Lemma example_table_width (w : string) (v : list R) :
  example_table !! w = Some v -> length v = 4%nat.
Proof.
  intros H. unfold example_table in H.
  apply lookup_insert_Some in H as [[_ <-]|[_ H]]; [reflexivity|].
  apply lookup_insert_Some in H as [[_ <-]|[_ H]]; [reflexivity|].
  rewrite lookup_empty in H. discriminate.
Qed.

Lemma init_embedding_weights_idempotent_witness :
  exists self1 g1,
    init_embedding_weights scenario_decoder example_dictionary example_table
      4 example_rng = Ok (self1, g1)
    /\ init_embedding_weights self1 example_dictionary example_table
         4 example_rng = Ok (self1, g1)
    /\ consumed g1 = 12%nat.
Proof.
  destruct (init_embedding_weights_spec scenario_decoder example_dictionary
              example_table 4 example_rng _ example_table_width
              scenario_decoder_embedding eq_refl eq_refl)
    as (self1 & g1 & e1 & Hrun & _).
  exists self1, g1. split; [exact Hrun|].
  destruct (init_embedding_weights_idempotent scenario_decoder
              example_dictionary example_table 4 example_rng self1 g1 Hrun)
    as (Hagain & _ & _ & Hc).
  split; [exact Hagain|]. rewrite Hc. reflexivity.
Defined.












(** * The data utilities *)

Section HelperUtils.
Import helper_utils.

(** ** Comprehensions and slices *)

Lemma comprehension_map {A B : Type} (f : A -> outcome B) (g : A -> B)
  (l : list A) :
  (forall x, In x l -> f x = Return (g x)) ->
  comprehension f l = Return (map g l).
Proof.
  induction l as [|x l IH]; intros H; [reflexivity|].
  simpl. rewrite (H x (or_introl eq_refl)). simpl.
  rewrite IH; [reflexivity|]. intros y Hy. apply H. right. exact Hy.
Qed.

Lemma skipn_nth_error {A : Type} (l : list A) (n : nat) (x : A) :
  nth_error l n = Some x -> skipn n l = x :: skipn (S n) l.
Proof.
  revert n. induction l as [|y l IH]; intros [|n] H; simpl in *;
    try discriminate.
  - injection H as ->. reflexivity.
  - apply IH in H. rewrite H. reflexivity.
Qed.

Lemma item_nat {A : Type} (data : list A) (k : nat) (x : A) :
  nth_error data k = Some x -> item data (Z.of_nat k) = Return x.
Proof.
  intros H. unfold item.
  destruct (Z.ltb_spec (Z.of_nat k) 0) as [Hk|Hk]; [lia|].
  rewrite Nat2Z.id, H.
  destruct (Z.ltb_spec (Z.of_nat k) 0); [lia | reflexivity].
Qed.

(** The inner comprehension of [batchify] reads a window of the data. *)
Lemma window {A : Type} (data : list A) (off s b : nat) :
  (off + s + b <= length data)%nat ->
  comprehension (fun j => item data (Z.of_nat off + j)) (map Z.of_nat (seq s b))
  = Return (firstn b (skipn (off + s) data)).
Proof.
  revert s. induction b as [|b IH]; intros s H; [reflexivity|].
  destruct (nth_error data (off + s)) as [x|] eqn:E.
  2: { apply nth_error_None in E. lia. }
  simpl. rewrite <- Nat2Z.inj_add, (item_nat _ _ _ E). simpl.
  rewrite IH by lia. simpl.
  rewrite (skipn_nth_error _ _ _ E). simpl.
  replace (off + S s)%nat with (S (off + s)) by lia. reflexivity.
Qed.

Lemma concat_windows {A : Type} (b n : nat) (l : list A) :
  length l = (n * b)%nat ->
  concat (map (fun i => firstn b (skipn (b * i) l)) (seq 0 n)) = l.
Proof.
  revert l. induction n as [|n IH]; intros l H.
  - destruct l; [reflexivity | discriminate].
  - simpl. rewrite <- seq_shift, map_map, Nat.mul_0_r. simpl.
    transitivity (firstn b l ++ skipn b l); [|apply firstn_skipn].
    f_equal. etransitivity; [|apply (IH (skipn b l))].
    + f_equal. apply map_ext. intros i.
      rewrite skipn_skipn. f_equal. f_equal. lia.
    + rewrite length_skipn. lia.
Qed.

(** ** [batchify] *)

Lemma batchify_positive {A : Type} (data : list A) (b : nat) :
  (0 < b)%nat ->
  batchify data (Z.of_nat b)
  = Return (map (fun i => firstn b (skipn (b * i) data))
              (seq 0 (length data / b))).
Proof.
  intros Hb. unfold batchify.
  destruct (Z.eqb_spec (Z.of_nat b) 0) as [E|_]; [lia|]. simpl.
  rewrite <- Nat2Z.inj_div.
  set (n := (length data / b)%nat).
  assert (Hn : (n * b <= length data)%nat).
  { unfold n. rewrite Nat.mul_comm. apply Nat.Div0.mul_div_le. }
  unfold slice_to. rewrite <- Nat2Z.inj_mul.
  destruct (Z.ltb_spec (Z.of_nat (n * b)) 0) as [E|_]; [lia|].
  rewrite Nat2Z.id. unfold range. rewrite !Nat2Z.id.
  set (data' := firstn (n * b) data).
  assert (Hlen : length data' = (n * b)%nat).
  { unfold data'. rewrite length_firstn. lia. }
  rewrite (comprehension_map _
             (fun i => firstn b (skipn (b * Z.to_nat i) data'))).
  - rewrite map_map. f_equal. apply map_ext_in. intros i Hi.
    rewrite Nat2Z.id. apply in_seq in Hi.
    unfold data'. rewrite skipn_firstn_comm, firstn_firstn. f_equal.
    assert (b * i + b <= n * b)%nat by nia. lia.
  - intros z Hz. apply in_map_iff in Hz as (i & <- & Hi).
    apply in_seq in Hi. rewrite Nat2Z.id, <- Nat2Z.inj_mul.
    rewrite (window data' (b * i) 0 b).
    + rewrite Nat.add_0_r. reflexivity.
    + rewrite Hlen. nia.
Qed.

(** X13: with a positive batch size [batchify] returns
    [len(data) // bsz] batches of [bsz] elements each; put end to end they
    are the data in its order, short of a tail of [len(data) % bsz]
    elements that is dropped. *)
Theorem batchify_batches {A : Type} (data : list A) (bsz : Z) :
  (0 < bsz)%Z ->
  exists batched_data rest,
    batchify data bsz = Return batched_data
    /\ Z.of_nat (length batched_data) = (Z.of_nat (length data) / bsz)%Z
    /\ Forall (fun batch => Z.of_nat (length batch) = bsz) batched_data
    /\ data = concat batched_data ++ rest
    /\ Z.of_nat (length rest) = (Z.of_nat (length data) mod bsz)%Z.
Proof.
  intros Hb. rewrite <- (Z2Nat.id bsz) by lia.
  set (b := Z.to_nat bsz). assert (Hpos : (0 < b)%nat) by lia.
  set (n := (length data / b)%nat).
  assert (Hn : (n * b <= length data)%nat).
  { unfold n. rewrite Nat.mul_comm. apply Nat.Div0.mul_div_le. }
  exists (map (fun i => firstn b (skipn (b * i) data)) (seq 0 n)),
    (skipn (n * b) data).
  split; [apply batchify_positive; exact Hpos|].
  split; [rewrite length_map, length_seq; apply Nat2Z.inj_div|].
  split; [|split].
  - apply List.Forall_forall. intros batch Hin.
    apply in_map_iff in Hin as (i & <- & Hi). apply in_seq in Hi.
    rewrite length_firstn, length_skipn.
    assert (b * i + b <= n * b)%nat by nia. lia.
  - rewrite <- (firstn_skipn (n * b) data) at 1. f_equal.
    rewrite <- (concat_windows b n (firstn (n * b) data)).
    + f_equal. apply map_ext_in. intros i Hi. apply in_seq in Hi.
      rewrite skipn_firstn_comm, firstn_firstn. f_equal.
      assert (b * i + b <= n * b)%nat by nia. lia.
    + rewrite length_firstn. lia.
  - rewrite length_skipn, <- Nat2Z.inj_mod. f_equal.
    unfold n. rewrite (Nat.Div0.mod_eq (length data) b). lia.
Qed.

Lemma batchify_batches_witness :
  exists batched_data rest,
    batchify [1; 2; 3; 4; 5; 6; 7]%nat 3 = Return batched_data
    /\ Z.of_nat (length batched_data) = (Z.of_nat 7 / 3)%Z
    /\ Forall (fun batch => Z.of_nat (length batch) = 3%Z) batched_data
    /\ [1; 2; 3; 4; 5; 6; 7]%nat = concat batched_data ++ rest
    /\ Z.of_nat (length rest) = (Z.of_nat 7 mod 3)%Z.
Proof. apply (batchify_batches [1; 2; 3; 4; 5; 6; 7]%nat 3). lia. Defined.

(** X14: [batchify] never raises [IndexError].  With no full batch in the
    data, or with a negative batch size, it returns the empty list, and
    the batch size 0 raises [ZeroDivisionError]. *)
Theorem batchify_no_batch {A : Type} (data : list A) (bsz : Z) :
  (bsz <= 0 \/ Z.of_nat (length data) < bsz)%Z ->
  batchify data bsz
  = if (bsz =? 0)%Z then Throw ZeroDivisionError else Return [].
Proof.
  intros H. unfold batchify.
  destruct (Z.eqb_spec bsz 0) as [E|E]; [reflexivity|]. simpl.
  assert (Hn : (Z.of_nat (length data) / bsz <= 0)%Z).
  { destruct H as [H|H].
    - pose proof (Z.mod_neg_bound (Z.of_nat (length data)) bsz ltac:(lia)).
      pose proof (Z.div_mod (Z.of_nat (length data)) bsz ltac:(lia)).
      nia.
    - rewrite Z.div_small by lia. lia. }
  unfold range at 2.
  replace (Z.to_nat (Z.of_nat (length data) / bsz)) with 0%nat by lia.
  reflexivity.
Qed.

Lemma batchify_no_batch_witness :
  batchify [1; 2; 3]%nat (-2) = Return []
  /\ batchify [1; 2; 3]%nat 4 = Return []
  /\ batchify [1; 2; 3]%nat 0 = Throw ZeroDivisionError.
Proof.
  split; [|split].
  - apply (batchify_no_batch [1; 2; 3]%nat (-2)). left. lia.
  - apply (batchify_no_batch [1; 2; 3]%nat 4). right. simpl. lia.
  - apply (batchify_no_batch [1; 2; 3]%nat 0). left. lia.
Defined.

(** ** [sentence_to_tensor] *)

Lemma word_lookup (dictionary : Vocabulary) (word : string) :
  (if bool_decide (is_Some (word2idx dictionary !! word))
   then getitem (word2idx dictionary) word
   else getitem (word2idx dictionary) (unknown_token dictionary))
  = match word_id dictionary word with
    | Some k => Return k
    | None => Throw (KeyError (unknown_token dictionary))
    end.
Proof.
  unfold word_id, getitem.
  destruct (word2idx dictionary !! word) as [k|] eqn:E.
  - rewrite bool_decide_eq_true_2 by eauto. reflexivity.
  - rewrite bool_decide_eq_false_2 by (intros [? ?]; discriminate).
    reflexivity.
Qed.


Lemma fill_sentence_Return (dictionary : Vocabulary) (sentence : list string)
  (i : nat) (sen_rep t : list Z) :
  fill_sentence sentence i dictionary sen_rep = Return t ->
  (i <= length sen_rep)%nat ->
  (i + length sentence <= length sen_rep)%nat
  /\ exists codes,
       Forall2 (fun w k => word_id dictionary w = Some k) sentence codes
       /\ t = take i sen_rep ++ codes ++ drop (i + length sentence) sen_rep.
Proof.
  revert i sen_rep t. induction sentence as [|w sentence IH];
    intros i sen_rep t H Hi.
  - simpl in *. injection H as <-. split; [lia|]. exists [].
    split; [constructor|]. rewrite Nat.add_0_r. simpl.
    rewrite take_drop. reflexivity.
  - simpl in H. rewrite word_lookup in H.
    destruct (word_id dictionary w) as [k|] eqn:Hw; [|discriminate].
    simpl in H. unfold setitem in H.
    destruct (Nat.ltb_spec i (length sen_rep)) as [Hlt|Hge];
      [|discriminate].
    simpl in H. apply IH in H as (Hlen & codes & Hcodes & ->);
      [|rewrite length_insert; lia].
    rewrite length_insert in Hlen. simpl. split; [lia|].
    exists (k :: codes). split; [constructor; assumption|].
    rewrite drop_insert_lt by lia.
    rewrite (take_S_r _ _ k) by (apply list_lookup_insert_eq; exact Hlt).
    rewrite take_insert_ge by lia. rewrite <- app_assoc. simpl.
    replace (i + S (length sentence))%nat with (S (i + length sentence)) by lia.
    reflexivity.
Qed.



Lemma sentence_to_tensor_Return (sentence : list string)
  (max_sent_length : nat) (dictionary : Vocabulary) (t : list Z) :
  sentence_to_tensor sentence max_sent_length dictionary = Return t ->
  (length sentence <= max_sent_length)%nat
  /\ exists codes,
       Forall2 (fun w k => word_id dictionary w = Some k) sentence codes
       /\ t = codes ++ replicate (max_sent_length - length sentence) 0%Z.
Proof.
  intros H. unfold sentence_to_tensor in H.
  apply fill_sentence_Return in H as (Hlen & codes & Hcodes & ->); [|lia].
  rewrite length_replicate in Hlen. simpl in *.
  split; [exact Hlen|]. rewrite drop_replicate.
  exists codes. split; [exact Hcodes | reflexivity].
Qed.

Lemma sentence_to_tensor_length (sentence : list string)
  (max_sent_length : nat) (dictionary : Vocabulary) (t : list Z) :
  sentence_to_tensor sentence max_sent_length dictionary = Return t ->
  length t = max_sent_length.
Proof.
  intros H.
  apply sentence_to_tensor_Return in H as (Hlen & codes & Hcodes & ->).
  apply Forall2_length in Hcodes.
  rewrite length_app, length_replicate. lia.
Qed.

(** X15: the tensor [sentence_to_tensor] returns holds the ids of the
    words in their order, the id of the unknown token standing for every
    word the vocabulary does not have, and zeros from the end of the
    sentence up to [max_sent_length]. *)
Theorem sentence_to_tensor_padded (sentence : list string)
  (max_sent_length : nat) (dictionary : Vocabulary) (t : list Z) :
  sentence_to_tensor sentence max_sent_length dictionary = Return t ->
  (length sentence <= max_sent_length)%nat
  /\ length t = max_sent_length
  /\ exists codes,
       Forall2 (fun w k => word_id dictionary w = Some k) sentence codes
       /\ t = codes ++ replicate (max_sent_length - length sentence) 0%Z.
Proof.
  intros H. pose proof (sentence_to_tensor_length _ _ _ _ H) as Hwidth.
  apply sentence_to_tensor_Return in H as (Hlen & codes & Hcodes & Ht).
  split; [exact Hlen|]. split; [exact Hwidth|].
  exists codes. split; [exact Hcodes | exact Ht].
Qed.

Lemma sentence_to_tensor_padded_witness :
  (3 <= 5)%nat
  /\ length [2; 1; 3; 0; 0]%Z = 5%nat
  /\ exists codes,
       Forall2 (fun w k => word_id example_vocabulary w = Some k)
         ["the"; "dog"; "cat"] codes
       /\ [2; 1; 3; 0; 0]%Z = codes ++ replicate (5 - 3) 0%Z.
Proof.
  apply (sentence_to_tensor_padded ["the"; "dog"; "cat"] 5
           example_vocabulary [2; 1; 3; 0; 0]%Z).
  vm_compute. reflexivity.
Defined.






(** ** [instances_to_tensors] and [queries_to_tensors] *)

Lemma setrow_Return (t : list (list Z)) (i : nat) (row : list Z) :
  (i < length t)%nat ->
  Forall (fun r => length r = length row) t ->
  setrow t i row = Return (<[i := row]> t).
Proof.
  intros Hi Hw. unfold setrow.
  destruct (lookup_lt_is_Some_2 t i Hi) as [old Hold]. rewrite Hold.
  rewrite Forall_lookup in Hw. rewrite (Hw i old Hold), Nat.eqb_refl.
  reflexivity.
Qed.

Lemma setrow_inv (t t' : list (list Z)) (i : nat) (row : list Z) :
  setrow t i row = Return t' -> (i < length t)%nat /\ t' = <[i := row]> t.
Proof.
  unfold setrow. destruct (t !! i) as [old|] eqn:E; [|discriminate].
  destruct (length row =? length old)%nat; [|discriminate].
  intros H. injection H as <-. split; [|reflexivity].
  apply lookup_lt_is_Some. eauto.
Qed.

Lemma insert_middle {A : Type} (l : list A) (i n : nat) (x : A) (xs : list A) :
  (i < length l)%nat ->
  take (S i) (<[i := x]> l) ++ xs ++ drop (S i + n) (<[i := x]> l)
  = take i l ++ (x :: xs) ++ drop (i + S n) l.
Proof.
  intros Hi. rewrite drop_insert_lt by lia.
  rewrite (take_S_r _ _ x) by (apply list_lookup_insert_eq; exact Hi).
  rewrite take_insert_ge by lia. rewrite <- app_assoc. simpl.
  replace (i + S n)%nat with (S (i + n)) by lia. reflexivity.
Qed.

Lemma Forall_insert_width (t : list (list Z)) (i w : nat) (row : list Z) :
  Forall (fun r => length r = w) t -> length row = w ->
  Forall (fun r => length r = w) (<[i := row]> t).
Proof. intros Ht Hrow. apply Forall_insert; assumption. Qed.

Lemma LongTensor2_shape (memory : nat -> nat -> Z) (n m : nat) :
  length (LongTensor2 memory n m) = n
  /\ Forall (fun r => length r = m) (LongTensor2 memory n m).
Proof.
  unfold LongTensor2. split.
  - rewrite length_map, length_seq. reflexivity.
  - apply List.Forall_forall. intros r Hr.
    apply in_map_iff in Hr as (i & <- & _).
    rewrite length_map, length_seq. reflexivity.
Qed.

Lemma fill_instances_rows (dictionary : Vocabulary) (max_sent_length : nat)
  (instances : list Instance) (rows1 rows2 : list (list Z)) (i : nat)
  (all_sentences1 all_sentences2 : list (list Z)) :
  Forall2 (fun instance row =>
             sentence_to_tensor (sentence1 instance) max_sent_length
               dictionary = Return row) instances rows1 ->
  Forall2 (fun instance row =>
             sentence_to_tensor (sentence2 instance) max_sent_length
               dictionary = Return row) instances rows2 ->
  Forall (fun r => length r = max_sent_length) all_sentences1 ->
  Forall (fun r => length r = max_sent_length) all_sentences2 ->
  (i + length instances <= length all_sentences1)%nat ->
  (i + length instances <= length all_sentences2)%nat ->
  fill_instances instances i dictionary max_sent_length
    all_sentences1 all_sentences2
  = Return (take i all_sentences1 ++ rows1
              ++ drop (i + length instances) all_sentences1,
            take i all_sentences2 ++ rows2
              ++ drop (i + length instances) all_sentences2).
Proof.
  intros H1. revert rows2 i all_sentences1 all_sentences2.
  induction H1 as [|instance row1 instances rows1 Hrow1 _ IH];
    intros rows2 i all1 all2 H2 Hw1 Hw2 Hl1 Hl2.
  - apply Forall2_nil_inv_l in H2 as ->. simpl.
    rewrite Nat.add_0_r, !take_drop. reflexivity.
  - apply Forall2_cons_inv_l in H2 as (row2 & rows2' & Hrow2 & H2 & ->).
    simpl in *. rewrite Hrow1. simpl.
    pose proof (sentence_to_tensor_length _ _ _ _ Hrow1) as Hlen1.
    pose proof (sentence_to_tensor_length _ _ _ _ Hrow2) as Hlen2.
    rewrite setrow_Return by (try rewrite Hlen1; first [lia | assumption]).
    simpl. rewrite Hrow2. simpl.
    rewrite setrow_Return by (try rewrite Hlen2; first [lia | assumption]).
    simpl.
    rewrite (IH rows2') by
      (try rewrite length_insert; try apply Forall_insert_width;
       first [assumption | lia]).
    rewrite !insert_middle by lia. reflexivity.
Qed.

Lemma fill_instances_Return (dictionary : Vocabulary) (max_sent_length : nat)
  (instances : list Instance) (i : nat)
  (all_sentences1 all_sentences2 a1 a2 : list (list Z)) :
  fill_instances instances i dictionary max_sent_length
    all_sentences1 all_sentences2 = Return (a1, a2) ->
  exists rows1 rows2,
    Forall2 (fun instance row =>
               sentence_to_tensor (sentence1 instance) max_sent_length
                 dictionary = Return row) instances rows1
    /\ Forall2 (fun instance row =>
                  sentence_to_tensor (sentence2 instance) max_sent_length
                    dictionary = Return row) instances rows2.
Proof.
  revert i all_sentences1 all_sentences2.
  induction instances as [|instance instances IH]; intros i all1 all2 H.
  - exists [], []. split; constructor.
  - simpl in H.
    destruct (sentence_to_tensor (sentence1 instance) max_sent_length
                dictionary) as [row1|] eqn:E1; [|discriminate].
    simpl in H. destruct (setrow all1 i row1) as [all1'|]; [|discriminate].
    simpl in H.
    destruct (sentence_to_tensor (sentence2 instance) max_sent_length
                dictionary) as [row2|] eqn:E2; [|discriminate].
    simpl in H. destruct (setrow all2 i row2) as [all2'|]; [|discriminate].
    simpl in H. apply IH in H as (rows1 & rows2 & H1 & H2).
    exists (row1 :: rows1), (row2 :: rows2).
    split; constructor; assumption.
Qed.

Lemma Forall2_functional {A B : Type} (f : A -> outcome B) (l : list A)
  (k1 k2 : list B) :
  Forall2 (fun x y => f x = Return y) l k1 ->
  Forall2 (fun x y => f x = Return y) l k2 -> k1 = k2.
Proof.
  intros H. revert k2. induction H as [|x y l k1 Hy _ IH]; intros k2 H2.
  - apply Forall2_nil_inv_l in H2. congruence.
  - apply Forall2_cons_inv_l in H2 as (y' & k2' & Hy' & H2 & ->).
    f_equal; [congruence | apply IH; exact H2].
Qed.

(** X17: [instances_to_tensors] returns exactly when [sentence_to_tensor]
    returns on the two sentences of every instance, and then row [i] of
    the first tensor is the tensor of [sentence1] of the instance [i], and
    row [i] of the second the one of its [sentence2]: no entry of the
    uninitialised allocations is left. *)
Theorem instances_to_tensors_rows (memory : nat -> nat -> nat -> Z)
  (instances : list Instance) (dictionary : Vocabulary)
  (max_sent_length : nat) (a1 a2 : list (list Z)) :
  instances_to_tensors memory instances dictionary max_sent_length
  = Return (a1, a2)
  <-> Forall2 (fun instance row =>
                 sentence_to_tensor (sentence1 instance) max_sent_length
                   dictionary = Return row) instances a1
      /\ Forall2 (fun instance row =>
                    sentence_to_tensor (sentence2 instance) max_sent_length
                      dictionary = Return row) instances a2.
Proof.
  unfold instances_to_tensors.
  destruct (LongTensor2_shape (memory 0%nat) (length instances)
              max_sent_length) as [Hl1 Hw1].
  destruct (LongTensor2_shape (memory 1%nat) (length instances)
              max_sent_length) as [Hl2 Hw2].
  assert (Hrows : forall rows1 rows2,
    Forall2 (fun instance row =>
               sentence_to_tensor (sentence1 instance) max_sent_length
                 dictionary = Return row) instances rows1 ->
    Forall2 (fun instance row =>
               sentence_to_tensor (sentence2 instance) max_sent_length
                 dictionary = Return row) instances rows2 ->
    fill_instances instances 0 dictionary max_sent_length
      (LongTensor2 (memory 0%nat) (length instances) max_sent_length)
      (LongTensor2 (memory 1%nat) (length instances) max_sent_length)
    = Return (rows1, rows2)).
  { intros rows1 rows2 H1 H2.
    rewrite (fill_instances_rows _ _ _ rows1 rows2) by
      first [assumption | lia].
    simpl. rewrite !drop_ge, !app_nil_r by lia. reflexivity. }
  split.
  - intros H. destruct (fill_instances_Return _ _ _ _ _ _ _ _ H)
      as (rows1 & rows2 & H1 & H2).
    rewrite (Hrows rows1 rows2 H1 H2) in H.
    injection H as <- <-. split; assumption.
  - intros [H1 H2]. apply Hrows; assumption.
Qed.

Lemma instances_to_tensors_rows_witness :
  instances_to_tensors stale_memory example_instances example_vocabulary 3
  = Return ([[2; 3; 0]; [3; 0; 0]]%Z, [[1; 0; 0]; [0; 0; 0]]%Z).
Proof.
  apply (proj2 (instances_to_tensors_rows stale_memory example_instances
                  example_vocabulary 3 _ _)).
  split; repeat (constructor; [vm_compute; reflexivity|]); constructor.
Defined.

Lemma max_query_lengths_spec (instances : list Instance) :
  max_query_lengths instances
  = (list_max (map (fun item => length (sentence1 item)) instances),
     list_max (map (fun item => length (sentence2 item)) instances)).
Proof.
  unfold max_query_lengths.
  assert (H : forall a b,
    fold_left
      (fun '(max_query_length1, max_query_length2) item =>
         (if (max_query_length1 <? length (sentence1 item))%nat
          then length (sentence1 item) else max_query_length1,
          if (max_query_length2 <? length (sentence2 item))%nat
          then length (sentence2 item) else max_query_length2))
      instances (a, b)
    = (Nat.max a (list_max (map (fun item => length (sentence1 item))
                              instances)),
       Nat.max b (list_max (map (fun item => length (sentence2 item))
                              instances)))).
  { induction instances as [|item instances IH]; intros a b.
    - simpl. rewrite !Nat.max_0_r. reflexivity.
    - simpl. rewrite IH. f_equal.
      + destruct (Nat.ltb_spec a (length (sentence1 item))); lia.
      + destruct (Nat.ltb_spec b (length (sentence2 item))); lia. }
  apply H.
Qed.

Lemma setitem_Return {A : Type} (t : list A) (i : nat) (v : A) :
  (i < length t)%nat -> setitem t i v = Return (<[i := v]> t).
Proof.
  intros Hi. unfold setitem.
  destruct (Nat.ltb_spec i (length t)); [reflexivity | lia].
Qed.

Lemma fill_queries_rows (dictionary : Vocabulary)
  (max_query_length1 max_query_length2 : nat)
  (instances : list Instance) (rows1 rows2 : list (list Z)) (i : nat)
  (all_sentences1 all_sentences2 : list (list Z)) (lengths : list Z) :
  Forall2 (fun instance row =>
             sentence_to_tensor (sentence1 instance) max_query_length1
               dictionary = Return row) instances rows1 ->
  Forall2 (fun instance row =>
             sentence_to_tensor (sentence2 instance) max_query_length2
               dictionary = Return row) instances rows2 ->
  Forall (fun r => length r = max_query_length1) all_sentences1 ->
  Forall (fun r => length r = max_query_length2) all_sentences2 ->
  (i + length instances <= length all_sentences1)%nat ->
  (i + length instances <= length all_sentences2)%nat ->
  (i + length instances <= length lengths)%nat ->
  fill_queries instances i dictionary max_query_length1 max_query_length2
    all_sentences1 all_sentences2 lengths
  = Return (take i all_sentences1 ++ rows1
              ++ drop (i + length instances) all_sentences1,
            take i all_sentences2 ++ rows2
              ++ drop (i + length instances) all_sentences2,
            take i lengths
              ++ map (fun instance =>
                        Z.of_nat (length (sentence2 instance)) - 1)%Z
                   instances
              ++ drop (i + length instances) lengths).
Proof.
  intros H1. revert rows2 i all_sentences1 all_sentences2 lengths.
  induction H1 as [|instance row1 instances rows1 Hrow1 _ IH];
    intros rows2 i all1 all2 lens H2 Hw1 Hw2 Hl1 Hl2 Hl3.
  - apply Forall2_nil_inv_l in H2 as ->. simpl.
    rewrite Nat.add_0_r, !take_drop. reflexivity.
  - apply Forall2_cons_inv_l in H2 as (row2 & rows2' & Hrow2 & H2 & ->).
    simpl in *. rewrite Hrow1. simpl.
    pose proof (sentence_to_tensor_length _ _ _ _ Hrow1) as Hlen1.
    pose proof (sentence_to_tensor_length _ _ _ _ Hrow2) as Hlen2.
    rewrite setrow_Return by (try rewrite Hlen1; first [lia | assumption]).
    simpl. rewrite Hrow2. simpl.
    rewrite setrow_Return by (try rewrite Hlen2; first [lia | assumption]).
    simpl. rewrite setitem_Return by lia. simpl.
    rewrite (IH rows2') by
      (try rewrite length_insert; try apply Forall_insert_width;
       first [assumption | lia]).
    rewrite !insert_middle by lia. reflexivity.
Qed.

Lemma fill_queries_Return (dictionary : Vocabulary)
  (max_query_length1 max_query_length2 : nat)
  (instances : list Instance) (i : nat)
  (all_sentences1 all_sentences2 : list (list Z)) (lengths : list Z)
  (r : list (list Z) * list (list Z) * list Z) :
  fill_queries instances i dictionary max_query_length1 max_query_length2
    all_sentences1 all_sentences2 lengths = Return r ->
  exists rows1 rows2,
    Forall2 (fun instance row =>
               sentence_to_tensor (sentence1 instance) max_query_length1
                 dictionary = Return row) instances rows1
    /\ Forall2 (fun instance row =>
                  sentence_to_tensor (sentence2 instance) max_query_length2
                    dictionary = Return row) instances rows2.
Proof.
  revert i all_sentences1 all_sentences2 lengths.
  induction instances as [|instance instances IH];
    intros i all1 all2 lens H.
  - exists [], []. split; constructor.
  - simpl in H.
    destruct (sentence_to_tensor (sentence1 instance) max_query_length1
                dictionary) as [row1|] eqn:E1; [|discriminate].
    simpl in H. destruct (setrow all1 i row1) as [all1'|]; [|discriminate].
    simpl in H.
    destruct (sentence_to_tensor (sentence2 instance) max_query_length2
                dictionary) as [row2|] eqn:E2; [|discriminate].
    simpl in H. destruct (setrow all2 i row2) as [all2'|]; [|discriminate].
    simpl in H.
    destruct (setitem lens i _) as [lens'|]; [|discriminate].
    simpl in H. apply IH in H as (rows1 & rows2 & H1 & H2).
    exists (row1 :: rows1), (row2 :: rows2).
    split; constructor; assumption.
Qed.



(** X18: [queries_to_tensors] returns exactly the three tensors made of
    one row per instance: the tensor of its [sentence1] padded to the
    longest first sentence, the one of its [sentence2] padded to the longest
    second sentence, and [len(sentence2) - 1], which is [-1] for an empty
    sentence.  Nothing of the uninitialised allocations is left. *)
Theorem queries_to_tensors_rows (memory : nat -> nat -> nat -> Z)
  (instances : list Instance) (dictionary : Vocabulary)
  (a1 a2 : list (list Z)) (lengths : list Z) :
  queries_to_tensors memory instances dictionary = Return (a1, a2, lengths)
  <-> Forall2 (fun instance row =>
                 sentence_to_tensor (sentence1 instance)
                   (list_max (map (fun item => length (sentence1 item))
                                instances))
                   dictionary = Return row) instances a1
      /\ Forall2 (fun instance row =>
                    sentence_to_tensor (sentence2 instance)
                      (list_max (map (fun item => length (sentence2 item))
                                   instances))
                      dictionary = Return row) instances a2
      /\ lengths = map (fun instance =>
                          Z.of_nat (length (sentence2 instance)) - 1)%Z
                     instances.
Proof.
  unfold queries_to_tensors. rewrite max_query_lengths_spec.
  set (m1 := list_max (map (fun item => length (sentence1 item)) instances)).
  set (m2 := list_max (map (fun item => length (sentence2 item)) instances)).
  destruct (LongTensor2_shape (memory 0%nat) (length instances) m1)
    as [Hl1 Hw1].
  destruct (LongTensor2_shape (memory 1%nat) (length instances) m2)
    as [Hl2 Hw2].
  assert (Hl3 : length (LongTensor1 (memory 2%nat 0%nat) (length instances))
                = length instances).
  { unfold LongTensor1. rewrite length_map, length_seq. reflexivity. }
  assert (Hrows : forall rows1 rows2,
    Forall2 (fun instance row =>
               sentence_to_tensor (sentence1 instance) m1 dictionary
               = Return row) instances rows1 ->
    Forall2 (fun instance row =>
               sentence_to_tensor (sentence2 instance) m2 dictionary
               = Return row) instances rows2 ->
    fill_queries instances 0 dictionary m1 m2
      (LongTensor2 (memory 0%nat) (length instances) m1)
      (LongTensor2 (memory 1%nat) (length instances) m2)
      (LongTensor1 (memory 2%nat 0%nat) (length instances))
    = Return (rows1, rows2,
              map (fun instance =>
                     Z.of_nat (length (sentence2 instance)) - 1)%Z
                instances)).
  { intros rows1 rows2 H1 H2.
    rewrite (fill_queries_rows _ _ _ _ rows1 rows2) by
      first [assumption | lia].
    simpl. rewrite !drop_ge, !app_nil_r by lia. reflexivity. }
  split.
  - intros H. destruct (fill_queries_Return _ _ _ _ _ _ _ _ _ H)
      as (rows1 & rows2 & H1 & H2).
    rewrite (Hrows rows1 rows2 H1 H2) in H.
    injection H as <- <- <-. repeat split; assumption.
  - intros (H1 & H2 & ->). apply Hrows; assumption.
Qed.

Lemma queries_to_tensors_rows_witness :
  queries_to_tensors stale_memory example_instances example_vocabulary
  = Return ([[2; 3]; [3; 0]]%Z, [[1]; [0]]%Z, [0; -1]%Z).
Proof.
  apply (proj2 (queries_to_tensors_rows stale_memory example_instances
                  example_vocabulary _ _ _)).
  split; [|split];
    [repeat (constructor; [vm_compute; reflexivity|]); constructor ..
    | reflexivity].
Defined.




(** ** [sequence_mask] and [mask] *)

Lemma sequence_mask_given (sequence_length : list Z) (max_len : Z) :
  sequence_mask sequence_length (Some max_len)
  = if (max_len <? 1)%Z then Throw RuntimeError
    else Return ((fun l => (fun j => (Z.of_nat j <? l)%Z)
                             <$> seq 0 (Z.to_nat max_len))
                   <$> sequence_length).
Proof.
  unfold sequence_mask, torch_range. simpl.
  destruct (Z.ltb_spec (max_len - 1) 0), (Z.ltb_spec max_len 1);
    try lia; [reflexivity|]. simpl. f_equal.
  replace (Z.to_nat (max_len - 1 - 0 + 1)) with (Z.to_nat max_len) by lia.
  rewrite zip_with_replicate_l by (rewrite length_fmap; lia).
  rewrite <- list_fmap_compose. apply list_fmap_ext. intros _ l _. simpl.
  rewrite zip_with_replicate_r_eq
    by (rewrite length_fmap, length_seq; reflexivity).
  rewrite <- list_fmap_compose. reflexivity.
Qed.

Lemma fold_max_spec (t : list Z) (x : Z) :
  (x <= fold_left Z.max t x)%Z
  /\ Forall (fun l => (l <= fold_left Z.max t x)%Z) t
  /\ (fold_left Z.max t x = x \/ In (fold_left Z.max t x) t).
Proof.
  revert x. induction t as [|y t IH]; intros x; simpl.
  - split; [lia|]. split; [constructor | left; reflexivity].
  - destruct (IH (Z.max x y)) as (H1 & H2 & H3).
    split; [lia|]. split; [constructor; [lia | exact H2]|].
    destruct H3 as [H3|H3]; [|right; right; exact H3].
    rewrite H3. destruct (Z.max_spec x y) as [[_ ->]|[_ ->]]; auto.
Qed.

Lemma tensor_max_Return (t : list Z) (m : Z) :
  tensor_max t = Return m ->
  Forall (fun l => (l <= m)%Z) t /\ In m t.
Proof.
  destruct t as [|x t]; [discriminate|]. simpl. intros H.
  injection H as <-. destruct (fold_max_spec t x) as (H1 & H2 & H3).
  split; [constructor; assumption|].
  destruct H3 as [->|H3]; [left; reflexivity | right; exact H3].
Qed.

Lemma mask_row (l : Z) (n : nat) :
  (fun j => (Z.of_nat j <? l)%Z) <$> seq 0 n
  = replicate (Z.to_nat l `min` n) true ++ replicate (n - Z.to_nat l) false.
Proof.
  induction n as [|n IH]; [rewrite Nat.min_0_r; reflexivity|].
  rewrite seq_S, fmap_app, IH. simpl.
  destruct (Z.ltb_spec (Z.of_nat n) l) as [H|H].
  - replace (Z.to_nat l `min` n)%nat with n by lia.
    replace (Z.to_nat l `min` S n)%nat with (S n) by lia.
    replace (n - Z.to_nat l)%nat with 0%nat by lia.
    replace (S n - Z.to_nat l)%nat with 0%nat by lia.
    rewrite replicate_S_end. simpl. rewrite !app_nil_r. reflexivity.
  - replace (Z.to_nat l `min` S n)%nat with (Z.to_nat l `min` n)%nat by lia.
    replace (S n - Z.to_nat l)%nat with (S (n - Z.to_nat l)) by lia.
    rewrite replicate_S_end, app_assoc. reflexivity.
Qed.

(** X20: a mask [sequence_mask] returns has one row for every entry of
    [sequence_length]: as many ones as the length says, at most the width
    of the mask, then zeros, and no one for a negative length.  The width
    is [max_len], which is at least 1; when [max_len] is left out it is the
    largest of the lengths, so that every row shows its length in full. *)
Theorem sequence_mask_rows (sequence_length : list Z) (max_len : option Z)
  (m : list (list bool)) :
  sequence_mask sequence_length max_len = Return m ->
  exists width : nat,
    (1 <= width)%nat
    /\ match max_len with
       | Some L => L = Z.of_nat width
       | None => Forall (fun l => (l <= Z.of_nat width)%Z) sequence_length
                 /\ In (Z.of_nat width) sequence_length
       end
    /\ Forall2 (fun l row =>
                  row = replicate (Z.to_nat l `min` width) true
                        ++ replicate (width - Z.to_nat l) false)
         sequence_length m.
Proof.
  intros H.
  assert (Hgiven : forall L, sequence_mask sequence_length (Some L) = Return m ->
            (1 <= Z.to_nat L)%nat /\ L = Z.of_nat (Z.to_nat L)
            /\ Forall2 (fun l row =>
                          row = replicate (Z.to_nat l `min` Z.to_nat L) true
                                ++ replicate (Z.to_nat L - Z.to_nat l) false)
                 sequence_length m).
  { intros L HL. rewrite sequence_mask_given in HL.
    destruct (Z.ltb_spec L 1); [discriminate|]. injection HL as <-.
    split; [lia|]. split; [lia|].
    apply Forall2_fmap_r, Forall_Forall2_diag, List.Forall_forall.
    intros l _. apply mask_row. }
  destruct max_len as [L|].
  - destruct (Hgiven L H) as (H1 & H2 & H3).
    exists (Z.to_nat L). repeat split; assumption.
  - unfold sequence_mask in H.
    destruct (tensor_max sequence_length) as [L|] eqn:E; [|discriminate].
    destruct (Hgiven L H) as (H1 & H2 & H3).
    apply tensor_max_Return in E as [Hle Hin].
    exists (Z.to_nat L). rewrite <- H2. repeat split; assumption.
Qed.

Lemma sequence_mask_rows_witness :
  exists width : nat,
    (1 <= width)%nat
    /\ (Forall (fun l => (l <= Z.of_nat width)%Z) [2; 0; 3; -1]%Z
        /\ In (Z.of_nat width) [2; 0; 3; -1]%Z)
    /\ Forall2 (fun l row =>
                  row = replicate (Z.to_nat l `min` width) true
                        ++ replicate (width - Z.to_nat l) false)
         [2; 0; 3; -1]%Z
         [[true; true; false]; [false; false; false];
          [true; true; true]; [false; false; false]].
Proof.
  apply (sequence_mask_rows [2; 0; 3; -1]%Z None).
  vm_compute. reflexivity.
Defined.

(** X21: [sequence_mask] returns exactly when the width of the mask is at
    least 1: the [max_len] that is given, or without it some length in
    [sequence_length].  It raises [RuntimeError] otherwise, so on an empty
    batch and on a batch of empty sequences when [max_len] is left out. *)
Theorem sequence_mask_outcome (sequence_length : list Z)
  (max_len : option Z) :
  (returns (sequence_mask sequence_length max_len)
   <-> match max_len with
       | Some L => (1 <= L)%Z
       | None => Exists (fun l => (1 <= l)%Z) sequence_length
       end)
  /\ (forall e, sequence_mask sequence_length max_len = Throw e ->
                e = RuntimeError).
Proof.
  assert (Hgiven : forall L,
    (returns (sequence_mask sequence_length (Some L)) <-> (1 <= L)%Z)
    /\ (forall e, sequence_mask sequence_length (Some L) = Throw e ->
                  e = RuntimeError)).
  { intros L. rewrite sequence_mask_given.
    destruct (Z.ltb_spec L 1); simpl.
    - split; [split; [tauto | lia] | congruence].
    - split; [split; [lia | tauto] | discriminate]. }
  destruct max_len as [L|]; [apply Hgiven|].
  destruct (tensor_max sequence_length) as [L|e0] eqn:E.
  - replace (sequence_mask sequence_length None)
      with (sequence_mask sequence_length (Some L))
      by (unfold sequence_mask; rewrite E; reflexivity).
    destruct (Hgiven L) as [Hiff Hexn].
    split; [|exact Hexn]. rewrite Hiff.
    apply tensor_max_Return in E as [Hle Hin]. split.
    + intros HL. apply List.Exists_exists. exists L. split; assumption.
    + intros Hex. apply List.Exists_exists in Hex as (l & Hl & H1).
      rewrite List.Forall_forall in Hle. specialize (Hle l Hl). lia.
  - unfold sequence_mask. rewrite E. simpl.
    destruct sequence_length as [|x t]; [|discriminate].
    injection E as <-. split; [|congruence].
    split; [tauto|]. intros Hex. inversion Hex.
Qed.

Lemma sequence_mask_outcome_witness :
  returns (sequence_mask [2; 0; 3]%Z (Some 2%Z))
  /\ ~ returns (sequence_mask [0; 0]%Z None).
Proof.
  split.
  - apply (proj1 (sequence_mask_outcome [2; 0; 3]%Z (Some 2%Z))). lia.
  - intros Hr.
    apply (proj1 (proj1 (sequence_mask_outcome [0; 0]%Z None))) in Hr.
    apply List.Exists_exists in Hr as (l & Hl & H1).
    simpl in Hl. lia.
Defined.

(** X22: [mask] is a column of [sequence_mask]: for an index [seq_idx]
    inside the mask, the entry of every row at [seq_idx] is the entry
    [mask(sequence_length, seq_idx)] has for that row. *)
Theorem mask_column (sequence_length : list Z) (max_len : option Z)
  (m : list (list bool)) (seq_idx : nat) :
  sequence_mask sequence_length max_len = Return m ->
  Forall (fun row => (seq_idx < length row)%nat) m ->
  (fun row => row !! seq_idx) <$> m
  = Some <$> mask sequence_length (Z.of_nat seq_idx).
Proof.
  intros H Hidx.
  assert (Hgiven : exists L,
            sequence_mask sequence_length (Some L) = Return m).
  { destruct max_len as [L|]; [eauto|]. unfold sequence_mask in H.
    destruct (tensor_max sequence_length) as [L|] eqn:E; [|discriminate].
    exists L. exact H. }
  destruct Hgiven as [L HL]. rewrite sequence_mask_given in HL.
  destruct (Z.ltb_spec L 1); [discriminate|]. injection HL as <-.
  unfold mask. rewrite zip_with_replicate_l by lia.
  rewrite <- !list_fmap_compose.
  apply list_fmap_ext. intros i l Hl. simpl.
  rewrite Forall_fmap, Forall_lookup in Hidx.
  specialize (Hidx i l Hl). simpl in Hidx.
  rewrite length_fmap, length_seq in Hidx.
  rewrite list_lookup_fmap, lookup_seq_lt by exact Hidx. reflexivity.
Qed.

Lemma mask_column_witness :
  (fun row => row !! 1%nat)
    <$> [[true; true; false]; [false; false; false]; [true; true; true]]
  = Some <$> mask [2; 0; 3]%Z (Z.of_nat 1).
Proof.
  apply (mask_column [2; 0; 3]%Z None).
  - vm_compute. reflexivity.
  - repeat constructor.
Defined.

(** ** [normalize_word_embedding] *)







(** ** [convert_to_minutes] *)


(** ** [load_model_states_without_dataparallel] *)

Lemma od_setitem_fresh {V : Type} (d : list (string * V)) (k : string)
  (v : V) :
  k ∉ d.*1 -> od_setitem d k v = d ++ [(k, v)].
Proof.
  induction d as [|[k' v'] d IH]; intros Hk; [reflexivity|].
  simpl in *. apply not_elem_of_cons in Hk as [Hne Hk].
  destruct (String.eqb_spec k' k) as [->|_]; [congruence|].
  rewrite IH by exact Hk. reflexivity.
Qed.

Lemma strip_data_parallel {V : Type} (d acc : list (string * V)) :
  NoDup ((acc ++ d).*1) ->
  fold_left (fun new_state_dict '(k, v) =>
               od_setitem new_state_dict (string_from 7 k) v)
    (data_parallel d) acc
  = acc ++ d.
Proof.
  revert acc. induction d as [|[k v] d IH]; intros acc Hnd.
  - simpl. rewrite app_nil_r. reflexivity.
  - unfold data_parallel. rewrite fmap_cons. cbn [fold_left].
    change (string_from 7 ("module." +:+ k)) with k.
    rewrite od_setitem_fresh.
    + fold (data_parallel d).
      rewrite IH; rewrite <- app_assoc; [reflexivity | exact Hnd].
    + rewrite fmap_app in Hnd. apply NoDup_app in Hnd as (_ & Hdis & _).
      intros Hin. apply (Hdis k Hin). simpl. apply list_elem_of_here.
Qed.

(** X25: [load_model_states_without_dataparallel] undoes the prefix of
    [DataParallel]: when the file holds a state dict whose keys all carry
    the prefix [module.] in front of keys that differ from one another, the
    model is given those keys without the prefix, with their values and in
    their order.  A file that does not exist fails the assertion. *)
Theorem load_model_states_strips_prefix {V M : Type}
  (exists_ : string -> bool)
  (torch_load : string -> outcome (list (string * V)))
  (load_state_dict : list (string * V) -> outcome M)
  (filename : string) (state_dict : list (string * V)) :
  NoDup (state_dict.*1) ->
  torch_load filename = Return (data_parallel state_dict) ->
  load_model_states_without_dataparallel exists_ torch_load load_state_dict
    filename
  = if exists_ filename then load_state_dict state_dict
    else Throw AssertionError.
Proof.
  intros Hnd Hload. unfold load_model_states_without_dataparallel.
  destruct (exists_ filename); [|reflexivity]. simpl.
  rewrite Hload. simpl. rewrite strip_data_parallel by exact Hnd.
  reflexivity.
Qed.

Lemma load_model_states_strips_prefix_witness :
  load_model_states_without_dataparallel (fun _ => true)
    (fun _ => Return [("module.embedding.weight", 1%Z);
                      ("module.decoder.bias", 2%Z)])
    (fun d => Return d) "model.pt"
  = Return [("embedding.weight", 1%Z); ("decoder.bias", 2%Z)].
Proof.
  apply (load_model_states_strips_prefix (fun _ => true)
           (fun _ => Return [("module.embedding.weight", 1%Z);
                             ("module.decoder.bias", 2%Z)])
           (fun d => Return d) "model.pt"
           [("embedding.weight", 1%Z); ("decoder.bias", 2%Z)]).
  - apply NoDup_cons. split; [|apply NoDup_singleton].
    intros Hin. apply list_elem_of_singleton in Hin. discriminate.
  - reflexivity.
Defined.

End HelperUtils.
